(** * Account life-cycle and ledger model of the reseller network

    A shallow embedding of [src/domain_models.py] and of the parts of
    [src/server.py] that drive it: Python dictionaries are finite maps from
    strings to Python values, exceptions are an explicit result type, and
    Python floats are IEEE binary64 floats. *)

From Stdlib Require Import ZArith Ascii.
From Stdlib Require Import Floats.PrimFloat Floats.SpecFloat Floats.FloatOps.
From stdpp Require Import base option list gmap strings pretty sorting.

#[local] Set Warnings "-register-all,-inexact-float".
#[local] Open Scope Z_scope.

(** ** Exceptions *)

(** The exceptions the modelled code can meet.  [NotModelled] marks the few
    builtin behaviours that lie outside the embedding (the [repr] of floats
    and containers, numerals written with non-ASCII digits or longer than
    the interpreter's digit limit, ordering of role values that are not
    strings); no handler of the program catches it. *)
Inductive exn :=
| TypeError | ValueError | AttributeError | OverflowError | ZeroDivisionError
| NotModelled.

Inductive result (A : Type) :=
| Ok (a : A)
| Raise (e : exn).
Arguments Ok {A} a.
Arguments Raise {A} e.

#[export] Instance result_ret : MRet result := @Ok.
#[export] Instance result_bind : MBind result := λ A B f m,
  match m with
  | Ok a => f a
  | Raise e => Raise e
  end.

(** [try: ... except (TypeError, ValueError): ...] *)
Definition try_except {A} (body : result A) (handler : result A) : result A :=
  match body with
  | Raise TypeError | Raise ValueError => handler
  | r => r
  end.

Definition is_Ok {A} (r : result A) : bool :=
  match r with Ok _ => true | Raise _ => false end.

(** ** Python values *)

Inductive value :=
| VNone
| VBool (b : bool)
| VInt (z : Z)
| VFloat (f : float)
| VStr (s : string)
| VList (l : list value)
| VDict (d : gmap string value).

Abbreviation dict := (gmap string value).

(** ** Floats *)

Definition prec : Z := 53.
Definition emax : Z := 1024.

Definition SF_of_Z (z : Z) : spec_float := binary_normalize prec emax z 0 false.

(** The correctly rounded quotient [n / d] of two positive integers. *)
Definition SF_of_ratio (s : bool) (n d : positive) : spec_float :=
  SFdiv prec emax (S754_finite s n 0) (S754_finite false d 0).

(** [float(z)] for an int: round to nearest even, [OverflowError] when the
    result is not finite. *)
Definition float_of_Z (z : Z) : result float :=
  match SF_of_Z z with
  | S754_infinity _ => Raise OverflowError
  | x => Ok (SF2Prim x)
  end.

Definition SF_signed_Z (s : bool) (m : positive) : Z :=
  if s then Z.neg m else Z.pos m.

(** [int(f)] for a float: truncation toward zero. *)
Definition int_of_float (f : float) : result Z :=
  match Prim2SF f with
  | S754_zero _ => Ok 0
  | S754_finite s m e =>
      Ok (if 0 <=? e then SF_signed_Z s m * 2 ^ e
          else Z.quot (SF_signed_Z s m) (2 ^ (- e)))
  | S754_infinity _ => Raise OverflowError
  | S754_nan => Raise ValueError
  end.

(** The integer a float is exactly equal to, if any. *)
Definition exact_Z_of_float (f : float) : option Z :=
  match Prim2SF f with
  | S754_zero _ => Some 0
  | S754_finite s m e =>
      if 0 <=? e then Some (SF_signed_Z s m * 2 ^ e)
      else if Z.pos m mod 2 ^ (- e) =? 0
           then Some (Z.quot (SF_signed_Z s m) (2 ^ (- e)))
           else None
  | _ => None
  end.

Definition round_half_even (num den : Z) : Z :=
  let q := num / den in
  let r := num mod den in
  if 2 * r <? den then q
  else if den <? 2 * r then q + 1
  else if Z.even q then q else q + 1.

(** [round(x, 2)]: the exact binary value is rounded half-even to two
    decimals and the decimal result is converted back, correctly rounded;
    zeros, infinities and NaN are returned unchanged. *)
Definition py_round2 (x : float) : float :=
  match Prim2SF x with
  | S754_finite s m e =>
      let n := if 0 <=? e then 100 * Z.pos m * 2 ^ e
               else round_half_even (100 * Z.pos m) (2 ^ (- e)) in
      match n with
      | Z.pos p => SF2Prim (SF_of_ratio s p 100)
      | _ => SF2Prim (S754_zero s)
      end
  | _ => x
  end.

Definition float_is_zero (f : float) : bool := PrimFloat.eqb f 0%float.

(** [a / b] on floats: a zero divisor raises. *)
Definition py_truediv (a b : float) : result float :=
  if float_is_zero b then Raise ZeroDivisionError else Ok (a / b)%float.

(** ** Numerals in strings: [float(str)] and [int(str)] *)

Definition is_ascii (c : ascii) : bool := (N_of_ascii c <? 128)%N.

Definition is_space (c : ascii) : bool :=
  let n := N_of_ascii c in ((9 <=? n) && (n <=? 13) || (n =? 32))%N.

Definition digit_of (c : ascii) : option Z :=
  let n := N_of_ascii c in
  if ((48 <=? n) && (n <=? 57))%N then Some (Z.of_N n - 48) else None.

Definition is_digit (c : ascii) : bool :=
  match digit_of c with Some _ => true | None => false end.

Definition lower (c : ascii) : ascii :=
  let n := N_of_ascii c in
  if ((65 <=? n) && (n <=? 90))%N then ascii_of_N (n + 32) else c.

Fixpoint drop_spaces (l : list ascii) : list ascii :=
  match l with
  | c :: l' => if is_space c then drop_spaces l' else l
  | [] => []
  end.

Definition strip (l : list ascii) : list ascii :=
  reverse (drop_spaces (reverse (drop_spaces l))).

Definition is_underscore (c : ascii) : bool := Ascii.eqb c "_".

(** Underscores are allowed between two digits only. *)
Fixpoint drop_underscores (prev : option ascii) (l : list ascii)
  : option (list ascii) :=
  match l with
  | [] =>
      match prev with
      | Some p => if is_underscore p then None else Some []
      | None => Some []
      end
  | c :: l' =>
      if is_underscore c then
        match prev with
        | Some p => if is_digit p then drop_underscores (Some c) l' else None
        | None => None
        end
      else
        match prev with
        | Some p =>
            if is_underscore p && negb (is_digit c) then None
            else (c ::.) <$> drop_underscores (Some c) l'
        | None => (c ::.) <$> drop_underscores (Some c) l'
        end
  end.

Definition read_sign (l : list ascii) : bool * list ascii :=
  match l with
  | c :: l' =>
      if Ascii.eqb c "-" then (true, l')
      else if Ascii.eqb c "+" then (false, l')
      else (false, l)
  | [] => (false, [])
  end.

(** Reads a run of digits: its value, its length and the rest. *)
Fixpoint read_digits (acc : Z) (n : nat) (l : list ascii)
  : Z * nat * list ascii :=
  match l with
  | c :: l' =>
      match digit_of c with
      | Some d => read_digits (10 * acc + d) (S n) l'
      | None => (acc, n, l)
      end
  | [] => (acc, n, [])
  end.

(** The float nearest to [(-1)^s * m * 10^e]. *)
Definition SF_of_decimal (s : bool) (m e : Z) : spec_float :=
  match m with
  | Z.pos p =>
      if 0 <=? e
      then binary_normalize prec emax (SF_signed_Z s p * 10 ^ e) 0 s
      else SF_of_ratio s p (Z.to_pos (10 ^ (- e)))
  | _ => S754_zero s
  end.

Definition word_is (w : string) (l : list ascii) : bool :=
  bool_decide (lower <$> l = String.list_ascii_of_string w).

(** The grammar of [float(str)] on ASCII text: surrounding blanks, a sign,
    then [inf], [infinity], [nan], or a decimal with optional fraction and
    exponent; anything else is a [ValueError]. *)
Definition parse_float (s : string) : result float :=
  let l := String.list_ascii_of_string s in
  if negb (forallb is_ascii l) then Raise NotModelled else
  match drop_underscores None (strip l) with
  | None => Raise ValueError
  | Some l =>
      let '(sg, l) := read_sign l in
      if word_is "inf" l || word_is "infinity" l
      then Ok (SF2Prim (S754_infinity sg))
      else if word_is "nan" l then Ok (SF2Prim S754_nan)
      else
        let '(ip, n1, l) := read_digits 0 0 l in
        let '(m, n2, l) :=
          match l with
          | c :: l' => if Ascii.eqb c "." then read_digits ip 0 l' else (ip, 0%nat, l)
          | [] => (ip, 0%nat, l)
          end in
        if bool_decide (n1 + n2 = 0)%nat then Raise ValueError else
        match l with
        | [] => Ok (SF2Prim (SF_of_decimal sg m (- Z.of_nat n2)))
        | c :: l' =>
            if Ascii.eqb (lower c) "e" then
              let '(se, l') := read_sign l' in
              match read_digits 0 0 l' with
              | (ex, S _, []) =>
                  Ok (SF2Prim (SF_of_decimal sg m
                                 ((if se then - ex else ex) - Z.of_nat n2)))
              | _ => Raise ValueError
              end
            else Raise ValueError
        end
  end.

(** The interpreter refuses to convert numerals of more than this many
    digits, depending on its version and configuration. *)
Definition max_str_digits : nat := 4300.

(** The grammar of [int(str)] in base 10 on ASCII text. *)
Definition parse_int (s : string) : result Z :=
  let l := String.list_ascii_of_string s in
  if negb (forallb is_ascii l) then Raise NotModelled else
  if bool_decide (max_str_digits < length l)%nat then Raise NotModelled else
  match drop_underscores None (strip l) with
  | None => Raise ValueError
  | Some l =>
      let '(sg, l) := read_sign l in
      match read_digits 0 0 l with
      | (n, S _, []) => Ok (if sg then - n else n)
      | _ => Raise ValueError
      end
  end.

(** ** Operations on Python values *)

(** Truth value testing ([bool(x)], [not x], [x or y]). *)
Definition py_truthy (v : value) : bool :=
  match v with
  | VNone => false
  | VBool b => b
  | VInt z => negb (z =? 0)
  | VFloat f => negb (float_is_zero f)
  | VStr s => negb (String.eqb s "")
  | VList l => match l with [] => false | _ => true end
  | VDict d => negb (bool_decide (d = ∅))
  end.

Definition py_or (a b : value) : value := if py_truthy a then a else b.

Definition num_of (v : value) : option (Z + float) :=
  match v with
  | VBool b => Some (inl (if b then 1 else 0))
  | VInt z => Some (inl z)
  | VFloat f => Some (inr f)
  | _ => None
  end.

Definition num_eq (a b : Z + float) : bool :=
  match a, b with
  | inl x, inl y => x =? y
  | inl x, inr f | inr f, inl x =>
      match exact_Z_of_float f with
      | Some y => x =? y
      | None => false
      end
  | inr f, inr g => PrimFloat.eqb f g
  end.

(** [a == b].  Numbers compare by value across [bool], [int] and [float];
    containers compare element by element.  Python compares the elements of
    a container by identity before [==]; values here carry no identity, so
    a NaN inside a list or dict is compared by [==] alone. *)
Fixpoint py_eq (a b : value) : bool :=
  match a, b with
  | VNone, VNone => true
  | VStr s, VStr t => String.eqb s t
  | VList l, VList l' =>
      (fix go (l l' : list value) : bool :=
         match l, l' with
         | [], [] => true
         | x :: l, y :: l' => py_eq x y && go l l'
         | _, _ => false
         end) l l'
  | VDict d, VDict d' =>
      bool_decide (dom d = dom d') &&
      map_fold (λ k v acc,
                acc && match d' !! k with
                       | Some v' => py_eq v v'
                       | None => false
                       end) true d
  | _, _ =>
      match num_of a, num_of b with
      | Some x, Some y => num_eq x y
      | _, _ => false
      end
  end.

(** Lists and dicts are unhashable: looking them up in a set literal raises
    [TypeError]. *)
Definition hashable (v : value) : bool :=
  match v with
  | VList _ | VDict _ => false
  | _ => true
  end.

(** [x in {c1, c2, ...}] for a set literal of constants. *)
Definition in_set (x : value) (cs : list value) : result bool :=
  if hashable x then Ok (existsb (py_eq x) cs) else Raise TypeError.

(** [x in (c1, c2, ...)] for a tuple of constants. *)
Definition in_tuple (x : value) (cs : list value) : bool :=
  existsb (py_eq x) cs.

(** [s in t] on strings: [s] occurs in [t]. *)
Fixpoint is_substring (s t : string) : bool :=
  String.prefix s t ||
  match t with
  | EmptyString => false
  | String _ t' => is_substring s t'
  end.

(** [x in c] for a container [c] found in a record. *)
Definition py_contains (x : string) (c : value) : result bool :=
  match c with
  | VList l => Ok (existsb (py_eq (VStr x)) l)
  | VStr t => Ok (is_substring x t)
  | VDict d => Ok (bool_decide (is_Some (d !! x)))
  | VNone | VBool _ | VInt _ | VFloat _ => Raise TypeError
  end.

(** [d.get(k)] and [d.get(k, default)]. *)
Definition get (d : dict) (k : string) : value := default VNone (d !! k).
Definition get_default (d : dict) (k : string) (dflt : value) : value :=
  default dflt (d !! k).

(** [d.setdefault(k, v)] as the new dict; the caller reads the stored value
    back with [get]. *)
Definition setdefault (d : dict) (k : string) (v : value) : dict :=
  match d !! k with
  | Some _ => d
  | None => <[k := v]> d
  end.

(** [k in d]. *)
Definition has_key (d : dict) (k : string) : bool :=
  bool_decide (is_Some (d !! k)).

(** [str(x)].  The text of an int beyond the digit limit depends on the
    interpreter, like the rendering of floats and containers. *)
Definition py_str (v : value) : result string :=
  match v with
  | VStr s => Ok s
  | VNone => Ok "None"%string
  | VBool b => Ok (if b then "True" else "False")%string
  | VInt z =>
      if Z.abs z <? 10 ^ Z.of_nat max_str_digits then Ok (pretty z)
      else Raise NotModelled
  | VFloat _ | VList _ | VDict _ => Raise NotModelled
  end.

(** [float(x)]. *)
Definition py_float (v : value) : result float :=
  match v with
  | VBool b => Ok (if b then 1 else 0)%float
  | VInt z => float_of_Z z
  | VFloat f => Ok f
  | VStr s => parse_float s
  | VNone | VList _ | VDict _ => Raise TypeError
  end.

(** [int(x)]. *)
Definition py_int (v : value) : result Z :=
  match v with
  | VBool b => Ok (if b then 1 else 0)
  | VInt z => Ok z
  | VFloat f => int_of_float f
  | VStr s => parse_int s
  | VNone | VList _ | VDict _ => Raise TypeError
  end.

(** [dict(x)]: a copy of a dict, the empty dict for an empty sequence. *)
Definition py_dict (v : value) : result dict :=
  match v with
  | VDict d => Ok d
  | VList [] => Ok ∅
  | VList (_ :: _) => Raise NotModelled
  | VStr s => if String.eqb s "" then Ok ∅ else Raise ValueError
  | VNone | VBool _ | VInt _ | VFloat _ => Raise TypeError
  end.

(** [f * n] and [f / n] for a float and an int: the int is converted
    first, and a divisor that converts to zero raises. *)
Definition float_mul_int (f : float) (n : Z) : result float :=
  n' ← float_of_Z n; Ok (f * n')%float.
Definition float_div_int (f : float) (n : Z) : result float :=
  match SF_of_Z n with
  | S754_infinity _ => Raise OverflowError
  | S754_zero _ => Raise ZeroDivisionError
  | x => Ok (f / SF2Prim x)%float
  end.

Definition opt_value (o : option string) : value :=
  match o with
  | Some s => VStr s
  | None => VNone
  end.

(** ** Constants *)

Definition ACCOUNT_STATUS_AGENT_STOCK : string := "agent_stock".
Definition ACCOUNT_STATUS_DISTRIBUTOR_STOCK : string := "distributor_stock".
Definition ACCOUNT_STATUS_SOLD : string := "sold".

Definition SALE_TYPE_DIRECT : string := "direct_sale".
Definition SALE_TYPE_DISTRIBUTION : string := "distribution_sale".

Definition ROLE_ADMIN : string := "admin".
Definition ROLE_AGENT : string := "agent".
Definition ROLE_DISTRIBUTOR : string := "distributor".
Definition ROLE_CUSTOMER : string := "customer".

Definition TRANSACTION_ADMIN_TO_AGENT : string := "admin_to_agent_wholesale".
Definition TRANSACTION_AGENT_PURCHASE : string := "agent_purchase".
Definition TRANSACTION_AGENT_DIRECT_SALE : string := "agent_direct_sale".
Definition TRANSACTION_AGENT_TO_DISTRIBUTOR : string := "agent_to_distributor_wholesale".
Definition TRANSACTION_DISTRIBUTOR_SALE : string := "distributor_sale".
Definition TRANSACTION_ASSIGNMENT : string := "distribution_assignment".
Definition TRANSACTION_LEGACY : string := "legacy".

(** The localized legacy tokens of the two sale types. *)
Definition LEGACY_DIRECT : string := "总部直销".
Definition LEGACY_DISTRIBUTION : string := "分销售出".

(** ** Account state *)

Module AccountState.

(** The dataclass [AccountState]; its attributes hold whatever the record
    or the caller supplied until [ensure_defaults] has run. *)
Record t := mk {
  owner : value;
  manager : value;
  status : value;
  sale_type : value;
  sold_at : value;
}.

(** [AccountState()] *)
Definition default : t :=
  mk VNone VNone (VStr ACCOUNT_STATUS_AGENT_STOCK) VNone VNone.

Definition with_owner (v : value) (s : t) : t :=
  mk v (manager s) (status s) (sale_type s) (sold_at s).
Definition with_manager (v : value) (s : t) : t :=
  mk (owner s) v (status s) (sale_type s) (sold_at s).
Definition with_status (v : value) (s : t) : t :=
  mk (owner s) (manager s) v (sale_type s) (sold_at s).
Definition with_sale_type (v : value) (s : t) : t :=
  mk (owner s) (manager s) (status s) v (sold_at s).
Definition with_sold_at (v : value) (s : t) : t :=
  mk (owner s) (manager s) (status s) (sale_type s) v.

Definition valid_statuses : list value :=
  [VStr ACCOUNT_STATUS_AGENT_STOCK; VStr ACCOUNT_STATUS_DISTRIBUTOR_STOCK;
   VStr ACCOUNT_STATUS_SOLD].
Definition valid_sale_types : list value :=
  [VStr SALE_TYPE_DIRECT; VStr SALE_TYPE_DISTRIBUTION; VNone].

Definition ensure_defaults (s : t) : result t :=
  let s := if negb (py_truthy (manager s)) then with_manager (owner s) s else s in
  known ← in_set (status s) valid_statuses;
  let s := if negb known then with_status (VStr ACCOUNT_STATUS_AGENT_STOCK) s else s in
  known ← in_set (sale_type s) valid_sale_types;
  let s := if negb known then with_sale_type VNone s else s in
  Ok s.

End AccountState.

(** ** User normalisation helpers *)

Definition _is_inventory_record (data : dict) : result bool :=
  if py_truthy (get data "owner") then Ok true
  else if existsb (has_key data)
            ["forsale"; "distribution_tag"; "distributor_forsale";
             "assigned_distributor"]%string
  then Ok true
  else
    known ← in_set (get data "source")
              [VStr "agent"; VStr "batch"; VStr "distribution";
               VStr "admin_transfer"];
    if (known : bool) then Ok true else Ok false.

Definition str_le (s t : string) : Prop := String.leb s t = true.
#[export] Instance str_le_dec : RelDecision str_le.
Proof. intros s t. unfold str_le. apply _. Defined.

(** [sorted(roles)] for a set of strings. *)
Definition sorted_roles (roles : gset string) : list string :=
  merge_sort str_le (elements roles).

Definition as_str (v : value) : option string :=
  match v with
  | VStr s => Some s
  | _ => None
  end.

(** [set(x)] for the value found under [roles]. *)
Definition role_set (v : value) : result (gset string) :=
  match v with
  | VList l =>
      if negb (forallb hashable l) then Raise TypeError
      else match mapM as_str l with
           | Some ss => Ok (list_to_set ss)
           | None => Raise NotModelled
           end
  | VDict d => Ok (dom d)
  | VStr s =>
      let cs := String.list_ascii_of_string s in
      if forallb is_ascii cs
      then Ok (list_to_set ((λ c : ascii, String c EmptyString) <$> cs))
      else Raise NotModelled
  | VNone | VBool _ | VInt _ | VFloat _ => Raise TypeError
  end.

Definition add_role (flag : value) (role : string) (roles : gset string)
  : gset string :=
  if py_truthy flag then {[role]} ∪ roles else roles.

Definition _normalise_roles (data : dict) : result dict :=
  roles ← role_set (py_or (get data "roles") (VList []));
  let roles := add_role (get data "is_admin") ROLE_ADMIN roles in
  let roles := add_role (get data "is_agent") ROLE_AGENT roles in
  let roles := add_role (get data "is_distributor") ROLE_DISTRIBUTOR roles in
  let roles := if bool_decide (roles = ∅) then {[ROLE_CUSTOMER]} else roles in
  let data := <["roles" := VList (VStr <$> sorted_roles roles)]> data in
  let data := <["is_admin" := VBool (bool_decide (ROLE_ADMIN ∈ roles))]> data in
  let data := <["is_agent" := VBool (bool_decide (ROLE_AGENT ∈ roles))]> data in
  let data := <["is_distributor" := VBool (bool_decide (ROLE_DISTRIBUTOR ∈ roles))]> data in
  Ok data.

(** The record carries one of the business roles. *)
Definition has_business_role (data : dict) : result bool :=
  let roles := get_default data "roles" (VList []) in
  is_agent ← py_contains ROLE_AGENT roles;
  if (is_agent : bool) then Ok true else
  is_admin ← py_contains ROLE_ADMIN roles;
  if (is_admin : bool) then Ok true else
  py_contains ROLE_DISTRIBUTOR roles.

(** The status branch of [_sync_legacy_flags]. *)
Definition mirror_status (state : AccountState.t) (data : dict) : dict :=
  let owner := AccountState.owner state in
  let manager := AccountState.manager state in
  if py_eq (AccountState.status state) (VStr ACCOUNT_STATUS_AGENT_STOCK) then
    let data := <["forsale" := VBool true]> data in
    let data := <["distribution_tag" := VBool false]> data in
    let data := <["distributor_forsale" := VBool false]> data in
    let data := <["distributor_sold" := VBool false]> data in
    delete "assigned_distributor" data
  else if py_eq (AccountState.status state) (VStr ACCOUNT_STATUS_DISTRIBUTOR_STOCK) then
    let data := <["forsale" := VBool false]> data in
    let data := <["distribution_tag" := VBool true]> data in
    let data := <["distributor_forsale" := VBool true]> data in
    let data := <["distributor_sold" := VBool false]> data in
    <["assigned_distributor" := manager]> data
  else
    let managed := py_truthy manager && negb (py_eq manager owner) in
    let data := <["forsale" := VBool false]> data in
    let data := <["distribution_tag" := VBool managed]> data in
    let data := <["distributor_forsale" := VBool false]> data in
    let data := <["distributor_sold" :=
                    VBool (py_eq (AccountState.sale_type state)
                             (VStr SALE_TYPE_DISTRIBUTION))]> data in
    if managed then <["assigned_distributor" := manager]> data
    else if has_key data "assigned_distributor"
         then delete "assigned_distributor" data
         else data.

(** The sale type branch: the localized token, or no field. *)
Definition mirror_sale_type (state : AccountState.t) (data : dict) : dict :=
  if py_eq (AccountState.sale_type state) (VStr SALE_TYPE_DIRECT)
  then <["sale_type" := VStr LEGACY_DIRECT]> data
  else if py_eq (AccountState.sale_type state) (VStr SALE_TYPE_DISTRIBUTION)
  then <["sale_type" := VStr LEGACY_DISTRIBUTION]> data
  else delete "sale_type" data.

Definition mirror_sold_at (state : AccountState.t) (data : dict) : dict :=
  if py_truthy (AccountState.sold_at state)
  then <["sold_at" := AccountState.sold_at state]> data
  else data.

Definition _sync_legacy_flags (data : dict) (state : AccountState.t)
  : result dict :=
  business ← has_business_role data;
  if (business : bool) then Ok data else
  let data := <["owner" := AccountState.owner state]> data in
  let data := <["manager" := AccountState.manager state]> data in
  let data := mirror_status state data in
  let data := mirror_sale_type state data in
  Ok (mirror_sold_at state data).

(** [state_data.update({"owner": ..., ..., "sold_at": ...})] *)
Definition store_state (state : AccountState.t) (state_data : dict) : dict :=
  <["sold_at" := AccountState.sold_at state]>
    (<["sale_type" := AccountState.sale_type state]>
       (<["status" := AccountState.status state]>
          (<["manager" := AccountState.manager state]>
             (<["owner" := AccountState.owner state]> state_data)))).

(** The sale type named by a legacy [sale_type] field, for a state that has
    none. *)
Definition legacy_sale_type (data : dict) (state : AccountState.t)
  : result AccountState.t :=
  if negb (py_truthy (AccountState.sale_type state)) then
    let sale_type := get data "sale_type" in
    direct ← in_set sale_type
               [VStr SALE_TYPE_DIRECT; VStr LEGACY_DIRECT; VStr "direct"];
    if (direct : bool) then Ok (AccountState.with_sale_type (VStr SALE_TYPE_DIRECT) state)
    else
      distribution ← in_set sale_type
                       [VStr SALE_TYPE_DISTRIBUTION; VStr LEGACY_DISTRIBUTION;
                        VStr "distribution"];
      if (distribution : bool)
      then Ok (AccountState.with_sale_type (VStr SALE_TYPE_DISTRIBUTION) state)
      else Ok state
  else Ok state.

(** The status suggested by the legacy flags, for a state that has none. *)
Definition legacy_status (data : dict) (state : AccountState.t)
  : AccountState.t :=
  if negb (py_truthy (AccountState.status state)) then
    if py_truthy (get data "distributor_forsale")
    then AccountState.with_status (VStr ACCOUNT_STATUS_DISTRIBUTOR_STOCK) state
    else if in_tuple (get data "forsale")
              [VBool false; VInt 0; VStr "false"; VStr "False"]
    then AccountState.with_status (VStr ACCOUNT_STATUS_SOLD) state
    else AccountState.with_status (VStr ACCOUNT_STATUS_AGENT_STOCK) state
  else state.

(** The state read from the record, with its first round of defaults: the
    part of [ensure_accounting] before the legacy status fallback. *)
Definition read_state (data state_data : dict) : result AccountState.t :=
  let state :=
    AccountState.mk
      (py_or (get state_data "owner") (get data "owner"))
      (py_or (get state_data "manager")
         (py_or (get data "manager")
            (py_or (get data "assigned_distributor") (get data "owner"))))
      (py_or (get state_data "status") (get data "status"))
      (py_or (get state_data "sale_type") (get data "sale_type"))
      (py_or (get state_data "sold_at") (get data "sold_at")) in
  state ← AccountState.ensure_defaults state;
  let state :=
    match AccountState.status state with
    | VNone => AccountState.with_status (VStr ACCOUNT_STATUS_AGENT_STOCK) state
    | _ => state
    end in
  legacy_sale_type data state.

Definition ensure_accounting (data : dict) : result (dict * AccountState.t) :=
  let data := setdefault data "accounting" (VDict ∅) in
  match get data "accounting" with
  | VDict state_data =>
      state ← read_state data state_data;
      let state := legacy_status data state in
      state ← AccountState.ensure_defaults state;
      let data := <["accounting" := VDict (store_state state state_data)]> data in
      data ← _sync_legacy_flags data state;
      Ok (data, state)
  | _ => Raise AttributeError
  end.

Definition override (arg : option string) (set : value → AccountState.t → AccountState.t)
    (state : AccountState.t) : AccountState.t :=
  match arg with
  | Some v => set (VStr v) state
  | None => state
  end.

(** [update_account_state(data, owner=, manager=, status=, sale_type=,
    sold_at=)]: the mutated record and the returned state.  An argument left
    out is [None], as is one passed as [None]. *)
Definition update_account_state (data : dict)
    (owner manager status sale_type sold_at : option string)
  : result (dict * AccountState.t) :=
  inventory ← _is_inventory_record data;
  if negb inventory then
    data ← _normalise_roles data;
    Ok (data, AccountState.default)
  else
    '(data, state) ← ensure_accounting data;
    let state := override owner AccountState.with_owner state in
    let state := override manager AccountState.with_manager state in
    let state := override status AccountState.with_status state in
    let state := override sale_type AccountState.with_sale_type state in
    let state := override sold_at AccountState.with_sold_at state in
    state ← AccountState.ensure_defaults state;
    let data := setdefault data "accounting" (VDict ∅) in
    match get data "accounting" with
    | VDict state_data =>
        let data := <["accounting" := VDict (store_state state state_data)]> data in
        data ← _sync_legacy_flags data state;
        Ok (data, state)
    | _ => Raise AttributeError
    end.

(** ** Ledger entries *)

Module LedgerEntry.

(** The dataclass [LedgerEntry]. *)
Record t := mk {
  id : string;
  time : string;
  actor : string;
  actor_role : string;
  transaction_type : string;
  direction : string;
  amount : float;
  quantity : Z;
  product : value;
  account_username : value;
  counterparty : value;
  sale_type : value;
  metadata : dict;
}.

(** [float(x or 0)] *)
Definition float_or_0 (x : value) : result float :=
  py_float (py_or x (VInt 0)).

Definition _get_amount (raw : dict) : result float :=
  if has_key raw "amount" then
    try_except (float_or_0 (get_default raw "amount" (VInt 0))) (Ok 0%float)
  else
    let revenue := get raw "revenue" in
    let price := get raw "price" in
    let count := get raw "count" in
    from_revenue ←
      try_except
        (match revenue with
         | VNone => Ok None
         | _ => x ← float_or_0 revenue; Ok (Some x)
         end)
        (Ok None);
    match from_revenue with
    | Some x => Ok x
    | None =>
        try_except
          (price_val ← float_or_0 price;
           n ← py_int (py_or count (VInt 0));
           let count_val := if n =? 0 then 1 else n in
           float_mul_int price_val count_val)
          (Ok 0%float)
    end.

Definition _get_quantity (raw : dict) : result Z :=
  try_except
    (py_int (py_or (get_default raw "quantity" (get_default raw "count" (VInt 0)))
               (VInt 0)))
    (Ok 0).

Definition _get_direction (raw : dict) : result string :=
  let direction := get raw "direction" in
  known ← in_set direction [VStr "in"; VStr "out"];
  if (known : bool) then py_str direction
  else if py_eq (get raw "transaction_type") (VStr TRANSACTION_AGENT_PURCHASE)
  then Ok "out"%string
  else Ok "in"%string.

Definition _get_sale_type (raw : dict) : result value :=
  let sale_type := get raw "sale_type" in
  known ← in_set sale_type [VStr SALE_TYPE_DIRECT; VStr SALE_TYPE_DISTRIBUTION; VNone];
  if (known : bool) then Ok sale_type else
  direct ← in_set sale_type [VStr LEGACY_DIRECT; VStr "direct"];
  if (direct : bool) then Ok (VStr SALE_TYPE_DIRECT) else
  distribution ← in_set sale_type [VStr LEGACY_DISTRIBUTION; VStr "distribution"];
  if (distribution : bool) then Ok (VStr SALE_TYPE_DISTRIBUTION) else Ok VNone.

(** [entry.metadata.setdefault("legacy_...", raw.get(...))], seven times. *)
Definition legacy_metadata (raw metadata : dict) : dict :=
  let metadata := setdefault metadata "legacy_admin" (get raw "admin") in
  let metadata := setdefault metadata "legacy_role" (get raw "role") in
  let metadata := setdefault metadata "legacy_count" (get raw "count") in
  let metadata := setdefault metadata "legacy_revenue" (get raw "revenue") in
  let metadata := setdefault metadata "legacy_price" (get raw "price") in
  let metadata := setdefault metadata "legacy_user_id" (get raw "user_id") in
  setdefault metadata "legacy_direction" (get raw "direction").

(** [LedgerEntry.from_raw(raw)]; [uuid4] and [now] are what
    [uuid.uuid4()] and [datetime.now().strftime(...)] return during the
    call. *)
Definition from_raw (uuid4 now : string) (raw : dict) : result t :=
  let actor := py_or (get raw "actor") (py_or (get raw "admin") (VStr "")) in
  let role := py_or (get raw "actor_role") (py_or (get raw "role") (VStr ROLE_ADMIN)) in
  let time := py_or (get raw "time") (VStr now) in
  id ← py_str (py_or (get raw "id") (VStr uuid4));
  time ← py_str time;
  actor ← py_str actor;
  actor_role ← py_str role;
  transaction_type ←
    py_str (py_or (get raw "transaction_type") (VStr TRANSACTION_LEGACY));
  direction ← _get_direction raw;
  amount ← _get_amount raw;
  quantity ← _get_quantity raw;
  sale_type ← _get_sale_type raw;
  metadata ← py_dict (get_default raw "metadata" (VDict ∅));
  Ok (mk id time actor actor_role transaction_type direction amount quantity
        (get raw "product")
        (py_or (get raw "account_username") (get raw "username"))
        (py_or (get raw "counterparty")
           (py_or (get raw "agent") (get raw "distributor")))
        sale_type
        (legacy_metadata raw metadata)).

(** The legacy price of [to_dict]: [amount / quantity], guarded. *)
Definition legacy_price (self : t) : result float :=
  if negb (quantity self =? 0)
  then float_div_int (amount self) (quantity self)
  else Ok 0%float.

(** The dict literal of [to_dict]. *)
Definition entry_fields (self : t) (price : float) : dict :=
  list_to_map
    [("id", VStr (id self));
     ("time", VStr (time self));
     ("actor", VStr (actor self));
     ("actor_role", VStr (actor_role self));
     ("transaction_type", VStr (transaction_type self));
     ("direction", VStr (direction self));
     ("amount", VFloat (py_round2 (amount self)));
     ("quantity", VInt (quantity self));
     ("product", product self);
     ("account_username", account_username self);
     ("counterparty", counterparty self);
     ("sale_type", sale_type self);
     ("metadata", VDict (metadata self));
     ("admin", VStr (actor self));
     ("role", VStr (actor_role self));
     ("price", VFloat (py_round2 price));
     ("count", VInt (quantity self));
     ("revenue", VFloat (py_round2 (amount self)))]%string.

(** The [agent] field added for entries with a counterparty. *)
Definition agent_field (self : t) (data : dict) : dict :=
  if py_truthy (counterparty self) then
    let data :=
      if String.eqb (actor_role self) ROLE_AGENT
      then setdefault data "agent" (VStr (actor self)) else data in
    if String.eqb (actor_role self) ROLE_ADMIN
    then setdefault data "agent" (counterparty self) else data
  else data.

(** [entry.to_dict()] *)
Definition to_dict (self : t) : result dict :=
  price ← legacy_price self;
  Ok (agent_field self (entry_fields self price)).

End LedgerEntry.

(** ** Ledger helpers *)

(** The keyword arguments of [build_ledger_entry]; [None] stands for an
    argument left out, which takes the default of the signature.  The
    handlers pass whatever the account record holds as [product]. *)
Record ledger_kwargs := {
  kw_transaction_type : string;
  kw_actor : string;
  kw_actor_role : string;
  kw_amount : float;
  kw_quantity : option Z;
  kw_product : value;
  kw_account_username : option string;
  kw_counterparty : option string;
  kw_sale_type : option string;
  kw_direction : option string;
  kw_occurred_at : option string;
  kw_metadata : option dict;
}.

(** The entry [build_ledger_entry] constructs before dumping it. *)
Definition built_entry (uuid4 now : string) (kw : ledger_kwargs) : LedgerEntry.t :=
  LedgerEntry.mk
    uuid4
    (match kw_occurred_at kw with
     | Some t => if String.eqb t "" then now else t
     | None => now
     end)
    (kw_actor kw)
    (kw_actor_role kw)
    (kw_transaction_type kw)
    (default "in"%string (kw_direction kw))
    (if float_is_zero (kw_amount kw) then 0%float else kw_amount kw)
    (default 1 (kw_quantity kw))
    (kw_product kw)
    (opt_value (kw_account_username kw))
    (opt_value (kw_counterparty kw))
    (opt_value (kw_sale_type kw))
    (default ∅ (kw_metadata kw)).

Definition build_ledger_entry (uuid4 now : string) (kw : ledger_kwargs)
  : result dict :=
  LedgerEntry.to_dict (built_entry uuid4 now kw).

(** [record_transaction(records, **kwargs)]: the extended log and the new
    entry. *)
Definition record_transaction (uuid4 now : string) (records : list dict)
    (kw : ledger_kwargs) : result (list dict * dict) :=
  entry ← build_ledger_entry uuid4 now kw;
  Ok (records ++ [entry], entry).

(** ** Request handlers of [server.py] *)

(** [_pct_change(cur, prev)] *)
Definition _pct_change (cur prev : float) : result float :=
  if PrimFloat.eqb prev 0%float then
    Ok (if PrimFloat.ltb 0%float cur then 100%float else 0%float)
  else
    q ← py_truediv (cur - prev) prev;
    Ok (q * 100)%float.

(** A pending bulk application, as [apply_bulk] stores it. *)
Record application := {
  app_agent : string;
  app_count : Z;
  app_price : float;
  app_product : string;
}.

(** What the generators and the clock return for one new account:
    [gen_username_numeric], [gen_password_numeric], [generate_user_id]. *)
Record credentials := {
  cred_username : string;
  cred_password : string;
  cred_user_id : string;
}.

Definition new_account (app : application) (now_ts : string) (c : credentials)
  : dict :=
  list_to_map
    [("user_id", VStr (cred_user_id c));
     ("password", VStr (cred_password c));
     ("nickname", VStr "");
     ("is_admin", VBool false);
     ("enabled", VBool true);
     ("source", VStr "agent");
     ("product", VStr (app_product app));
     ("created_at", VStr now_ts);
     ("last_login", VNone);
     ("price", VFloat (app_price app));
     ("ip_address", VStr "");
     ("location", VStr "")]%string.

(** The account loop of [_approve_application]: [range(count)] iterations,
    each with the credentials generated for it. *)
Fixpoint create_accounts (app : application) (now_ts : string)
    (fresh : nat → credentials) (i n : nat) (users : gmap string dict)
  : result (gmap string dict) :=
  match n with
  | O => Ok users
  | S n' =>
      let c := fresh i in
      r ← update_account_state (new_account app now_ts c)
            (Some (app_agent app)) (Some (app_agent app))
            (Some ACCOUNT_STATUS_AGENT_STOCK) None None;
      create_accounts app now_ts fresh (S i) n'
        (<[cred_username c := fst r]> users)
  end.

Definition ledger_kw (transaction_type actor actor_role : string)
    (amount : float) (quantity : Z) : ledger_kwargs :=
  {| kw_transaction_type := transaction_type;
     kw_actor := actor;
     kw_actor_role := actor_role;
     kw_amount := amount;
     kw_quantity := Some quantity;
     kw_product := VNone;
     kw_account_username := None;
     kw_counterparty := None;
     kw_sale_type := None;
     kw_direction := None;
     kw_occurred_at := None;
     kw_metadata := None |}.

Definition with_product (v : value) (kw : ledger_kwargs) : ledger_kwargs :=
  {| kw_transaction_type := kw_transaction_type kw;
     kw_actor := kw_actor kw;
     kw_actor_role := kw_actor_role kw;
     kw_amount := kw_amount kw;
     kw_quantity := kw_quantity kw;
     kw_product := v;
     kw_account_username := kw_account_username kw;
     kw_counterparty := kw_counterparty kw;
     kw_sale_type := kw_sale_type kw;
     kw_direction := kw_direction kw;
     kw_occurred_at := kw_occurred_at kw;
     kw_metadata := kw_metadata kw |}.

Definition with_counterparty (v : string) (kw : ledger_kwargs) : ledger_kwargs :=
  {| kw_transaction_type := kw_transaction_type kw;
     kw_actor := kw_actor kw;
     kw_actor_role := kw_actor_role kw;
     kw_amount := kw_amount kw;
     kw_quantity := kw_quantity kw;
     kw_product := kw_product kw;
     kw_account_username := kw_account_username kw;
     kw_counterparty := Some v;
     kw_sale_type := kw_sale_type kw;
     kw_direction := kw_direction kw;
     kw_occurred_at := kw_occurred_at kw;
     kw_metadata := kw_metadata kw |}.

Definition with_account (username sale_type : string) (kw : ledger_kwargs)
  : ledger_kwargs :=
  {| kw_transaction_type := kw_transaction_type kw;
     kw_actor := kw_actor kw;
     kw_actor_role := kw_actor_role kw;
     kw_amount := kw_amount kw;
     kw_quantity := kw_quantity kw;
     kw_product := kw_product kw;
     kw_account_username := Some username;
     kw_counterparty := kw_counterparty kw;
     kw_sale_type := Some sale_type;
     kw_direction := kw_direction kw;
     kw_occurred_at := kw_occurred_at kw;
     kw_metadata := kw_metadata kw |}.

Definition with_direction (d : string) (kw : ledger_kwargs) : ledger_kwargs :=
  {| kw_transaction_type := kw_transaction_type kw;
     kw_actor := kw_actor kw;
     kw_actor_role := kw_actor_role kw;
     kw_amount := kw_amount kw;
     kw_quantity := kw_quantity kw;
     kw_product := kw_product kw;
     kw_account_username := kw_account_username kw;
     kw_counterparty := kw_counterparty kw;
     kw_sale_type := kw_sale_type kw;
     kw_direction := Some d;
     kw_occurred_at := kw_occurred_at kw;
     kw_metadata := kw_metadata kw |}.

(** [float(app_record['price'] * app_record['count'])] *)
Definition total_amount (app : application) : result float :=
  float_mul_int (app_price app) (app_count app).

(** The two calls of [record_transaction] in [_approve_application]. *)
Definition wholesale_kw (admin : string) (app : application) (total : float)
  : ledger_kwargs :=
  with_counterparty (app_agent app)
    (with_product (VStr (app_product app))
       (ledger_kw TRANSACTION_ADMIN_TO_AGENT admin ROLE_ADMIN total (app_count app))).

Definition purchase_kw (admin : string) (app : application) (total : float)
  : ledger_kwargs :=
  with_direction "out"
    (with_counterparty admin
       (with_product (VStr (app_product app))
          (ledger_kw TRANSACTION_AGENT_PURCHASE (app_agent app) ROLE_AGENT total
             (app_count app)))).

(** What [uuid.uuid4()] and the clock return during one call of
    [record_transaction]. *)
Record stamp := { stamp_uuid : string; stamp_now : string }.

(** [_approve_application(app_record)] on the loaded users and ledger;
    [admin] is [session.get('admin')]. *)
Definition _approve_application (admin now_ts : string)
    (fresh : nat → credentials) (s1 s2 : stamp)
    (users : gmap string dict) (records : list dict) (app : application)
  : result (gmap string dict * list dict) :=
  users ← create_accounts app now_ts fresh 0 (Z.to_nat (app_count app)) users;
  total ← total_amount app;
  r ← record_transaction (stamp_uuid s1) (stamp_now s1) records
        (wholesale_kw admin app total);
  r ← record_transaction (stamp_uuid s2) (stamp_now s2) (fst r)
        (purchase_kw admin app total);
  Ok (users, fst r).

(** The guard shared by the distributor's handlers: the record's
    [accounting] dict, or [{}]. *)
Definition accounting_of (record : dict) : result dict :=
  match get_default record "accounting" (VDict ∅) with
  | VDict state => Ok state
  | _ => Raise AttributeError
  end.

(** [distributor_mark_sold]: the users, the ledger and the success flag. *)
Definition distributor_mark_sold (current_distributor sold_time : string)
    (s : stamp) (users : gmap string dict) (records : list dict)
    (username : string) : result (gmap string dict * list dict * bool) :=
  match users !! username with
  | Some record =>
      state ← accounting_of record;
      if py_eq (get state "owner") (VStr current_distributor)
         && py_eq (get state "status") (VStr ACCOUNT_STATUS_DISTRIBUTOR_STOCK)
      then
        r ← update_account_state record
              (Some current_distributor) (Some current_distributor)
              (Some ACCOUNT_STATUS_SOLD) (Some SALE_TYPE_DISTRIBUTION)
              (Some sold_time);
        let record := fst r in
        amount ← LedgerEntry.float_or_0 (get_default record "price" (VInt 0));
        e ← record_transaction (stamp_uuid s) (stamp_now s) records
              (with_account username SALE_TYPE_DISTRIBUTION
                 (with_product (get_default record "product" (VStr "未知产品"))
                    (ledger_kw TRANSACTION_DISTRIBUTOR_SALE current_distributor
                       ROLE_DISTRIBUTOR amount 1)));
        Ok (<[username := record]> users, fst e, true)
      else Ok (users, records, true)
  | None => Ok (users, records, false)
  end.

(** [distributor_mark_unsold]: the users and the success flag. *)
Definition distributor_mark_unsold (current_distributor : string)
    (users : gmap string dict) (username : string)
  : result (gmap string dict * bool) :=
  match users !! username with
  | Some record =>
      state ← accounting_of record;
      if py_eq (get state "owner") (VStr current_distributor)
         && py_eq (get state "status") (VStr ACCOUNT_STATUS_SOLD)
         && py_eq (get state "sale_type") (VStr SALE_TYPE_DISTRIBUTION)
      then
        r ← update_account_state record
              (Some current_distributor) (Some current_distributor)
              (Some ACCOUNT_STATUS_DISTRIBUTOR_STOCK) None None;
        Ok (<[username := fst r]> users, true)
      else Ok (users, false)
  | None => Ok (users, false)
  end.

(** * Properties *)

(** ** Results and lookups *)

Lemma bind_Ok_inv {A B} (m : result A) (f : A → result B) (b : B) :
  m ≫= f = Ok b → ∃ a, m = Ok a ∧ f a = Ok b.
Proof. destruct m as [a|e]; simpl; [eauto | discriminate]. Qed.

Lemma lookup_setdefault_ne (d : dict) (k k' : string) (v : value) :
  k ≠ k' → setdefault d k v !! k' = d !! k'.
Proof.
  intros Hne. unfold setdefault.
  destruct (d !! k); [done | by rewrite lookup_insert_ne].
Qed.

Lemma lookup_setdefault_eq (d : dict) (k : string) (v : value) :
  setdefault d k v !! k = Some (default v (d !! k)).
Proof.
  unfold setdefault. destruct (d !! k) eqn:E; simpl; [done |].
  by rewrite lookup_insert_eq.
Qed.

Lemma agent_field_lookup (e : LedgerEntry.t) (d : dict) (k : string) :
  k ≠ "agent"%string → LedgerEntry.agent_field e d !! k = d !! k.
Proof.
  intros Hne. unfold LedgerEntry.agent_field.
  repeat case_match; rewrite ?lookup_setdefault_ne; done.
Qed.

Lemma get_agent_field (e : LedgerEntry.t) (d : dict) (k : string) :
  k ≠ "agent"%string → get (LedgerEntry.agent_field e d) k = get d k.
Proof. intros Hne. unfold get. by rewrite agent_field_lookup. Qed.

Lemma to_dict_Ok_inv (e : LedgerEntry.t) (d : dict) :
  LedgerEntry.to_dict e = Ok d →
  ∃ price, LedgerEntry.legacy_price e = Ok price ∧
           d = LedgerEntry.agent_field e (LedgerEntry.entry_fields e price).
Proof.
  unfold LedgerEntry.to_dict. intros H.
  apply bind_Ok_inv in H as (price & Hp & H). exists price. by inversion H.
Qed.

(** ** KPI percent change *)

(** C8: [_pct_change] always returns; with a zero previous value the
    percent change is 100 for a positive current value and 0 otherwise;
    with a non-zero previous value it is [(cur - prev) / prev * 100]. *)
Theorem pct_change_spec (cur prev : float) :
  is_Ok (_pct_change cur prev) = true ∧
  (PrimFloat.eqb prev 0 = true → PrimFloat.ltb 0 cur = true →
   _pct_change cur prev = Ok 100%float) ∧
  (PrimFloat.eqb prev 0 = true → PrimFloat.ltb 0 cur = false →
   _pct_change cur prev = Ok 0%float) ∧
  (PrimFloat.eqb prev 0 = false →
   _pct_change cur prev = Ok ((cur - prev) / prev * 100)%float).
Proof.
  unfold _pct_change, py_truediv, float_is_zero.
  split; [by destruct (PrimFloat.eqb prev 0)|].
  repeat split; intros Hp; try intros Hc.
  - by rewrite Hp, Hc.
  - by rewrite Hp, Hc.
  - by rewrite Hp.
Qed.

(** The KPI scenarios: previous 0 and current 10, 0 or negative; and a
    change from 10 to 15. *)
Lemma pct_change_scenarios :
  _pct_change 10 0 = Ok 100%float ∧ _pct_change 0 0 = Ok 0%float ∧
  _pct_change (-4) 0 = Ok 0%float ∧ _pct_change 15 10 = Ok 50%float.
Proof.
  split; [|split; [|split]].
  - apply (proj1 (proj2 (pct_change_spec 10 0))); reflexivity.
  - apply (proj1 (proj2 (proj2 (pct_change_spec 0 0)))); reflexivity.
  - apply (proj1 (proj2 (proj2 (pct_change_spec (-4) 0)))); reflexivity.
  - rewrite (proj2 (proj2 (proj2 (pct_change_spec 15 10)))); reflexivity.
Defined.

(** ** Serialisation of ledger entries *)

(** *** Ints convert to floats that are not zero *)

Lemma digits2_size (p : positive) : digits2_pos p = Pos.size p.
Proof. induction p; simpl; congruence. Qed.

Lemma digits2_le (p : positive) : 2 ^ (Z.pos (digits2_pos p) - 1) <= Z.pos p.
Proof.
  rewrite digits2_size.
  pose proof (Pos.size_le p) as H.
  assert (H' : 2 ^ Z.pos (Pos.size p) <= 2 * Z.pos p).
  { change (2 * Z.pos p) with (Z.pos p~0). change 2 with (Z.pos 2).
    rewrite <- Pos2Z.inj_pow. by apply Pos2Z.pos_le_pos. }
  replace (Z.pos (Pos.size p)) with (Z.succ (Z.pos (Pos.size p) - 1)) in H' by lia.
  rewrite Z.pow_succ_r in H' by lia. lia.
Qed.

Lemma shr_1_m (r : shr_record) : 0 <= shr_m r → shr_m (shr_1 r) = shr_m r / 2.
Proof.
  destruct r as [m b s]. simpl. intros Hm.
  destruct m as [|[p|p|]|p]; cbn [shr_m]; try lia; try reflexivity.
  - apply Z.div_unique with 1; lia.
  - apply Z.div_unique with 0; lia.
Qed.

Lemma iter_shr_1_m (k : positive) (r : shr_record) :
  0 <= shr_m r → shr_m (SpecFloat.iter_pos shr_1 k r) = shr_m r / 2 ^ Z.pos k.
Proof.
  revert r. induction k as [k IH|k IH|]; intros r Hr; simpl SpecFloat.iter_pos.
  - assert (H1 : 0 <= shr_m (shr_1 r)) by (rewrite shr_1_m by done; apply Z.div_pos; lia).
    assert (H2 : 0 <= shr_m (SpecFloat.iter_pos shr_1 k (shr_1 r)))
      by (rewrite IH by done; apply Z.div_pos; lia).
    rewrite IH, IH, shr_1_m by done.
    rewrite !Z.div_div by lia. f_equal.
    assert (E : Z.pos k~1 = 1 + Z.pos k + Z.pos k) by lia.
    rewrite E, !Z.pow_add_r by lia. change (2 ^ 1) with 2. lia.
  - assert (H2 : 0 <= shr_m (SpecFloat.iter_pos shr_1 k r))
      by (rewrite IH by done; apply Z.div_pos; lia).
    rewrite IH, IH by done.
    rewrite !Z.div_div by lia. f_equal.
    assert (E : Z.pos k~0 = Z.pos k + Z.pos k) by lia.
    by rewrite E, Z.pow_add_r by lia.
  - by rewrite shr_1_m.
Qed.

(** Shifting a positive mantissa to its canonical exponent leaves it
    positive. *)
Lemma shr_fexp_pos (m : positive) (e : Z) (l : location) :
  - 1074 <= e →
  0 < shr_m (fst (shr_fexp prec emax (Z.pos m) e l)) ∧
  - 1074 <= snd (shr_fexp prec emax (Z.pos m) e l).
Proof.
  intros He. unfold shr_fexp, shr, fexp, SpecFloat.emin, Zdigits2, prec, emax.
  assert (Hm : shr_m (shr_record_of_loc (Z.pos m) l) = Z.pos m)
    by (by destruct l as [|[]]).
  destruct (Z.max (Z.pos (digits2_pos m) + e - 53) (3 - 1024 - 53) - e) as [|k|k] eqn:E;
    simpl; rewrite ?Hm; try (split; lia).
  rewrite iter_shr_1_m, Hm by lia. split; [|lia].
  apply Z.div_str_pos. split; [lia|].
  pose proof (digits2_le m) as Hd.
  assert (Z.pos k = Z.pos (digits2_pos m) - 53) as -> by lia.
  etrans; [|exact Hd]. apply Z.pow_le_mono_r; lia.
Qed.

Lemma round_nearest_even_pos (m : Z) (l : location) :
  0 < m → 0 < round_nearest_even m l.
Proof. intros Hm. destruct l as [|[]]; simpl; try lia. destruct (Z.even m); lia. Qed.

Lemma binary_round_aux_nonzero (s : bool) (m : positive) (e : Z) (l : location) :
  - 1074 <= e →
  match binary_round_aux prec emax s (Z.pos m) e l with
  | S754_zero _ | S754_nan => False
  | _ => True
  end.
Proof.
  intros He. unfold binary_round_aux.
  destruct (shr_fexp_pos m e l He) as (H1 & H1').
  destruct (shr_fexp prec emax (Z.pos m) e l) as [r1 e1]. simpl in H1, H1'.
  pose proof (round_nearest_even_pos _ (loc_of_shr_record r1) H1) as H2.
  destruct (round_nearest_even (shr_m r1) (loc_of_shr_record r1)) as [|m2|] eqn:E2;
    try lia.
  destruct (shr_fexp_pos m2 e1 loc_Exact H1') as (H3 & _).
  destruct (shr_fexp prec emax (Z.pos m2) e1 loc_Exact) as [r3 e3]. simpl in H3.
  destruct (shr_m r3); try lia. by destruct (e3 <=? emax - prec).
Qed.

Lemma binary_round_nonzero (s : bool) (m : positive) :
  match binary_round prec emax s m 0 with
  | S754_zero _ | S754_nan => False
  | _ => True
  end.
Proof.
  unfold binary_round, shl_align.
  destruct (fexp prec emax (Z.pos (digits2_pos m) + 0) - 0) as [|k|k] eqn:E;
    apply binary_round_aux_nonzero; try lia.
  unfold fexp, SpecFloat.emin, prec, emax in *. lia.
Qed.

(** An int that is not zero converts to a float that is not zero. *)
Lemma SF_of_Z_nonzero (z : Z) :
  z ≠ 0 →
  match SF_of_Z z with
  | S754_zero _ | S754_nan => False
  | _ => True
  end.
Proof.
  intros Hz. unfold SF_of_Z, binary_normalize.
  destruct z; [done | apply binary_round_nonzero ..].
Qed.

Definition fits_float (z : Z) : bool := is_Ok (float_of_Z z).

Lemma legacy_price_Ok (e : LedgerEntry.t) :
  fits_float (LedgerEntry.quantity e) = true →
  ∃ price, LedgerEntry.legacy_price e = Ok price ∧
           (LedgerEntry.quantity e = 0 → price = 0%float) ∧
           (LedgerEntry.quantity e ≠ 0 →
            ∀ q, float_of_Z (LedgerEntry.quantity e) = Ok q →
                 price = (LedgerEntry.amount e / q)%float).
Proof.
  unfold fits_float, LedgerEntry.legacy_price, float_div_int, float_of_Z.
  intros Hq.
  destruct (Z.eqb_spec (LedgerEntry.quantity e) 0) as [Hz|Hz]; simpl.
  - eexists. split; [reflexivity|]. split; done.
  - pose proof (SF_of_Z_nonzero _ Hz) as Hnz.
    destruct (SF_of_Z (LedgerEntry.quantity e)); try done.
    eexists. split; [reflexivity|]. split; [done|]. by intros _ q [= <-].
Qed.

(** An entry of [2^1024] units. *)
Definition huge_entry : LedgerEntry.t :=
  LedgerEntry.mk "e1" "2024-01-01 00:00:00" "agentA" ROLE_AGENT
    TRANSACTION_AGENT_DIRECT_SALE "in" 1%float (2 ^ 1024)
    VNone VNone VNone VNone ∅.

(** C10, as stated, fails: the guard covers a zero quantity only, and the
    division converts the quantity to a float first, which overflows for an
    entry of [2^1024] units. *)
Lemma to_dict_overflow :
  LedgerEntry.to_dict huge_entry = Raise OverflowError.
Proof. vm_compute. reflexivity. Qed.

(** C10, amended: [to_dict] returns a dict for every entry whose quantity
    converts to a float: the guard keeps the division from a zero divisor,
    the emitted price being [0.0] for a zero quantity and the quotient of the
    amount by the quantity otherwise; the dict holds the canonical fields
    and the legacy mirrors [admin], [role], [count] and [revenue], the
    amounts rounded to two decimals. *)
Theorem to_dict_total (e : LedgerEntry.t) :
  fits_float (LedgerEntry.quantity e) = true →
  ∃ d price,
    LedgerEntry.to_dict e = Ok d ∧
    LedgerEntry.legacy_price e = Ok price ∧
    (LedgerEntry.quantity e = 0 → price = 0%float) ∧
    (LedgerEntry.quantity e ≠ 0 →
     ∀ q, float_of_Z (LedgerEntry.quantity e) = Ok q →
          price = (LedgerEntry.amount e / q)%float) ∧
    d !! "id" = Some (VStr (LedgerEntry.id e)) ∧
    d !! "time" = Some (VStr (LedgerEntry.time e)) ∧
    d !! "actor" = Some (VStr (LedgerEntry.actor e)) ∧
    d !! "actor_role" = Some (VStr (LedgerEntry.actor_role e)) ∧
    d !! "transaction_type" = Some (VStr (LedgerEntry.transaction_type e)) ∧
    d !! "direction" = Some (VStr (LedgerEntry.direction e)) ∧
    d !! "amount" = Some (VFloat (py_round2 (LedgerEntry.amount e))) ∧
    d !! "quantity" = Some (VInt (LedgerEntry.quantity e)) ∧
    d !! "product" = Some (LedgerEntry.product e) ∧
    d !! "account_username" = Some (LedgerEntry.account_username e) ∧
    d !! "counterparty" = Some (LedgerEntry.counterparty e) ∧
    d !! "sale_type" = Some (LedgerEntry.sale_type e) ∧
    d !! "metadata" = Some (VDict (LedgerEntry.metadata e)) ∧
    d !! "admin" = Some (VStr (LedgerEntry.actor e)) ∧
    d !! "role" = Some (VStr (LedgerEntry.actor_role e)) ∧
    d !! "price" = Some (VFloat (py_round2 price)) ∧
    d !! "count" = Some (VInt (LedgerEntry.quantity e)) ∧
    d !! "revenue" = Some (VFloat (py_round2 (LedgerEntry.amount e))).
Proof.
  intros Hq. destruct (legacy_price_Ok e Hq) as (price & Hp & Hz & Hnz).
  exists (LedgerEntry.agent_field e (LedgerEntry.entry_fields e price)), price.
  split; [unfold LedgerEntry.to_dict; by rewrite Hp|].
  split; [done|]. split; [done|]. split; [done|].
  repeat split; by rewrite agent_field_lookup.
Qed.

(** An entry with no units at all. *)
Definition empty_entry : LedgerEntry.t :=
  LedgerEntry.mk "e2" "2024-01-01 00:00:00" "agentA" ROLE_AGENT
    TRANSACTION_AGENT_DIRECT_SALE "in" 7.5%float 0
    VNone VNone VNone VNone ∅.

Lemma to_dict_total_witness :
  ∃ d, LedgerEntry.to_dict empty_entry = Ok d ∧
       d !! "price" = Some (VFloat 0) ∧ d !! "revenue" = Some (VFloat 7.5).
Proof.
  destruct (to_dict_total empty_entry) as (d & price & Hd & _ & Hz & _ & H).
  { vm_compute. reflexivity. }
  exists d. split; [exact Hd|].
  destruct H as (_ & _ & _ & _ & _ & _ & _ & _ & _ & _ & _ & _ & _ & _ & _ & Hp & _ & Hr).
  split.
  - rewrite Hp, (Hz eq_refl). reflexivity.
  - rewrite Hr. reflexivity.
Defined.

(** ** Direction of built entries *)

Lemma build_ledger_entry_lookup (uuid4 now : string) (kw : ledger_kwargs)
    (d : dict) (k : string) :
  build_ledger_entry uuid4 now kw = Ok d → k ≠ "agent"%string →
  ∃ price, d !! k = LedgerEntry.entry_fields (built_entry uuid4 now kw) price !! k.
Proof.
  unfold build_ledger_entry. intros H Hk.
  apply to_dict_Ok_inv in H as (price & _ & ->).
  exists price. by rewrite agent_field_lookup.
Qed.

(** A purchase recorded without a direction. *)
Definition sample_purchase : ledger_kwargs :=
  ledger_kw TRANSACTION_AGENT_PURCHASE "agentA" ROLE_AGENT 10%float 1.

(** The value a handler's result dict holds under a key. *)
Definition field (k : string) (r : result dict) : result value :=
  d ← r; Ok (get d k).

(** C5, as stated, fails: [build_ledger_entry] takes the signature default
    for a missing direction, so an [agent_purchase] entry built without one
    has direction [in], not [out]. *)
Lemma agent_purchase_built_in :
  let r := build_ledger_entry "id-1" "2024-01-01 00:00:00" sample_purchase in
  field "transaction_type" r = Ok (VStr "agent_purchase") ∧
  field "direction" r = Ok (VStr "in") ∧
  field "direction" r ≠ Ok (VStr "out").
Proof.
  assert (H : field "direction"
                (build_ledger_entry "id-1" "2024-01-01 00:00:00" sample_purchase)
              = Ok (VStr "in")) by (vm_compute; reflexivity).
  split; [vm_compute; reflexivity|]. split; [exact H|].
  rewrite H. discriminate.
Qed.

(** C5, amended: the direction of a built entry is the one the caller
    passed, and [in] when none was passed, whatever the transaction type;
    the rule that an [agent_purchase] entry defaults to [out] and any other
    to [in] is the one [LedgerEntry.from_raw] applies to a raw dict whose
    direction is neither [in] nor [out]. *)
Theorem direction_rule (uuid4 now : string) (kw : ledger_kwargs) (d raw : dict) :
  build_ledger_entry uuid4 now kw = Ok d →
  in_set (get raw "direction") [VStr "in"; VStr "out"] = Ok false →
  d !! "direction" = Some (VStr (default "in"%string (kw_direction kw))) ∧
  (kw_direction kw = None → d !! "direction" = Some (VStr "in")) ∧
  LedgerEntry._get_direction raw =
    Ok (if py_eq (get raw "transaction_type") (VStr TRANSACTION_AGENT_PURCHASE)
        then "out" else "in")%string.
Proof.
  intros Hd Hraw.
  destruct (build_ledger_entry_lookup _ _ _ _ "direction" Hd) as (price & Hk);
    [done|].
  split; [exact Hk|]. split.
  - intros Hnone. rewrite Hk.
    change (Some (VStr (default "in"%string (kw_direction kw))) = Some (VStr "in")).
    by rewrite Hnone.
  - unfold LedgerEntry._get_direction. rewrite Hraw. simpl. by case_match.
Qed.

Lemma direction_rule_witness :
  ∃ d, build_ledger_entry "id-1" "2024-01-01 00:00:00" sample_purchase = Ok d ∧
       d !! "direction" = Some (VStr "in") ∧
       LedgerEntry._get_direction
         {[ "transaction_type" := VStr TRANSACTION_AGENT_PURCHASE ]} = Ok "out"%string.
Proof.
  set (e := built_entry "id-1" "2024-01-01 00:00:00" sample_purchase).
  assert (Hp : LedgerEntry.legacy_price e = Ok 10%float) by (vm_compute; reflexivity).
  exists (LedgerEntry.agent_field e (LedgerEntry.entry_fields e 10%float)).
  assert (Hd : build_ledger_entry "id-1" "2024-01-01 00:00:00" sample_purchase
               = Ok (LedgerEntry.agent_field e (LedgerEntry.entry_fields e 10%float))).
  { unfold build_ledger_entry, LedgerEntry.to_dict. fold e. rewrite Hp. reflexivity. }
  split; [exact Hd|].
  destruct (direction_rule "id-1" "2024-01-01 00:00:00" sample_purchase _
              {[ "transaction_type" := VStr TRANSACTION_AGENT_PURCHASE ]} Hd)
    as (_ & Hin & Hraw).
  { vm_compute. reflexivity. }
  split; [apply Hin; reflexivity | exact Hraw].
Defined.

(** ** Round trip through the serialised form *)

Lemma py_str_or_str (a b : string) :
  py_str (py_or (VStr a) (VStr b)) = Ok (if String.eqb a "" then b else a).
Proof. unfold py_or. simpl. by destruct (String.eqb a ""). Qed.

Lemma float_or_0_float (r : float) :
  LedgerEntry.float_or_0 (VFloat r) = Ok (if float_is_zero r then 0%float else r).
Proof.
  unfold LedgerEntry.float_or_0, py_or. simpl.
  destruct (float_is_zero r); simpl; [vm_compute|]; reflexivity.
Qed.

Lemma py_int_or_0_int (q : Z) : py_int (py_or (VInt q) (VInt 0)) = Ok q.
Proof.
  unfold py_or. simpl. destruct (Z.eqb_spec q 0) as [->|]; reflexivity.
Qed.

Lemma get_sale_type_opt (raw : dict) (o : option string) :
  get raw "sale_type" = opt_value o → is_Ok (LedgerEntry._get_sale_type raw) = true.
Proof.
  intros H. unfold LedgerEntry._get_sale_type. rewrite H.
  destruct o as [s|]; unfold in_set; simpl; repeat case_match; reflexivity.
Qed.

(** The direction [from_raw] gives an entry whose serialised direction is
    [dir] and whose transaction type is [tt]. *)
Definition reread_direction (dir tt : string) : string :=
  if String.eqb dir "in" || String.eqb dir "out" then dir
  else if String.eqb tt TRANSACTION_AGENT_PURCHASE then "out" else "in".

(** The amount [from_raw] reads back from an amount dumped by [to_dict]. *)
Definition reread_amount (a : float) : float :=
  let r := py_round2 a in if float_is_zero r then 0%float else r.

Lemma from_raw_to_dict (uuid4 now : string) (e : LedgerEntry.t) (d : dict) :
  hashable (LedgerEntry.sale_type e) = true →
  LedgerEntry.to_dict e = Ok d →
  ∃ e', LedgerEntry.from_raw uuid4 now d = Ok e' ∧
        LedgerEntry.quantity e' = LedgerEntry.quantity e ∧
        LedgerEntry.direction e' =
          reread_direction (LedgerEntry.direction e) (LedgerEntry.transaction_type e) ∧
        LedgerEntry.amount e' = reread_amount (LedgerEntry.amount e).
Proof.
  intros Hst Hd. apply to_dict_Ok_inv in Hd as (price & _ & ->).
  set (D := LedgerEntry.agent_field e (LedgerEntry.entry_fields e price)).
  assert (Hget : ∀ k, k ≠ "agent"%string →
                      get D k = get (LedgerEntry.entry_fields e price) k)
    by (intros; by apply get_agent_field).
  assert (Hdir : LedgerEntry._get_direction D
                 = Ok (reread_direction (LedgerEntry.direction e)
                         (LedgerEntry.transaction_type e))).
  { unfold LedgerEntry._get_direction, reread_direction.
    rewrite !Hget by done.
    change (get (LedgerEntry.entry_fields e price) "direction")
      with (VStr (LedgerEntry.direction e)).
    change (get (LedgerEntry.entry_fields e price) "transaction_type")
      with (VStr (LedgerEntry.transaction_type e)).
    unfold in_set. simpl. rewrite orb_false_r.
    by repeat case_match. }
  assert (Hamt : LedgerEntry._get_amount D
                 = Ok (reread_amount (LedgerEntry.amount e))).
  { unfold LedgerEntry._get_amount, has_key, get_default, D.
    rewrite (agent_field_lookup e _ "amount") by done.
    change (LedgerEntry.entry_fields e price !! "amount")
      with (Some (VFloat (py_round2 (LedgerEntry.amount e)))).
    rewrite bool_decide_true by eauto. simpl.
    by rewrite float_or_0_float. }
  assert (Hqty : LedgerEntry._get_quantity D = Ok (LedgerEntry.quantity e)).
  { unfold LedgerEntry._get_quantity, get_default, D.
    rewrite (agent_field_lookup e _ "quantity") by done.
    change (LedgerEntry.entry_fields e price !! "quantity")
      with (Some (VInt (LedgerEntry.quantity e))).
    simpl. by rewrite py_int_or_0_int. }
  assert (Hsale : ∃ st, LedgerEntry._get_sale_type D = Ok st).
  { unfold LedgerEntry._get_sale_type. rewrite Hget by done.
    change (get (LedgerEntry.entry_fields e price) "sale_type")
      with (LedgerEntry.sale_type e).
    unfold in_set. rewrite Hst. simpl. repeat case_match; eauto. }
  destruct Hsale as (st & Hsale).
  unfold LedgerEntry.from_raw.
  repeat match goal with
         | |- context [get D ?k] => rewrite (Hget k) by done
         end.
  change (get (LedgerEntry.entry_fields e price) "id") with (VStr (LedgerEntry.id e)).
  change (get (LedgerEntry.entry_fields e price) "time") with (VStr (LedgerEntry.time e)).
  change (get (LedgerEntry.entry_fields e price) "actor") with (VStr (LedgerEntry.actor e)).
  change (get (LedgerEntry.entry_fields e price) "admin") with (VStr (LedgerEntry.actor e)).
  change (get (LedgerEntry.entry_fields e price) "actor_role")
    with (VStr (LedgerEntry.actor_role e)).
  change (get (LedgerEntry.entry_fields e price) "role")
    with (VStr (LedgerEntry.actor_role e)).
  change (get (LedgerEntry.entry_fields e price) "transaction_type")
    with (VStr (LedgerEntry.transaction_type e)).
  rewrite !py_str_or_str.
  assert (Hactor : ∀ a, ∃ s, py_str (py_or (VStr a) (py_or (VStr a) (VStr ""))) = Ok s).
  { intros a. unfold py_or. simpl. destruct (String.eqb a ""); simpl; eauto. }
  assert (Hrole : ∀ a, ∃ s, py_str (py_or (VStr a) (py_or (VStr a) (VStr ROLE_ADMIN))) = Ok s).
  { intros a. unfold py_or. simpl. destruct (String.eqb a ""); simpl; eauto. }
  destruct (Hactor (LedgerEntry.actor e)) as (sa & ->).
  destruct (Hrole (LedgerEntry.actor_role e)) as (sr & ->).
  simpl. rewrite Hdir, Hamt, Hqty, Hsale. simpl.
  unfold get_default, D. rewrite (agent_field_lookup e _ "metadata") by done.
  change (LedgerEntry.entry_fields e price !! "metadata")
    with (Some (VDict (LedgerEntry.metadata e))).
  simpl. eexists. split; [reflexivity|]. simpl. done.
Qed.

Lemma built_amount_zero (uuid4 now : string) (kw : ledger_kwargs) :
  float_is_zero (LedgerEntry.amount (built_entry uuid4 now kw)) = true →
  LedgerEntry.amount (built_entry uuid4 now kw) = 0%float.
Proof.
  simpl. destruct (float_is_zero (kw_amount kw)) eqn:E; [done|].
  rewrite E. discriminate.
Qed.

(** A direct sale at a price with three decimals. *)
Definition sample_sale : ledger_kwargs :=
  ledger_kw TRANSACTION_AGENT_DIRECT_SALE "agentA" ROLE_AGENT 0.125%float 1.

(** The amount of the entry read back from a built entry. *)
Definition amount_read_back (uuid4 now : string) (kw : ledger_kwargs)
  : result float :=
  d ← build_ledger_entry uuid4 now kw;
  e' ← LedgerEntry.from_raw uuid4 now d;
  Ok (LedgerEntry.amount e').

(** A sale recorded with a direction of the caller's own. *)
Definition sample_refund : ledger_kwargs :=
  with_direction "refund" sample_sale.

(** The direction of the entry read back from a built entry. *)
Definition direction_read_back (uuid4 now : string) (kw : ledger_kwargs)
  : result string :=
  d ← build_ledger_entry uuid4 now kw;
  e' ← LedgerEntry.from_raw uuid4 now d;
  Ok (LedgerEntry.direction e').

(** C4, as stated, fails: [to_dict] rounds the amount to two decimals, so an
    entry of amount [0.125] is read back with amount [0.12]; and
    [build_ledger_entry] takes any direction, while [from_raw] keeps [in]
    and [out] only, so an entry of direction [refund] is read back with
    direction [in]. *)
Lemma round_trip_rounds_amount :
  LedgerEntry.amount (built_entry "id-1" "2024-01-01 00:00:00" sample_sale)
  = 0.125%float ∧
  amount_read_back "id-1" "2024-01-01 00:00:00" sample_sale = Ok 0.12%float ∧
  PrimFloat.eqb 0.12 0.125 = false ∧
  LedgerEntry.direction (built_entry "id-1" "2024-01-01 00:00:00" sample_refund)
  = "refund"%string ∧
  direction_read_back "id-1" "2024-01-01 00:00:00" sample_refund = Ok "in"%string.
Proof. repeat split; vm_compute; reflexivity. Qed.

(** C4, amended: reading back the dump of a built entry returns an entry with
    the same quantity; its direction is the original one when that is [in]
    or [out], and is derived from the transaction type otherwise; its amount
    is the original amount rounded to two decimals, hence the original
    amount whenever that already is such a value. *)
Theorem round_trip (uuid4 now uuid4' now' : string) (kw : ledger_kwargs) (d : dict) :
  build_ledger_entry uuid4 now kw = Ok d →
  let e := built_entry uuid4 now kw in
  ∃ e', LedgerEntry.from_raw uuid4' now' d = Ok e' ∧
        LedgerEntry.quantity e' = LedgerEntry.quantity e ∧
        LedgerEntry.direction e' =
          reread_direction (LedgerEntry.direction e) (LedgerEntry.transaction_type e) ∧
        (LedgerEntry.direction e = "in"%string ∨ LedgerEntry.direction e = "out"%string →
         LedgerEntry.direction e' = LedgerEntry.direction e) ∧
        LedgerEntry.amount e' = reread_amount (LedgerEntry.amount e) ∧
        (py_round2 (LedgerEntry.amount e) = LedgerEntry.amount e →
         LedgerEntry.amount e' = LedgerEntry.amount e).
Proof.
  intros Hd e. unfold build_ledger_entry in Hd. fold e in Hd.
  destruct (from_raw_to_dict uuid4' now' e d) as (e' & He' & Hq & Hdir & Hamt);
    [subst e; simpl; by destruct (kw_sale_type kw) | done |].
  exists e'. split; [done|]. split; [done|]. split; [done|]. split; [|split; [done|]].
  - intros Hio. rewrite Hdir. unfold reread_direction.
    by destruct Hio as [-> | ->].
  - intros Hr. rewrite Hamt. unfold reread_amount. cbv zeta. rewrite Hr.
    destruct (float_is_zero (LedgerEntry.amount e)) eqn:E; [|done].
    symmetry. by apply built_amount_zero.
Qed.

(** A purchase of three units recorded with direction [out]. *)
Definition sample_out : ledger_kwargs :=
  with_direction "out"
    (ledger_kw TRANSACTION_AGENT_PURCHASE "agentA" ROLE_AGENT 29.97%float 3).

Lemma round_trip_witness :
  ∃ e', LedgerEntry.quantity e' = 3 ∧ LedgerEntry.direction e' = "out"%string ∧
        LedgerEntry.amount e' = 29.97%float.
Proof.
  set (e := built_entry "id-1" "2024-01-01 00:00:00" sample_out).
  assert (Hp : LedgerEntry.legacy_price e = Ok 9.99%float) by (vm_compute; reflexivity).
  assert (Hd : build_ledger_entry "id-1" "2024-01-01 00:00:00" sample_out
               = Ok (LedgerEntry.agent_field e (LedgerEntry.entry_fields e 9.99%float))).
  { unfold build_ledger_entry, LedgerEntry.to_dict. fold e. rewrite Hp. reflexivity. }
  destruct (round_trip "id-1" "2024-01-01 00:00:00" "id-2" "2024-01-02 00:00:00"
              sample_out _ Hd) as (e' & _ & Hq & _ & Hdir & _ & Hamt).
  exists e'. split; [exact Hq|]. split.
  - apply Hdir. right. reflexivity.
  - apply Hamt. vm_compute. reflexivity.
Defined.

(** ** The paired entries of a wholesale *)

Lemma record_transaction_Ok_inv (uuid4 now : string) (records : list dict)
    (kw : ledger_kwargs) (r : list dict * dict) :
  record_transaction uuid4 now records kw = Ok r →
  ∃ d, build_ledger_entry uuid4 now kw = Ok d ∧ r = (records ++ [d], d).
Proof.
  unfold record_transaction. intros H.
  apply bind_Ok_inv in H as (d & Hd & H). exists d. by inversion H.
Qed.



Definition sample_credentials (i : nat) : credentials :=
  {| cred_username := "huiying10000" +:+ pretty i;
     cred_password := "123456";
     cred_user_id := "20240101000000001" |}.









(** Three units at 9.99. *)
Definition sample_order : application :=
  {| app_agent := "agentA"; app_count := 3; app_price := 9.99%float;
     app_product := "vpn" |}.


(** ** Totality of [from_raw] *)

(** The result is not one of the two exceptions no handler of [from_raw]
    catches in a conversion. *)
Definition no_overflow {A} (r : result A) : bool :=
  match r with
  | Raise OverflowError | Raise NotModelled => false
  | _ => true
  end.

(** The result is an exception the handlers of [from_raw] catch. *)
Definition caught {A} (r : result A) : bool :=
  match r with
  | Raise TypeError | Raise ValueError => true
  | _ => false
  end.

(** A conversion never fails on a missing attribute or on a division. *)
Definition conversion {A} (r : result A) : Prop :=
  r ≠ Raise AttributeError ∧ r ≠ Raise ZeroDivisionError.







Lemma try_except_total {A} (r : result A) (x : A) :
  conversion r → no_overflow r = true →
  ∃ y, try_except r (Ok x) = Ok y ∧ (caught r = true → y = x) ∧
       (∀ z, r = Ok z → y = z).
Proof.
  unfold conversion. intros [Hc Hc'] Hn.
  destruct r as [a|[]]; simpl in *; try done; eexists; (split; [done|]);
    split; try done; intros; congruence.
Qed.























(** Raw dicts whose metadata is [None], and whose count is an int no float
    can hold. *)
Definition null_metadata_raw : dict := {[ "metadata" := VNone ]}.






(** ** Account states after [ensure_defaults] *)

Lemma py_eq_str (v : value) (s : string) : py_eq v (VStr s) = true ↔ v = VStr s.
Proof.
  destruct v; simpl; try (split; [discriminate|discriminate]).
  rewrite String.eqb_eq. split; congruence.
Qed.

Lemma py_eq_none (v : value) : py_eq v VNone = true ↔ v = VNone.
Proof. destruct v; simpl; split; (discriminate || done). Qed.

(** The value stands for one of the three statuses, or for one of the sale
    types. *)
Definition is_status (v : value) : bool :=
  existsb (py_eq v) AccountState.valid_statuses.
Definition is_sale_type (v : value) : bool :=
  existsb (py_eq v) AccountState.valid_sale_types.

Lemma is_status_spec (v : value) :
  is_status v = true ↔
  v = VStr ACCOUNT_STATUS_AGENT_STOCK ∨ v = VStr ACCOUNT_STATUS_DISTRIBUTOR_STOCK ∨
  v = VStr ACCOUNT_STATUS_SOLD.
Proof.
  unfold is_status. simpl. rewrite orb_false_r, !orb_true_iff, !py_eq_str. tauto.
Qed.

Lemma is_sale_type_spec (v : value) :
  is_sale_type v = true ↔
  v = VStr SALE_TYPE_DIRECT ∨ v = VStr SALE_TYPE_DISTRIBUTION ∨ v = VNone.
Proof.
  unfold is_sale_type. simpl.
  rewrite orb_false_r, !orb_true_iff, !py_eq_str, py_eq_none. tauto.
Qed.

(** What [ensure_defaults] does to a state when it returns. *)
Definition defaults (s : AccountState.t) : AccountState.t :=
  AccountState.mk
    (AccountState.owner s)
    (if py_truthy (AccountState.manager s) then AccountState.manager s
     else AccountState.owner s)
    (if is_status (AccountState.status s) then AccountState.status s
     else VStr ACCOUNT_STATUS_AGENT_STOCK)
    (if is_sale_type (AccountState.sale_type s) then AccountState.sale_type s
     else VNone)
    (AccountState.sold_at s).

Lemma ensure_defaults_Ok (s s' : AccountState.t) :
  AccountState.ensure_defaults s = Ok s' ↔
  hashable (AccountState.status s) = true ∧
  hashable (AccountState.sale_type s) = true ∧ s' = defaults s.
Proof.
  unfold AccountState.ensure_defaults, defaults, in_set.
  fold (is_status (AccountState.status s)).
  destruct s as [o m st sa so].
  assert (Hst : ∀ b : bool, AccountState.status
            (if b then AccountState.with_manager o (AccountState.mk o m st sa so)
             else AccountState.mk o m st sa so) = st) by (by intros []).
  rewrite Hst. cbn [AccountState.status AccountState.sale_type AccountState.manager
                    AccountState.owner AccountState.sold_at].
  fold (is_status st).
  destruct (hashable st); cbn [mbind result_bind];
    [|split; [discriminate|intros (?&?&?); discriminate]].
  assert (Hsa : ∀ b c : bool, AccountState.sale_type
            (if c then AccountState.with_status (VStr ACCOUNT_STATUS_AGENT_STOCK)
                         (if b then AccountState.with_manager o (AccountState.mk o m st sa so)
                          else AccountState.mk o m st sa so)
             else (if b then AccountState.with_manager o (AccountState.mk o m st sa so)
                   else AccountState.mk o m st sa so)) = sa) by (by intros [] []).
  rewrite Hsa. fold (is_sale_type sa).
  destruct (hashable sa); cbn [mbind result_bind];
    [|split; [discriminate|intros (?&?&?); discriminate]].
  destruct (py_truthy m), (is_status st), (is_sale_type sa); cbn;
    (split; [intros [= <-]; done | intros (_ & _ & ->); done]).
Qed.

(** The invariants of a state that went through [ensure_defaults]. *)
Record normal (s : AccountState.t) : Prop := {
  normal_manager :
    py_truthy (AccountState.manager s) = false →
    AccountState.manager s = AccountState.owner s;
  normal_status : is_status (AccountState.status s) = true;
  normal_sale_type : is_sale_type (AccountState.sale_type s) = true;
}.

Lemma defaults_normal (s : AccountState.t) : normal (defaults s).
Proof.
  destruct s as [o m st sa so]. split; unfold defaults; simpl.
  - by destruct (py_truthy m) eqn:E; [rewrite E|].
  - by destruct (is_status st) eqn:E.
  - by destruct (is_sale_type sa) eqn:E.
Qed.

Lemma defaults_id (s : AccountState.t) : normal s → defaults s = s.
Proof.
  intros [Hm Hs Ht]. destruct s as [o m st sa so]. unfold defaults. simpl in *.
  rewrite Hs, Ht. destruct (py_truthy m); [done|]. by rewrite Hm.
Qed.

Lemma is_status_hashable (v : value) : is_status v = true → hashable v = true.
Proof. rewrite is_status_spec. by intros [-> | [-> | ->]]. Qed.

Lemma is_sale_type_hashable (v : value) : is_sale_type v = true → hashable v = true.
Proof. rewrite is_sale_type_spec. by intros [-> | [-> | ->]]. Qed.

Lemma is_status_truthy (v : value) : is_status v = true → py_truthy v = true.
Proof. rewrite is_status_spec. by intros [-> | [-> | ->]]. Qed.

Lemma ensure_defaults_normal (s : AccountState.t) :
  normal s → AccountState.ensure_defaults s = Ok s.
Proof.
  intros Hn. apply ensure_defaults_Ok.
  split; [apply is_status_hashable, Hn|].
  split; [apply is_sale_type_hashable, Hn|]. by rewrite defaults_id.
Qed.

Lemma ensure_defaults_Ok_normal (s s' : AccountState.t) :
  AccountState.ensure_defaults s = Ok s' → normal s'.
Proof.
  intros H. apply ensure_defaults_Ok in H as (_ & _ & ->). apply defaults_normal.
Qed.

(** ** The legacy status fallback *)

Lemma legacy_sale_type_Ok (data : dict) (s s' : AccountState.t) :
  legacy_sale_type data s = Ok s' → normal s → 
  normal s' ∧ AccountState.owner s' = AccountState.owner s ∧
  AccountState.manager s' = AccountState.manager s ∧
  AccountState.status s' = AccountState.status s ∧
  AccountState.sold_at s' = AccountState.sold_at s.
Proof.
  unfold legacy_sale_type. intros H [Hm Hs Ht].
  destruct (py_truthy (AccountState.sale_type s)); simpl in H.
  { inversion H; subst. done. }
  apply bind_Ok_inv in H as ([] & _ & H).
  { inversion H; subst. done. }
  apply bind_Ok_inv in H as ([] & _ & H); inversion H; subst; done.
Qed.

Lemma read_state_Ok (data state_data : dict) (s : AccountState.t) :
  read_state data state_data = Ok s → normal s.
Proof.
  unfold read_state. intros H.
  apply bind_Ok_inv in H as (s1 & H1 & H).
  apply ensure_defaults_Ok_normal in H1.
  assert (Hst : match AccountState.status s1 with
                | VNone => AccountState.with_status (VStr ACCOUNT_STATUS_AGENT_STOCK) s1
                | _ => s1
                end = s1).
  { destruct H1 as [_ Hs _]. apply is_status_spec in Hs.
    by destruct Hs as [-> | [-> | ->]]. }
  rewrite Hst in H. by apply legacy_sale_type_Ok in H as (? & _).
Qed.

Lemma legacy_status_normal (data : dict) (s : AccountState.t) :
  normal s → legacy_status data s = s.
Proof.
  intros [_ Hs _]. unfold legacy_status. by rewrite (is_status_truthy _ Hs).
Qed.

(** The [accounting] dict [ensure_accounting] works on, [{}] for a record
    without one. *)
Definition accounting (data : dict) : dict :=
  match get_default data "accounting" (VDict ∅) with
  | VDict state_data => state_data
  | _ => ∅
  end.

(** The status the record holds before any default is applied. *)
Definition recorded_status (data : dict) : value :=
  py_or (get (accounting data) "status") (get data "status").

Lemma get_setdefault_ne (d : dict) (k k' : string) (v : value) :
  k ≠ k' → get (setdefault d k v) k' = get d k'.
Proof. intros. unfold get. by rewrite lookup_setdefault_ne. Qed.

Lemma get_setdefault_eq (d : dict) (k : string) (v : value) :
  get (setdefault d k v) k = get_default d k v.
Proof. unfold get, get_default. by rewrite lookup_setdefault_eq. Qed.

Lemma ensure_accounting_Ok_inv (data d' : dict) (s : AccountState.t) :
  ensure_accounting data = Ok (d', s) →
  let d0 := setdefault data "accounting" (VDict ∅) in
  get_default data "accounting" (VDict ∅) = VDict (accounting data) ∧
  read_state d0 (accounting data) = Ok s ∧ normal s ∧
  _sync_legacy_flags
    (<["accounting" := VDict (store_state s (accounting data))]> d0) s = Ok d'.
Proof.
  unfold ensure_accounting, accounting. rewrite get_setdefault_eq.
  destruct (get_default data "accounting" (VDict ∅)) as [| | | | | |sd] eqn:E;
    try discriminate.
  intros H. apply bind_Ok_inv in H as (s1 & H1 & H).
  pose proof (read_state_Ok _ _ _ H1) as Hn.
  rewrite (legacy_status_normal _ _ Hn) in H.
  rewrite (ensure_defaults_normal _ Hn) in H. simpl in H.
  apply bind_Ok_inv in H as (d1 & Hd1 & H). inversion H; subst.
  done.
Qed.

Lemma read_state_status (data state_data : dict) (s : AccountState.t) :
  read_state data state_data = Ok s →
  let r := py_or (get state_data "status") (get data "status") in
  AccountState.status s = if is_status r then r else VStr ACCOUNT_STATUS_AGENT_STOCK.
Proof.
  unfold read_state. intros H.
  apply bind_Ok_inv in H as (s1 & H1 & H).
  pose proof (ensure_defaults_Ok_normal _ _ H1) as Hn.
  apply ensure_defaults_Ok in H1 as (_ & _ & ->).
  assert (Hst : ∀ s1, normal s1 →
                match AccountState.status s1 with
                | VNone => AccountState.with_status (VStr ACCOUNT_STATUS_AGENT_STOCK) s1
                | _ => s1
                end = s1).
  { intros s1 [_ Hs _]. apply is_status_spec in Hs.
    by destruct Hs as [-> | [-> | ->]]. }
  rewrite Hst in H by done.
  apply legacy_sale_type_Ok in H as (_ & _ & _ & -> & _); done.
Qed.

(** A record without any status whose legacy flags suggest a distributor's
    stock, or a sale. *)
Definition flagged_record : dict :=
  list_to_map
    [("owner", VStr "agentA"); ("distributor_forsale", VBool true);
     ("forsale", VBool false)]%string.

(** ** The legacy mirror *)

(** What [_sync_legacy_flags] writes on a record without business role. *)
Definition mirror (s : AccountState.t) (d : dict) : dict :=
  mirror_sold_at s
    (mirror_sale_type s
       (mirror_status s
          (<["manager" := AccountState.manager s]>
             (<["owner" := AccountState.owner s]> d)))).

Lemma sync_legacy_flags_Ok (d d' : dict) (s : AccountState.t) :
  _sync_legacy_flags d s = Ok d' →
  ∃ b : bool, has_business_role d = Ok b ∧ d' = if b then d else mirror s d.
Proof.
  unfold _sync_legacy_flags. intros H.
  apply bind_Ok_inv in H as (b & Hb & H). exists b. split; [done|].
  destruct b; by inversion H.
Qed.

Lemma has_business_role_ext (d d' : dict) :
  d !! "roles" = d' !! "roles" → has_business_role d = has_business_role d'.
Proof. unfold has_business_role, get_default. by intros ->. Qed.

Ltac map_simpl :=
  repeat (rewrite lookup_insert_eq || rewrite lookup_delete_eq ||
          (rewrite lookup_insert_ne by done) || (rewrite lookup_delete_ne by done)).

Lemma pop_delete (d : dict) (k : string) :
  (if has_key d k then delete k d else d) = delete k d.
Proof.
  unfold has_key. case_bool_decide as H; [done|].
  symmetry. apply delete_id. by apply eq_None_not_Some.
Qed.

(** A key the mirror does not write. *)
Definition unmirrored (k : string) : Prop :=
  k ≠ "owner"%string ∧ k ≠ "manager"%string ∧ k ≠ "forsale"%string ∧
  k ≠ "distribution_tag"%string ∧ k ≠ "distributor_forsale"%string ∧
  k ≠ "distributor_sold"%string ∧ k ≠ "assigned_distributor"%string ∧
  k ≠ "sale_type"%string ∧ k ≠ "sold_at"%string.

Lemma mirror_status_lookup_ne (s : AccountState.t) (d : dict) (k : string) :
  k ≠ "forsale"%string → k ≠ "distribution_tag"%string →
  k ≠ "distributor_forsale"%string → k ≠ "distributor_sold"%string →
  k ≠ "assigned_distributor"%string →
  mirror_status s d !! k = d !! k.
Proof.
  intros. unfold mirror_status. rewrite pop_delete.
  repeat case_match; by map_simpl.
Qed.

Lemma mirror_sale_type_lookup_ne (s : AccountState.t) (d : dict) (k : string) :
  k ≠ "sale_type"%string → mirror_sale_type s d !! k = d !! k.
Proof. intros. unfold mirror_sale_type. repeat case_match; by map_simpl. Qed.

Lemma mirror_sold_at_lookup_ne (s : AccountState.t) (d : dict) (k : string) :
  k ≠ "sold_at"%string → mirror_sold_at s d !! k = d !! k.
Proof. intros. unfold mirror_sold_at. repeat case_match; by map_simpl. Qed.

Lemma mirror_lookup_ne (s : AccountState.t) (d : dict) (k : string) :
  unmirrored k → mirror s d !! k = d !! k.
Proof.
  intros (?&?&?&?&?&?&?&?&?). unfold mirror.
  rewrite mirror_sold_at_lookup_ne, mirror_sale_type_lookup_ne,
    mirror_status_lookup_ne by done.
  by map_simpl.
Qed.

(** The flag the code derives for a sold account: a manager is set and is
    not the owner. *)
Definition managed (s : AccountState.t) : bool :=
  py_truthy (AccountState.manager s) &&
  negb (py_eq (AccountState.manager s) (AccountState.owner s)).

(** One row of the mapping table of the legacy mirror. *)
Record legacy_flags := {
  forsale : bool;
  distribution_tag : bool;
  distributor_forsale : bool;
  distributor_sold : bool;
  assigned_distributor : option value;
}.

(** The mapping table, row by row; a sold account without sale type has no
    row. *)
Definition mirror_row (s : AccountState.t) : option legacy_flags :=
  let manager := AccountState.manager s in
  if py_eq (AccountState.status s) (VStr ACCOUNT_STATUS_AGENT_STOCK) then
    Some (Build_legacy_flags true false false false None)
  else if py_eq (AccountState.status s) (VStr ACCOUNT_STATUS_DISTRIBUTOR_STOCK) then
    Some (Build_legacy_flags false true true false (Some manager))
  else if py_eq (AccountState.status s) (VStr ACCOUNT_STATUS_SOLD) then
    if py_eq (AccountState.sale_type s) (VStr SALE_TYPE_DIRECT) then
      if managed s
      then Some (Build_legacy_flags false true false false (Some manager))
      else Some (Build_legacy_flags false false false false None)
    else if py_eq (AccountState.sale_type s) (VStr SALE_TYPE_DISTRIBUTION) then
      Some (Build_legacy_flags false (managed s) false true
              (if managed s then Some manager else None))
    else None
  else None.

(** The localized token of the sale type, if any. *)
Definition legacy_token (s : AccountState.t) : option string :=
  if py_eq (AccountState.sale_type s) (VStr SALE_TYPE_DIRECT)
  then Some LEGACY_DIRECT
  else if py_eq (AccountState.sale_type s) (VStr SALE_TYPE_DISTRIBUTION)
  then Some LEGACY_DISTRIBUTION
  else None.

(** The record holds exactly the flags of the row. *)
Definition has_flags (d : dict) (r : legacy_flags) : Prop :=
  d !! "forsale" = Some (VBool (forsale r)) ∧
  d !! "distribution_tag" = Some (VBool (distribution_tag r)) ∧
  d !! "distributor_forsale" = Some (VBool (distributor_forsale r)) ∧
  d !! "distributor_sold" = Some (VBool (distributor_sold r)) ∧
  d !! "assigned_distributor" = assigned_distributor r.

Lemma mirror_has_flags (s : AccountState.t) (d : dict) (r : legacy_flags) :
  mirror_row s = Some r → has_flags (mirror s d) r.
Proof.
  unfold mirror_row, has_flags, mirror. intros Hr.
  rewrite !mirror_sold_at_lookup_ne, !mirror_sale_type_lookup_ne by done.
  unfold mirror_status. rewrite pop_delete. fold (managed s).
  destruct (py_eq (AccountState.status s) (VStr ACCOUNT_STATUS_AGENT_STOCK)).
  { inversion Hr; subst; simpl. repeat split; by map_simpl. }
  destruct (py_eq (AccountState.status s) (VStr ACCOUNT_STATUS_DISTRIBUTOR_STOCK)).
  { inversion Hr; subst; simpl. repeat split; by map_simpl. }
  destruct (py_eq (AccountState.status s) (VStr ACCOUNT_STATUS_SOLD)); [|done].
  destruct (py_eq (AccountState.sale_type s) (VStr SALE_TYPE_DIRECT)) eqn:Ed.
  { assert (py_eq (AccountState.sale_type s) (VStr SALE_TYPE_DISTRIBUTION) = false) as ->.
    { apply py_eq_str in Ed. by rewrite Ed. }
    destruct (managed s); inversion Hr; subst; simpl;
      repeat split; by map_simpl. }
  destruct (py_eq (AccountState.sale_type s) (VStr SALE_TYPE_DISTRIBUTION)); [|done].
  destruct (managed s); inversion Hr; subst; simpl;
    repeat split; by map_simpl.
Qed.

Lemma mirror_sale_type_token (s : AccountState.t) (d : dict) :
  mirror s d !! "sale_type" = VStr <$> legacy_token s.
Proof.
  unfold mirror, legacy_token.
  rewrite mirror_sold_at_lookup_ne by done. unfold mirror_sale_type.
  repeat case_match; by map_simpl.
Qed.

Lemma mirror_owner_manager (s : AccountState.t) (d : dict) :
  mirror s d !! "owner" = Some (AccountState.owner s) ∧
  mirror s d !! "manager" = Some (AccountState.manager s).
Proof.
  unfold mirror.
  rewrite !mirror_sold_at_lookup_ne, !mirror_sale_type_lookup_ne,
    !mirror_status_lookup_ne by done.
  split; by map_simpl.
Qed.

(** ** Updating an inventory record *)

(** The state after the arguments that were passed are applied. *)
Definition apply_arguments (owner manager status sale_type sold_at : option string)
    (s : AccountState.t) : AccountState.t :=
  override sold_at AccountState.with_sold_at
    (override sale_type AccountState.with_sale_type
       (override status AccountState.with_status
          (override manager AccountState.with_manager
             (override owner AccountState.with_owner s)))).

Lemma update_inventory_inv (data d' : dict)
    (owner manager status sale_type sold_at : option string) (s : AccountState.t) :
  update_account_state data owner manager status sale_type sold_at = Ok (d', s) →
  _is_inventory_record data = Ok true →
  ∃ d1 s1 sd,
    ensure_accounting data = Ok (d1, s1) ∧
    AccountState.ensure_defaults
      (apply_arguments owner manager status sale_type sold_at s1) = Ok s ∧
    get_default d1 "accounting" (VDict ∅) = VDict sd ∧
    _sync_legacy_flags
      (<["accounting" := VDict (store_state s sd)]>
         (setdefault d1 "accounting" (VDict ∅))) s = Ok d'.
Proof.
  unfold update_account_state. intros H Hinv. rewrite Hinv in H. simpl in H.
  apply bind_Ok_inv in H as ([d1 s1] & H1 & H).
  fold (apply_arguments owner manager status sale_type sold_at s1) in H.
  apply bind_Ok_inv in H as (s2 & H2 & H).
  rewrite get_setdefault_eq in H.
  destruct (get_default d1 "accounting" (VDict ∅)) as [| | | | | |sd] eqn:E;
    try discriminate.
  apply bind_Ok_inv in H as (d2 & Hd2 & H). inversion H; subst.
  by exists d1, s1, sd.
Qed.

Lemma ensure_accounting_data (data d1 : dict) (s1 : AccountState.t) :
  ensure_accounting data = Ok (d1, s1) →
  ∃ b : bool,
    has_business_role data = Ok b ∧
    d1 = (if b then id else mirror s1)
           (<["accounting" := VDict (store_state s1 (accounting data))]>
              (setdefault data "accounting" (VDict ∅))).
Proof.
  intros H. apply ensure_accounting_Ok_inv in H as (_ & _ & _ & H).
  apply sync_legacy_flags_Ok in H as (b & Hb & ->). exists b. split.
  - rewrite <- Hb. apply has_business_role_ext.
    by rewrite lookup_insert_ne, lookup_setdefault_ne.
  - by destruct b.
Qed.

Lemma unmirrored_roles : unmirrored "roles".
Proof. repeat split; done. Qed.

Lemma unmirrored_accounting : unmirrored "accounting".
Proof. repeat split; done. Qed.

Lemma ensure_accounting_lookup (data d1 : dict) (s1 : AccountState.t) (k : string) :
  ensure_accounting data = Ok (d1, s1) → unmirrored k → k ≠ "accounting"%string →
  d1 !! k = data !! k.
Proof.
  intros H Hk Hacc. apply ensure_accounting_data in H as (b & _ & ->).
  destruct b; simpl; rewrite ?mirror_lookup_ne by done;
    by rewrite lookup_insert_ne, lookup_setdefault_ne.
Qed.

Lemma ensure_accounting_stored (data d1 : dict) (s1 : AccountState.t) :
  ensure_accounting data = Ok (d1, s1) →
  d1 !! "accounting" = Some (VDict (store_state s1 (accounting data))).
Proof.
  intros H. apply ensure_accounting_data in H as (b & _ & ->).
  destruct b; simpl; rewrite ?mirror_lookup_ne by apply unmirrored_accounting;
    by rewrite lookup_insert_eq.
Qed.

Lemma store_state_lookup (s : AccountState.t) (sd : dict) :
  store_state s sd !! "owner" = Some (AccountState.owner s) ∧
  store_state s sd !! "manager" = Some (AccountState.manager s) ∧
  store_state s sd !! "status" = Some (AccountState.status s) ∧
  store_state s sd !! "sale_type" = Some (AccountState.sale_type s) ∧
  store_state s sd !! "sold_at" = Some (AccountState.sold_at s).
Proof. unfold store_state. repeat split; by map_simpl. Qed.

Lemma apply_arguments_fields (owner manager status sale_type sold_at : option string)
    (s : AccountState.t) :
  let s' := apply_arguments owner manager status sale_type sold_at s in
  AccountState.owner s' = default (AccountState.owner s) (VStr <$> owner) ∧
  AccountState.manager s' = default (AccountState.manager s) (VStr <$> manager) ∧
  AccountState.status s' = default (AccountState.status s) (VStr <$> status) ∧
  AccountState.sale_type s' = default (AccountState.sale_type s) (VStr <$> sale_type) ∧
  AccountState.sold_at s' = default (AccountState.sold_at s) (VStr <$> sold_at).
Proof.
  destruct s, owner, manager, status, sale_type, sold_at; simpl; done.
Qed.

(** C9: in [ensure_accounting] every state that reaches the legacy status
    fallback has a status, so the fallback leaves it as it is.  A record
    whose recorded status is not one of the three ends up in [agent_stock],
    whatever its legacy flags say: that is the status of the returned state
    and the status the record's accounting dict holds afterwards, and on a
    record without business role the legacy flags are rewritten to those of
    [agent_stock].  A record with one of the three statuses keeps it. *)
Theorem legacy_status_unreachable (data : dict) :
  let d0 := setdefault data "accounting" (VDict ∅) in
  (∀ state_data st,
     read_state d0 state_data = Ok st →
     py_truthy (AccountState.status st) = true ∧ legacy_status d0 st = st) ∧
  (∀ d' s,
     ensure_accounting data = Ok (d', s) →
     get (accounting d') "status" = AccountState.status s ∧
     (is_status (recorded_status data) = false →
      AccountState.status s = VStr ACCOUNT_STATUS_AGENT_STOCK ∧
      get (accounting d') "status" = VStr ACCOUNT_STATUS_AGENT_STOCK ∧
      (has_business_role data = Ok false →
       d' !! "forsale" = Some (VBool true) ∧
       d' !! "distributor_forsale" = Some (VBool false) ∧
       d' !! "distributor_sold" = Some (VBool false))) ∧
     (is_status (recorded_status data) = true →
      AccountState.status s = recorded_status data ∧
      get (accounting d') "status" = recorded_status data)).
Proof.
  intros d0. split.
  - intros state_data st Hr. apply read_state_Ok in Hr.
    split; [apply is_status_truthy, Hr | by apply legacy_status_normal].
  - intros d' s H.
    assert (Hstored : get (accounting d') "status" = AccountState.status s).
    { unfold accounting, get_default.
      rewrite (ensure_accounting_stored _ _ _ H). simpl. unfold get.
      by destruct (store_state_lookup s (accounting data)) as (_ & _ & -> & _). }
    pose proof H as Hdata. apply ensure_accounting_data in Hdata as (b & Hb & Hd').
    apply ensure_accounting_Ok_inv in H as (_ & Hr & _ & _).
    apply read_state_status in Hr. simpl in Hr.
    rewrite get_setdefault_ne in Hr by done.
    fold (recorded_status data) in Hr.
    split; [done|]. split; intros E; rewrite E in Hr.
    + split; [done|]. split; [by rewrite Hstored|].
      intros Hrole. rewrite Hrole in Hb. inversion Hb; subst b.
      assert (Hrow : mirror_row s = Some (Build_legacy_flags true false false false None))
        by (unfold mirror_row; by rewrite Hr).
      rewrite Hd'.
      destruct (mirror_has_flags s
                  (<["accounting" := VDict (store_state s (accounting data))]>
                     (setdefault data "accounting" (VDict ∅))) _ Hrow)
        as (Hf & _ & Hdf & Hds & _).
      done.
    + split; [done | by rewrite Hstored].
Qed.

Lemma legacy_status_unreachable_witness :
  ∃ d' s, ensure_accounting flagged_record = Ok (d', s) ∧
          AccountState.status s = VStr ACCOUNT_STATUS_AGENT_STOCK ∧
          get (accounting d') "status" = VStr ACCOUNT_STATUS_AGENT_STOCK ∧
          d' !! "forsale" = Some (VBool true) ∧
          d' !! "distributor_forsale" = Some (VBool false).
Proof.
  assert (Hok : is_Ok (ensure_accounting flagged_record) = true)
    by (vm_compute; reflexivity).
  destruct (ensure_accounting flagged_record) as [[d' s]|] eqn:E; [|discriminate Hok].
  exists d', s. split; [reflexivity|].
  destruct (legacy_status_unreachable flagged_record) as (_ & Hstatus).
  destruct (Hstatus d' s E) as (_ & Hbogus & _).
  destruct Hbogus as (Hs & Hd & Hflags); [vm_compute; reflexivity|].
  destruct Hflags as (Hf & Hdf & _); [vm_compute; reflexivity|].
  split; [exact Hs|]. split; [exact Hd|]. split; [exact Hf | exact Hdf].
Defined.

(** A stock account of an agent, as loaded. *)
Definition stock_record : dict :=
  list_to_map
    [("owner", VStr "agentA"); ("source", VStr "agent"); ("price", VFloat 9.99);
     ("accounting",
      VDict (list_to_map
               [("owner", VStr "agentA"); ("manager", VStr "agentA");
                ("status", VStr ACCOUNT_STATUS_AGENT_STOCK);
                ("sale_type", VNone); ("sold_at", VNone)]%string))]%string.

(** C2: after [update_account_state] on an inventory record that carries no
    business role, the legacy fields are those of the mapping table's row
    for the resulting state, the [sale_type] field holds the localized token
    of the sale type or is absent, and the [accounting] dict holds the
    state; every valid argument passed is the corresponding field of that
    state. *)
Theorem mirror_consistency (data d' : dict)
    (owner manager status sale_type sold_at : option string) (s : AccountState.t) :
  update_account_state data owner manager status sale_type sold_at = Ok (d', s) →
  _is_inventory_record data = Ok true →
  has_business_role data = Ok false →
  is_status (AccountState.status s) = true ∧
  (∀ r, mirror_row s = Some r → has_flags d' r) ∧
  d' !! "sale_type" = VStr <$> legacy_token s ∧
  d' !! "owner" = Some (AccountState.owner s) ∧
  d' !! "manager" = Some (AccountState.manager s) ∧
  (∃ acc, d' !! "accounting" = Some (VDict acc) ∧
          acc !! "owner" = Some (AccountState.owner s) ∧
          acc !! "manager" = Some (AccountState.manager s) ∧
          acc !! "status" = Some (AccountState.status s) ∧
          acc !! "sale_type" = Some (AccountState.sale_type s) ∧
          acc !! "sold_at" = Some (AccountState.sold_at s)) ∧
  (∀ o, owner = Some o → AccountState.owner s = VStr o) ∧
  (∀ m, manager = Some m → m ≠ ""%string → AccountState.manager s = VStr m) ∧
  (∀ x, status = Some x → is_status (VStr x) = true →
        AccountState.status s = VStr x) ∧
  (∀ x, sale_type = Some x → is_sale_type (VStr x) = true →
        AccountState.sale_type s = VStr x) ∧
  (∀ o m, AccountState.owner s = VStr o → AccountState.manager s = VStr m →
          m ≠ ""%string → managed s = negb (String.eqb m o)).
Proof.
  intros H Hinv Hrole.
  apply update_inventory_inv in H as (d1 & s1 & sd & H1 & Hs & Hsd & Hd'); [|done].
  pose proof (ensure_defaults_Ok_normal _ _ Hs) as Hn.
  apply sync_legacy_flags_Ok in Hd' as (b & Hb & ->).
  assert (b = false) as ->.
  { erewrite has_business_role_ext in Hb; [rewrite Hrole in Hb; by inversion Hb|].
    rewrite lookup_insert_ne, lookup_setdefault_ne by done.
    eapply ensure_accounting_lookup; [done | apply unmirrored_roles | done]. }
  split; [apply Hn|]. split; [intros r; apply mirror_has_flags|].
  split; [apply mirror_sale_type_token|].
  split; [apply mirror_owner_manager|]. split; [apply mirror_owner_manager|].
  split.
  { exists (store_state s sd).
    rewrite mirror_lookup_ne by apply unmirrored_accounting.
    rewrite lookup_insert_eq. split; [done|]. apply store_state_lookup. }
  assert (Hmanaged : ∀ o m, AccountState.owner s = VStr o →
                             AccountState.manager s = VStr m →
                             m ≠ ""%string → managed s = negb (String.eqb m o)).
  { intros o m Ho Hm Hne. unfold managed. rewrite Ho, Hm. simpl.
    by destruct (String.eqb_spec m ""). }
  apply ensure_defaults_Ok in Hs as (_ & _ & ->).
  destruct (apply_arguments_fields owner manager status sale_type sold_at s1)
    as (Eo & Em & Est & Esa & _).
  unfold defaults. simpl. rewrite Eo, Em, Est, Esa.
  split; [by intros o ->|].
  split.
  { intros m -> Hm. simpl. by destruct (String.eqb_spec m ""). }
  split; [intros x -> Hx; simpl; by rewrite Hx|].
  split; [intros x -> Hx; simpl; by rewrite Hx|].
  unfold defaults in Hmanaged. simpl in Hmanaged.
  rewrite Eo, Em in Hmanaged. exact Hmanaged.
Qed.

Lemma mirror_consistency_witness :
  ∃ d' s,
    update_account_state stock_record (Some "agentA") (Some "distB")
      (Some ACCOUNT_STATUS_SOLD) (Some SALE_TYPE_DIRECT)
      (Some "2024-02-02 10:00:00") = Ok (d', s) ∧
    has_flags d' (Build_legacy_flags false true false false (Some (VStr "distB"))) ∧
    d' !! "sale_type" = Some (VStr LEGACY_DIRECT).
Proof.
  pose (s := AccountState.mk (VStr "agentA") (VStr "distB") (VStr ACCOUNT_STATUS_SOLD)
               (VStr SALE_TYPE_DIRECT) (VStr "2024-02-02 10:00:00")).
  assert (Hok : (r ← update_account_state stock_record (Some "agentA") (Some "distB")
                     (Some ACCOUNT_STATUS_SOLD) (Some SALE_TYPE_DIRECT)
                     (Some "2024-02-02 10:00:00"); Ok (snd r)) = Ok s)
    by (vm_compute; reflexivity).
  destruct (update_account_state stock_record (Some "agentA") (Some "distB")
              (Some ACCOUNT_STATUS_SOLD) (Some SALE_TYPE_DIRECT)
              (Some "2024-02-02 10:00:00")) as [[d' s']|] eqn:E; [|discriminate Hok].
  simpl in Hok. inversion Hok; subst s'. clear Hok.
  exists d', s. split; [reflexivity|].
  destruct (mirror_consistency _ _ _ _ _ _ _ _ E) as (_ & Hrow & Htok & _);
    try (vm_compute; reflexivity).
  split; [apply Hrow; vm_compute; reflexivity | exact Htok].
Defined.

(** ** Idempotence of [update_account_state] *)

Lemma py_or_truthy (a b : value) : py_truthy a = true → py_or a b = a.
Proof. unfold py_or. by intros ->. Qed.

Lemma py_or_falsy (a b : value) : py_truthy a = false → py_or a b = b.
Proof. unfold py_or. by intros ->. Qed.

Lemma py_truthy_or (a b : value) :
  py_truthy (py_or a b) = py_truthy a || py_truthy b.
Proof. unfold py_or. by destruct (py_truthy a) eqn:E; [rewrite E|]. Qed.

Lemma get_truthy (d : dict) (k : string) :
  py_truthy (get d k) = true → d !! k = Some (get d k).
Proof. unfold get. by destruct (d !! k). Qed.

(** The mirror of a record with or without business role. *)
Definition mirror_if (business : bool) (s : AccountState.t) (d : dict) : dict :=
  if business then d else mirror s d.

Lemma sync_legacy_flags_intro (d : dict) (s : AccountState.t) (b : bool) :
  has_business_role d = Ok b → _sync_legacy_flags d s = Ok (mirror_if b s d).
Proof. unfold _sync_legacy_flags. intros ->. by destruct b. Qed.

Lemma ensure_accounting_intro (data sd : dict) (s : AccountState.t) (b : bool) :
  get_default data "accounting" (VDict ∅) = VDict sd →
  read_state (setdefault data "accounting" (VDict ∅)) sd = Ok s →
  has_business_role data = Ok b →
  ensure_accounting data
  = Ok (mirror_if b s (<["accounting" := VDict (store_state s sd)]> data), s).
Proof.
  intros Hsd Hr Hb. unfold ensure_accounting.
  rewrite get_setdefault_eq, Hsd, Hr. simpl.
  pose proof (read_state_Ok _ _ _ Hr) as Hn.
  rewrite (legacy_status_normal _ _ Hn), (ensure_defaults_normal _ Hn). simpl.
  assert (Hins : <["accounting" := VDict (store_state s sd)]>
                   (setdefault data "accounting" (VDict ∅))
                 = <["accounting" := VDict (store_state s sd)]> data).
  { unfold setdefault. destruct (data !! "accounting"); [done|].
    by rewrite insert_insert_eq. }
  rewrite Hins.
  erewrite sync_legacy_flags_intro; [done|].
  rewrite <- Hb. apply has_business_role_ext. by rewrite lookup_insert_ne.
Qed.

Lemma store_state_store (s s' : AccountState.t) (sd : dict) :
  store_state s (store_state s' sd) = store_state s sd.
Proof.
  apply map_eq. intros k. unfold store_state.
  destruct (decide (k = "sold_at"%string)) as [->|]; [by map_simpl|].
  destruct (decide (k = "sale_type"%string)) as [->|]; [by map_simpl|].
  destruct (decide (k = "status"%string)) as [->|]; [by map_simpl|].
  destruct (decide (k = "manager"%string)) as [->|]; [by map_simpl|].
  destruct (decide (k = "owner"%string)) as [->|]; by map_simpl.
Qed.

Lemma mirror_if_lookup_accounting (b : bool) (s : AccountState.t) (d : dict) :
  mirror_if b s d !! "accounting" = d !! "accounting".
Proof.
  destruct b; [done|]. apply mirror_lookup_ne, unmirrored_accounting.
Qed.

Lemma mirror_if_lookup_roles (b : bool) (s : AccountState.t) (d : dict) :
  mirror_if b s d !! "roles" = d !! "roles".
Proof. destruct b; [done|]. apply mirror_lookup_ne, unmirrored_roles. Qed.

(** The record and the state [update_account_state] returns for an
    inventory record, from the state read and the business role found. *)
Definition updated (b : bool) (s1 sF : AccountState.t) (sd data : dict) : dict :=
  mirror_if b sF
    (<["accounting" := VDict (store_state sF sd)]>
       (mirror_if b s1 (<["accounting" := VDict (store_state s1 sd)]> data))).

Lemma update_inventory_intro (data sd : dict)
    (owner manager status sale_type sold_at : option string)
    (s1 sF : AccountState.t) (b : bool) :
  _is_inventory_record data = Ok true →
  get_default data "accounting" (VDict ∅) = VDict sd →
  read_state (setdefault data "accounting" (VDict ∅)) sd = Ok s1 →
  has_business_role data = Ok b →
  AccountState.ensure_defaults
    (apply_arguments owner manager status sale_type sold_at s1) = Ok sF →
  update_account_state data owner manager status sale_type sold_at
  = Ok (updated b s1 sF sd data, sF).
Proof.
  intros Hinv Hsd Hr Hb Hs. unfold update_account_state. rewrite Hinv. simpl.
  rewrite (ensure_accounting_intro _ _ _ _ Hsd Hr Hb). simpl.
  fold (apply_arguments owner manager status sale_type sold_at s1).
  rewrite Hs. simpl.
  set (d1 := mirror_if b s1 (<["accounting" := VDict (store_state s1 sd)]> data)).
  assert (Hacc : d1 !! "accounting" = Some (VDict (store_state s1 sd))).
  { unfold d1. by rewrite mirror_if_lookup_accounting, lookup_insert_eq. }
  assert (Hset : setdefault d1 "accounting" (VDict ∅) = d1).
  { unfold setdefault. by rewrite Hacc. }
  rewrite Hset. unfold get. rewrite Hacc. simpl.
  rewrite store_state_store.
  erewrite sync_legacy_flags_intro; [done|].
  rewrite <- Hb. apply has_business_role_ext.
  rewrite lookup_insert_ne by done. unfold d1.
  by rewrite mirror_if_lookup_roles, lookup_insert_ne.
Qed.

Lemma update_inventory_closed (data dF : dict)
    (owner manager status sale_type sold_at : option string) (sF : AccountState.t) :
  update_account_state data owner manager status sale_type sold_at = Ok (dF, sF) →
  _is_inventory_record data = Ok true →
  ∃ (b : bool) (s1 : AccountState.t),
    get_default data "accounting" (VDict ∅) = VDict (accounting data) ∧
    read_state (setdefault data "accounting" (VDict ∅)) (accounting data) = Ok s1 ∧
    has_business_role data = Ok b ∧
    AccountState.ensure_defaults
      (apply_arguments owner manager status sale_type sold_at s1) = Ok sF ∧
    dF = updated b s1 sF (accounting data) data.
Proof.
  intros H Hinv.
  pose proof H as H'.
  apply update_inventory_inv in H' as (d1 & s1 & sd & H1 & Hs & _ & _); [|done].
  pose proof H1 as H1'.
  apply ensure_accounting_Ok_inv in H1' as (Hsd & Hr & _ & _).
  apply ensure_accounting_data in H1 as (b & Hb & _).
  exists b, s1. split; [done|]. split; [done|]. split; [done|]. split; [done|].
  rewrite (update_inventory_intro _ _ _ _ _ _ _ _ _ _ Hinv Hsd Hr Hb Hs) in H.
  by inversion H.
Qed.

(** The state [read_state] builds before any default. *)
Definition raw_state (data state_data : dict) : AccountState.t :=
  AccountState.mk
    (py_or (get state_data "owner") (get data "owner"))
    (py_or (get state_data "manager")
       (py_or (get data "manager")
          (py_or (get data "assigned_distributor") (get data "owner"))))
    (py_or (get state_data "status") (get data "status"))
    (py_or (get state_data "sale_type") (get data "sale_type"))
    (py_or (get state_data "sold_at") (get data "sold_at")).

Definition direct_tokens : list value :=
  [VStr SALE_TYPE_DIRECT; VStr LEGACY_DIRECT; VStr "direct"].
Definition distribution_tokens : list value :=
  [VStr SALE_TYPE_DISTRIBUTION; VStr LEGACY_DISTRIBUTION; VStr "distribution"].

(** The sale type [legacy_sale_type] settles on, from the sale type [c] of
    the state and the legacy field [x] of the record. *)
Definition derive_sale_type (x c : value) : value :=
  if py_truthy c then c
  else if existsb (py_eq x) direct_tokens then VStr SALE_TYPE_DIRECT
  else if existsb (py_eq x) distribution_tokens then VStr SALE_TYPE_DISTRIBUTION
  else c.

Lemma with_sale_type_id (s : AccountState.t) :
  AccountState.with_sale_type (AccountState.sale_type s) s = s.
Proof. by destruct s. Qed.

Lemma legacy_sale_type_spec (data : dict) (s s' : AccountState.t) :
  legacy_sale_type data s = Ok s' ↔
  (py_truthy (AccountState.sale_type s) = false →
   hashable (get data "sale_type") = true) ∧
  s' = AccountState.with_sale_type
         (derive_sale_type (get data "sale_type") (AccountState.sale_type s)) s.
Proof.
  unfold legacy_sale_type, derive_sale_type, in_set.
  fold direct_tokens. fold distribution_tokens.
  destruct (py_truthy (AccountState.sale_type s)); cbn [negb mbind result_bind].
  { rewrite with_sale_type_id. split; [intros [= <-]; done | intros (_ & ->); done]. }
  destruct (hashable (get data "sale_type")); cbn [negb mbind result_bind];
    [|split; [discriminate | intros (H & _); by specialize (H eq_refl)]].
  destruct (existsb (py_eq (get data "sale_type")) direct_tokens);
    cbn [negb mbind result_bind].
  { split; [intros [= <-]; done | intros (_ & ->); done]. }
  destruct (existsb (py_eq (get data "sale_type")) distribution_tokens);
    cbn [negb mbind result_bind].
  { split; [intros [= <-]; done | intros (_ & ->); done]. }
  rewrite with_sale_type_id. split; [intros [= <-]; done | intros (_ & ->); done].
Qed.

Lemma read_state_spec (data state_data : dict) (s : AccountState.t) :
  read_state data state_data = Ok s ↔
  let r := raw_state data state_data in
  hashable (AccountState.status r) = true ∧
  hashable (AccountState.sale_type r) = true ∧
  (py_truthy (AccountState.sale_type (defaults r)) = false →
   hashable (get data "sale_type") = true) ∧
  s = AccountState.with_sale_type
        (derive_sale_type (get data "sale_type")
           (AccountState.sale_type (defaults r)))
        (defaults r).
Proof.
  unfold read_state. fold (raw_state data state_data).
  set (r := raw_state data state_data). cbv zeta.
  assert (Hst : match AccountState.status (defaults r) with
                | VNone => AccountState.with_status (VStr ACCOUNT_STATUS_AGENT_STOCK)
                             (defaults r)
                | _ => defaults r
                end = defaults r).
  { pose proof (normal_status _ (defaults_normal r)) as Hs.
    apply is_status_spec in Hs. by destruct Hs as [-> | [-> | ->]]. }
  split.
  - intros H. apply bind_Ok_inv in H as (s1 & H1 & H).
    apply ensure_defaults_Ok in H1 as (? & ? & ->).
    rewrite Hst in H. apply legacy_sale_type_spec in H as (? & ->). done.
  - intros (H1 & H2 & H3 & ->).
    assert (AccountState.ensure_defaults r = Ok (defaults r)) as ->
      by (by apply ensure_defaults_Ok).
    cbn [mbind result_bind]. rewrite Hst. by apply legacy_sale_type_spec.
Qed.

Lemma py_or_falsy_inv (a b : value) :
  py_truthy (py_or a b) = false →
  py_truthy a = false ∧ py_truthy b = false ∧ py_or a b = b.
Proof.
  rewrite py_truthy_or. intros [Ha Hb]%orb_false_iff.
  by rewrite (py_or_falsy _ _ Ha).
Qed.

Lemma mirror_lookup_sold_at (s : AccountState.t) (d : dict) :
  mirror s d !! "sold_at" =
  if py_truthy (AccountState.sold_at s) then Some (AccountState.sold_at s)
  else d !! "sold_at".
Proof.
  unfold mirror, mirror_sold_at.
  destruct (py_truthy (AccountState.sold_at s)); [by map_simpl|].
  rewrite mirror_sale_type_lookup_ne, mirror_status_lookup_ne by done.
  by map_simpl.
Qed.

Lemma mirror_assigned_falsy (s : AccountState.t) (d : dict) :
  py_truthy (AccountState.manager s) = false →
  py_truthy (get (mirror s d) "assigned_distributor") = false.
Proof.
  intros Hm. unfold get, mirror.
  rewrite mirror_sold_at_lookup_ne, mirror_sale_type_lookup_ne by done.
  unfold mirror_status. rewrite pop_delete, Hm. simpl.
  repeat case_match; map_simpl; simpl; done.
Qed.

(** On a fixed key the mirror writes a value that depends on the state
    only. *)
Definition mirror_fixed (k : string) : Prop :=
  k = "owner"%string ∨ k = "manager"%string ∨ k = "forsale"%string ∨
  k = "distribution_tag"%string ∨ k = "distributor_forsale"%string ∨
  k = "distributor_sold"%string ∨ k = "assigned_distributor"%string ∨
  k = "sale_type"%string.

Lemma mirror_lookup_fixed (s : AccountState.t) (d d' : dict) (k : string) :
  mirror_fixed k → mirror s d !! k = mirror s d' !! k.
Proof.
  unfold mirror_fixed, mirror. intros Hk.
  rewrite !mirror_sold_at_lookup_ne
    by (intros ->; repeat destruct Hk as [Hk|Hk]; discriminate).
  unfold mirror_sale_type, mirror_status. rewrite !pop_delete.
  repeat destruct Hk as [Hk|Hk]; subst k; repeat case_match; by map_simpl.
Qed.

Lemma key_cases (k : string) :
  k = "accounting"%string ∨ k = "sold_at"%string ∨ mirror_fixed k ∨
  (unmirrored k ∧ k ≠ "accounting"%string).
Proof.
  unfold mirror_fixed, unmirrored.
  destruct (decide (k = "accounting"%string)); [by left|].
  destruct (decide (k = "sold_at"%string)); [by right; left|].
  destruct (decide (k = "owner"%string)); [by right; right; left; left|].
  destruct (decide (k = "manager"%string)); [right; right; left; tauto|].
  destruct (decide (k = "forsale"%string)); [right; right; left; tauto|].
  destruct (decide (k = "distribution_tag"%string)); [right; right; left; tauto|].
  destruct (decide (k = "distributor_forsale"%string)); [right; right; left; tauto|].
  destruct (decide (k = "distributor_sold"%string)); [right; right; left; tauto|].
  destruct (decide (k = "assigned_distributor"%string)); [right; right; left; tauto|].
  destruct (decide (k = "sale_type"%string)); [right; right; left; tauto|].
  right; right; right. tauto.
Qed.

Lemma option_cases {A} (o : option A) : o = None ∨ ∃ a, o = Some a.
Proof. destruct o; eauto. Qed.

Lemma default_none (v : value) : default v (VStr <$> None) = v.
Proof. reflexivity. Qed.

Lemma business_cases (b : bool) : b = true ∨ b = false.
Proof. destruct b; auto. Qed.

Section SecondCall.

(** A first call on an inventory record [data] read the state [s1] and
    returned the state [sF]; the section follows a second call, with the same
    arguments, on the record the first call left. *)
Variables (data sd : dict).
Variables (owner manager status sale_type sold_at : option string).
Variables (b : bool) (s1 sF : AccountState.t).

Hypothesis Hread :
  read_state (setdefault data "accounting" (VDict ∅)) sd = Ok s1.
Hypothesis Hdefaults :
  AccountState.ensure_defaults
    (apply_arguments owner manager status sale_type sold_at s1) = Ok sF.
Hypothesis Hhashable :
  b = true → py_truthy (AccountState.sale_type sF) = false →
  hashable (get data "sale_type") = true.

Let dF : dict := updated b s1 sF sd data.
Let aF : dict := store_state sF sd.
Let x : value := get data "sale_type".

Lemma first_normal : normal s1 ∧ normal sF.
Proof.
  split; [by eapply read_state_Ok | by eapply ensure_defaults_Ok_normal].
Qed.

Lemma first_state :
  AccountState.owner s1 = py_or (get sd "owner") (get data "owner") ∧
  AccountState.manager s1 =
    (let mr := py_or (get sd "manager")
                 (py_or (get data "manager")
                    (py_or (get data "assigned_distributor") (get data "owner"))) in
     if py_truthy mr then mr else AccountState.owner s1) ∧
  AccountState.sold_at s1 = py_or (get sd "sold_at") (get data "sold_at") ∧
  AccountState.sale_type s1 =
    derive_sale_type x
      (let r := py_or (get sd "sale_type") x in if is_sale_type r then r else VNone).
Proof.
  pose proof Hread as H. apply read_state_spec in H as (_ & _ & _ & E).
  rewrite E. unfold raw_state, defaults. simpl.
  rewrite !get_setdefault_ne by done. done.
Qed.

Lemma final_state :
  AccountState.owner sF = default (AccountState.owner s1) (VStr <$> owner) ∧
  AccountState.manager sF =
    (let m := default (AccountState.manager s1) (VStr <$> manager) in
     if py_truthy m then m else AccountState.owner sF) ∧
  AccountState.status sF =
    (let v := default (AccountState.status s1) (VStr <$> status) in
     if is_status v then v else VStr ACCOUNT_STATUS_AGENT_STOCK) ∧
  AccountState.sale_type sF =
    (let v := default (AccountState.sale_type s1) (VStr <$> sale_type) in
     if is_sale_type v then v else VNone) ∧
  AccountState.sold_at sF = default (AccountState.sold_at s1) (VStr <$> sold_at).
Proof.
  pose proof Hdefaults as H. apply ensure_defaults_Ok in H as (_ & _ & E).
  destruct (apply_arguments_fields owner manager status sale_type sold_at s1)
    as (Eo & Em & Est & Esa & Eso).
  rewrite E. unfold defaults. simpl. by rewrite Eo, Em, Est, Esa, Eso.
Qed.

Lemma dF_accounting : dF !! "accounting" = Some (VDict aF).
Proof.
  unfold dF, updated. by rewrite mirror_if_lookup_accounting, lookup_insert_eq.
Qed.

Lemma dF_unmirrored (k : string) :
  unmirrored k → k ≠ "accounting"%string → dF !! k = data !! k.
Proof.
  intros Hk Hacc. unfold dF, updated, mirror_if.
  destruct b; rewrite ?mirror_lookup_ne by done;
    rewrite lookup_insert_ne by done; rewrite ?mirror_lookup_ne by done;
    by rewrite lookup_insert_ne.
Qed.

Lemma dF_business (k : string) :
  b = true → k ≠ "accounting"%string → dF !! k = data !! k.
Proof.
  intros Hb Hacc. unfold dF, updated, mirror_if. rewrite Hb.
  by rewrite !lookup_insert_ne.
Qed.

Lemma dF_mirrored (k : string) :
  b = false → mirror_fixed k → dF !! k = mirror sF ∅ !! k.
Proof.
  intros Hb Hk. unfold dF, updated, mirror_if. rewrite Hb.
  by apply mirror_lookup_fixed.
Qed.

Lemma dF_sold_at :
  b = false →
  dF !! "sold_at" =
  if py_truthy (AccountState.sold_at sF) then Some (AccountState.sold_at sF)
  else if py_truthy (AccountState.sold_at s1) then Some (AccountState.sold_at s1)
  else data !! "sold_at".
Proof.
  intros Hb. unfold dF, updated, mirror_if. rewrite Hb.
  rewrite mirror_lookup_sold_at, lookup_insert_ne by done.
  rewrite mirror_lookup_sold_at, lookup_insert_ne by done. done.
Qed.

Lemma dF_owner_manager :
  b = false →
  get dF "owner" = AccountState.owner sF ∧ get dF "manager" = AccountState.manager sF.
Proof.
  intros Hb. unfold get.
  rewrite !dF_mirrored by (try done; unfold mirror_fixed; tauto).
  destruct (mirror_owner_manager sF ∅) as (-> & ->). done.
Qed.

Lemma dF_sale_type :
  b = false → get dF "sale_type" = default VNone (VStr <$> legacy_token sF).
Proof.
  intros Hb. unfold get.
  rewrite dF_mirrored by (try done; unfold mirror_fixed; tauto).
  by rewrite mirror_sale_type_token.
Qed.

Lemma dF_assigned_falsy :
  b = false → py_truthy (AccountState.manager sF) = false →
  py_truthy (get dF "assigned_distributor") = false.
Proof.
  intros Hb Hm. unfold get.
  rewrite dF_mirrored by (try done; unfold mirror_fixed; tauto).
  by apply mirror_assigned_falsy.
Qed.

Lemma dF_hashable_sale_type :
  py_truthy (AccountState.sale_type sF) = false →
  hashable (get dF "sale_type") = true.
Proof.
  intros Hsa. destruct (business_cases b) as [Hb|Hb].
  - unfold get. rewrite dF_business by done. by apply Hhashable.
  - rewrite dF_sale_type by done. unfold legacy_token. by repeat case_match.
Qed.

(** The state the second call reads. *)
Let raw' : AccountState.t := raw_state dF aF.
Let s1' : AccountState.t :=
  AccountState.with_sale_type
    (derive_sale_type (get dF "sale_type") (AccountState.sale_type (defaults raw')))
    (defaults raw').

Lemma second_raw :
  AccountState.owner raw' = py_or (AccountState.owner sF) (get dF "owner") ∧
  AccountState.manager raw' =
    py_or (AccountState.manager sF)
      (py_or (get dF "manager")
         (py_or (get dF "assigned_distributor") (get dF "owner"))) ∧
  AccountState.status raw' = AccountState.status sF ∧
  AccountState.sale_type raw' = py_or (AccountState.sale_type sF) (get dF "sale_type") ∧
  AccountState.sold_at raw' = py_or (AccountState.sold_at sF) (get dF "sold_at").
Proof.
  unfold raw', raw_state, aF, get. simpl.
  destruct (store_state_lookup sF sd) as (-> & -> & -> & -> & ->). simpl.
  repeat split.
  apply py_or_truthy, is_status_truthy, first_normal.
Qed.

Lemma second_read : read_state (setdefault dF "accounting" (VDict ∅)) aF = Ok s1'.
Proof.
  assert (setdefault dF "accounting" (VDict ∅) = dF) as ->.
  { unfold setdefault. by rewrite dF_accounting. }
  destruct second_raw as (_ & _ & Hst & Hsa & _).
  destruct first_normal as [_ [_ HsF HtF]].
  apply read_state_spec. fold raw'. cbv zeta.
  split; [rewrite Hst; by apply is_status_hashable|].
  destruct (business_cases (py_truthy (AccountState.sale_type sF))) as [E|E].
  - rewrite py_or_truthy in Hsa by done.
    split; [rewrite Hsa; by apply is_sale_type_hashable|].
    split; [|done].
    change (AccountState.sale_type (defaults raw'))
      with (if is_sale_type (AccountState.sale_type raw')
            then AccountState.sale_type raw' else VNone).
    rewrite Hsa, HtF, E. discriminate.
  - rewrite py_or_falsy in Hsa by done.
    split; [rewrite Hsa; by apply dF_hashable_sale_type|].
    split; [intros _; by apply dF_hashable_sale_type | done].
Qed.

Lemma second_status : AccountState.status s1' = AccountState.status sF.
Proof.
  destruct second_raw as (_ & _ & Hst & _).
  change (AccountState.status s1')
    with (if is_status (AccountState.status raw') then AccountState.status raw'
          else VStr ACCOUNT_STATUS_AGENT_STOCK).
  rewrite Hst. by rewrite (normal_status _ (proj2 first_normal)).
Qed.

Lemma second_owner :
  owner = None → AccountState.owner s1' = AccountState.owner sF.
Proof.
  intros Ho. destruct second_raw as (Hown & _).
  destruct final_state as (HoF & _). destruct first_state as (Ho1 & _).
  rewrite Ho in HoF. simpl in HoF.
  change (AccountState.owner s1') with (AccountState.owner raw'). rewrite Hown.
  destruct (py_truthy (AccountState.owner sF)) eqn:E;
    [by apply py_or_truthy | rewrite py_or_falsy by done].
  destruct (business_cases b) as [Hb|Hb].
  - unfold get. rewrite dF_business by done. fold (get data "owner").
    rewrite HoF, Ho1 in E. apply py_or_falsy_inv in E as (_ & _ & E).
    by rewrite HoF, Ho1, E.
  - by apply dF_owner_manager.
Qed.

Lemma second_sold_at :
  sold_at = None → AccountState.sold_at s1' = AccountState.sold_at sF.
Proof.
  intros Ho. destruct second_raw as (_ & _ & _ & _ & Hsold).
  destruct final_state as (_ & _ & _ & _ & HoF).
  destruct first_state as (_ & _ & Ho1 & _).
  rewrite Ho in HoF. simpl in HoF.
  change (AccountState.sold_at s1') with (AccountState.sold_at raw'). rewrite Hsold.
  destruct (py_truthy (AccountState.sold_at sF)) eqn:E;
    [by apply py_or_truthy | rewrite py_or_falsy by done].
  assert (Hd : get dF "sold_at" = get data "sold_at").
  { unfold get. destruct (business_cases b) as [Hb|Hb].
    - by rewrite dF_business.
    - rewrite dF_sold_at by done. rewrite E. rewrite <- HoF. by rewrite E. }
  rewrite Hd. rewrite HoF, Ho1 in E. apply py_or_falsy_inv in E as (_ & _ & E).
  by rewrite HoF, Ho1, E.
Qed.

Lemma falsy_sale_type (v : value) :
  is_sale_type v = true → py_truthy v = false → v = VNone.
Proof. rewrite is_sale_type_spec. by intros [-> | [-> | ->]]. Qed.

Lemma truthy_sale_type_token (v : value) :
  is_sale_type v = true → py_truthy v = true →
  existsb (py_eq v) direct_tokens || existsb (py_eq v) distribution_tokens = true.
Proof. rewrite is_sale_type_spec. by intros [-> | [-> | ->]]. Qed.

Lemma derive_none (v c : value) :
  derive_sale_type v c = VNone →
  existsb (py_eq v) direct_tokens = false ∧
  existsb (py_eq v) distribution_tokens = false.
Proof.
  unfold derive_sale_type.
  destruct (py_truthy c) eqn:E; [by intros ->|].
  destruct (existsb (py_eq v) direct_tokens); [discriminate|].
  by destruct (existsb (py_eq v) distribution_tokens).
Qed.

Lemma second_sale_type :
  sale_type = None → AccountState.sale_type s1' = AccountState.sale_type sF.
Proof.
  intros Hsa. destruct second_raw as (_ & _ & _ & Hraw & _).
  destruct final_state as (_ & _ & _ & HsF & _).
  destruct first_state as (_ & _ & _ & Hs1).
  destruct first_normal as [[_ _ Ht1] [_ _ HtF]].
  rewrite Hsa in HsF. simpl in HsF. rewrite Ht1 in HsF.
  change (AccountState.sale_type s1')
    with (derive_sale_type (get dF "sale_type")
            (if is_sale_type (AccountState.sale_type raw')
             then AccountState.sale_type raw' else VNone)).
  rewrite Hraw.
  destruct (py_truthy (AccountState.sale_type sF)) eqn:E.
  { rewrite py_or_truthy by done. rewrite HtF.
    unfold derive_sale_type. by rewrite E. }
  rewrite py_or_falsy by done.
  pose proof (falsy_sale_type _ HtF E) as HF. rewrite HF.
  assert (Htok : existsb (py_eq (get dF "sale_type")) direct_tokens = false ∧
                 existsb (py_eq (get dF "sale_type")) distribution_tokens = false).
  { destruct (business_cases b) as [Hb|Hb].
    - unfold get. rewrite dF_business by done. fold (get data "sale_type"). fold x.
      apply (derive_none x (let r := py_or (get sd "sale_type") x in
                            if is_sale_type r then r else VNone)).
      by rewrite <- Hs1, <- HsF.
    - rewrite dF_sale_type by done. unfold legacy_token. by rewrite HF. }
  destruct Htok as (Hd & Hdi).
  unfold derive_sale_type. rewrite Hd, Hdi.
  destruct (is_sale_type (get dF "sale_type")) eqn:Et; [|done].
  destruct (py_truthy (get dF "sale_type")) eqn:Etr; [|by apply falsy_sale_type].
  pose proof (truthy_sale_type_token _ Et Etr) as Hc.
  rewrite Hd, Hdi in Hc. discriminate.
Qed.

Lemma second_manager :
  manager = None →
  py_truthy (AccountState.manager sF) = true ∧
  AccountState.manager s1' = AccountState.manager sF ∨
  py_truthy (AccountState.manager sF) = false ∧
  py_truthy (AccountState.manager s1') = false.
Proof.
  intros Hm. destruct second_raw as (Hown & Hman & _).
  destruct final_state as (HoF & HmF & _).
  destruct first_state as (Ho1 & Hm1 & _).
  destruct first_normal as [_ [HnF _ _]].
  rewrite Hm in HmF. simpl in HmF.
  change (AccountState.manager s1')
    with (if py_truthy (AccountState.manager raw') then AccountState.manager raw'
          else AccountState.owner raw').
  rewrite Hman, Hown.
  destruct (py_truthy (AccountState.manager sF)) eqn:E.
  { left. split; [done|]. rewrite (py_or_truthy _ _ E). by rewrite E. }
  right. split; [done|].
  specialize (HnF eq_refl).
  assert (EoF : py_truthy (AccountState.owner sF) = false) by (by rewrite <- HnF).
  rewrite !(py_or_falsy (AccountState.manager sF)) by done.
  rewrite !(py_or_falsy (AccountState.owner sF)) by done.
  assert (Hgets : py_truthy (get dF "manager") = false ∧
                  py_truthy (get dF "assigned_distributor") = false ∧
                  py_truthy (get dF "owner") = false).
  { destruct (business_cases b) as [Hb|Hb].
    - unfold get. rewrite !dF_business by done.
      fold (get data "manager"). fold (get data "assigned_distributor").
      fold (get data "owner").
      destruct (py_truthy (AccountState.manager s1)) eqn:E1;
        [rewrite HmF in E; congruence|].
      rewrite Hm1 in E1. cbv zeta in E1.
      destruct (py_truthy (py_or (get sd "manager") _)) eqn:E2; [congruence|].
      apply py_or_falsy_inv in E2 as (_ & E2 & _).
      apply py_or_falsy_inv in E2 as (? & E2 & _).
      apply py_or_falsy_inv in E2 as (? & ? & _). done.
    - destruct (dF_owner_manager Hb) as (-> & ->).
      split; [done|]. split; [by apply dF_assigned_falsy | done]. }
  destruct Hgets as (G1 & G2 & G3).
  rewrite (py_or_falsy _ _ G1), (py_or_falsy _ _ G2), G3. done.
Qed.

Lemma state_eq (s s' : AccountState.t) :
  AccountState.owner s = AccountState.owner s' →
  AccountState.manager s = AccountState.manager s' →
  AccountState.status s = AccountState.status s' →
  AccountState.sale_type s = AccountState.sale_type s' →
  AccountState.sold_at s = AccountState.sold_at s' → s = s'.
Proof. destruct s, s'. simpl. by intros -> -> -> -> ->. Qed.

Lemma second_defaults :
  AccountState.ensure_defaults
    (apply_arguments owner manager status sale_type sold_at s1') = Ok sF.
Proof.
  pose proof (read_state_Ok _ _ _ second_read) as [_ Hst' Hsa'].
  destruct first_normal as [[_ Hst1 Hsa1] [HmF HstF HsaF]].
  destruct (apply_arguments_fields owner manager status sale_type sold_at s1')
    as (Eo & Em & Est & Esa & Eso).
  destruct final_state as (HoF & HmF' & HstF' & HsaF' & HsoF).
  cbv zeta in HmF', HstF', HsaF'.
  apply ensure_defaults_Ok.
  split.
  { rewrite Est. destruct (option_cases status) as [Hs | (v & Hs)]; rewrite Hs;
      [by apply is_status_hashable | done]. }
  split.
  { rewrite Esa. destruct (option_cases sale_type) as [Hs | (v & Hs)]; rewrite Hs;
      [by apply is_sale_type_hashable | done]. }
  assert (Hown : default (AccountState.owner s1') (VStr <$> owner) = AccountState.owner sF).
  { destruct (option_cases owner) as [Ho | (o & Ho)].
    - rewrite Ho, default_none. by apply second_owner.
    - rewrite HoF, Ho. done. }
  apply state_eq; unfold defaults;
    cbn [AccountState.owner AccountState.manager AccountState.status
         AccountState.sale_type AccountState.sold_at];
    rewrite ?Eo, ?Em, ?Est, ?Esa, ?Eso.
  - by rewrite Hown.
  - rewrite Hown. destruct (option_cases manager) as [Hm | (m & Hm)].
    + rewrite Hm, default_none.
      destruct (second_manager Hm) as [(E & ->) | (E & E')].
      * by rewrite E.
      * rewrite E'. by apply HmF.
    + rewrite HmF', Hm. done.
  - destruct (option_cases status) as [Hs | (v & Hs)].
    + rewrite Hs, default_none, second_status. by rewrite HstF.
    + rewrite HstF', Hs. done.
  - destruct (option_cases sale_type) as [Hs | (v & Hs)].
    + rewrite Hs, default_none, second_sale_type by done. by rewrite HsaF.
    + rewrite HsaF', Hs. done.
  - destruct (option_cases sold_at) as [Hs | (v & Hs)].
    + rewrite Hs, default_none. symmetry. by apply second_sold_at.
    + rewrite HsoF, Hs. done.
Qed.

Lemma second_record : updated b s1' sF aF dF = dF.
Proof.
  apply map_eq. intros k.
  destruct (key_cases k) as [-> | [-> | [Hk | (Hk & Hacc)]]].
  - unfold updated. rewrite mirror_if_lookup_accounting, lookup_insert_eq.
    rewrite dF_accounting. unfold aF. by rewrite store_state_store.
  - destruct (business_cases b) as [Hb|Hb]; unfold updated, mirror_if; rewrite Hb.
    { by rewrite !lookup_insert_ne. }
    rewrite mirror_lookup_sold_at, lookup_insert_ne by done.
    rewrite mirror_lookup_sold_at, lookup_insert_ne by done.
    destruct (py_truthy (AccountState.sold_at sF)) eqn:E.
    { rewrite dF_sold_at by done. by rewrite E. }
    destruct second_raw as (_ & _ & _ & _ & Hsold).
    change (AccountState.sold_at s1') with (AccountState.sold_at raw').
    rewrite Hsold, py_or_falsy by done.
    destruct (py_truthy (get dF "sold_at")) eqn:E'; [|done].
    symmetry. by apply get_truthy.
  - destruct (business_cases b) as [Hb|Hb]; unfold updated, mirror_if; rewrite Hb.
    { assert (k ≠ "accounting"%string)
        by (intros ->; unfold mirror_fixed in Hk; repeat destruct Hk as [Hk|Hk]; discriminate).
      by rewrite !lookup_insert_ne. }
    rewrite (mirror_lookup_fixed sF _ ∅) by done. by rewrite dF_mirrored.
  - destruct (business_cases b) as [Hb|Hb]; unfold updated, mirror_if; rewrite Hb.
    { by rewrite !lookup_insert_ne. }
    rewrite mirror_lookup_ne, lookup_insert_ne by done.
    by rewrite mirror_lookup_ne, lookup_insert_ne.
Qed.

Lemma second_inventory :
  _is_inventory_record data = Ok true → _is_inventory_record dF = Ok true.
Proof.
  destruct (business_cases b) as [Hb|Hb].
  - unfold _is_inventory_record, has_key, get. simpl.
    by rewrite !dF_business.
  - intros _. unfold _is_inventory_record.
    destruct (py_truthy (get dF "owner")); [done|].
    assert (Hf : has_key dF "forsale" = true).
    { unfold has_key. apply bool_decide_eq_true.
      rewrite dF_mirrored by (try done; unfold mirror_fixed; tauto).
      unfold mirror.
      rewrite mirror_sold_at_lookup_ne, mirror_sale_type_lookup_ne by done.
      unfold mirror_status. rewrite pop_delete.
      repeat case_match; map_simpl; eauto. }
    simpl. by rewrite Hf.
Qed.

Lemma second_role : has_business_role data = Ok b → has_business_role dF = Ok b.
Proof.
  intros <-. apply has_business_role_ext.
  apply dF_unmirrored; [apply unmirrored_roles | done].
Qed.

Lemma second_call :
  _is_inventory_record data = Ok true → has_business_role data = Ok b →
  update_account_state dF owner manager status sale_type sold_at = Ok (dF, sF).
Proof.
  intros Hinv Hb.
  rewrite (update_inventory_intro dF aF owner manager status sale_type sold_at s1' sF b).
  - by rewrite second_record.
  - by apply second_inventory.
  - unfold get_default. by rewrite dF_accounting.
  - apply second_read.
  - by apply second_role.
  - apply second_defaults.
Qed.

End SecondCall.

(** ** Reverting a sale *)

(** The canonical status, sale type and sale time of an account, and its
    legacy [sale_type] and [sold_at] fields. *)
Definition sale_record (users : gmap string dict) (username : string)
  : option (value * value * value * option value * option value) :=
  record ← users !! username;
  Some (get (accounting record) "status",
        get (accounting record) "sale_type",
        get (accounting record) "sold_at",
        record !! "sale_type",
        record !! "sold_at").

(** An account is transferred to a distributor, who marks it sold and then
    marks it unsold. *)
Definition sold_then_unsold : result (gmap string dict * gmap string dict) :=
  r ← update_account_state stock_record (Some "distB") (Some "distB")
        (Some ACCOUNT_STATUS_DISTRIBUTOR_STOCK) None None;
  sold ← distributor_mark_sold "distB" "2024-02-02 10:00:00"
           {| stamp_uuid := "id-1"; stamp_now := "2024-02-02 10:00:00" |}
           {[ "acct1"%string := fst r ]} [] "acct1";
  unsold ← distributor_mark_unsold "distB" (fst (fst sold)) "acct1";
  Ok (fst (fst sold), fst unsold).

Definition sale_records (r : result (gmap string dict * gmap string dict)) :=
  match r with
  | Ok (sold, unsold) => Ok (sale_record sold "acct1", sale_record unsold "acct1")
  | Raise e => Raise e
  end.

(** The account before and after the distributor marks it unsold: the sale
    type and the sale time survive, in the canonical state and in the legacy
    fields. *)
Lemma sold_then_unsold_records :
  sale_records sold_then_unsold =
  Ok (Some (VStr "sold", VStr "distribution_sale", VStr "2024-02-02 10:00:00",
            Some (VStr LEGACY_DISTRIBUTION), Some (VStr "2024-02-02 10:00:00")),
      Some (VStr "distributor_stock", VStr "distribution_sale",
            VStr "2024-02-02 10:00:00",
            Some (VStr LEGACY_DISTRIBUTION), Some (VStr "2024-02-02 10:00:00"))).
Proof. vm_compute. reflexivity. Qed.

Lemma accounting_of_Ok (record state : dict) :
  accounting_of record = Ok state → state = accounting record.
Proof.
  unfold accounting_of, accounting.
  destruct (get_default record "accounting" (VDict ∅)); try discriminate.
  by intros [= ->].
Qed.

(** What the call of [distributor_mark_unsold] leaves in the [accounting]
    dict of an inventory record sold through distribution. *)
Lemma unsold_state (record record' : dict) (distributor : string) (s : AccountState.t) :
  update_account_state record (Some distributor) (Some distributor)
    (Some ACCOUNT_STATUS_DISTRIBUTOR_STOCK) None None = Ok (record', s) →
  _is_inventory_record record = Ok true →
  get (accounting record) "sale_type" = VStr SALE_TYPE_DISTRIBUTION →
  get (accounting record') "status" = VStr ACCOUNT_STATUS_DISTRIBUTOR_STOCK ∧
  get (accounting record') "sale_type" = VStr SALE_TYPE_DISTRIBUTION ∧
  get (accounting record') "sold_at" =
    py_or (get (accounting record) "sold_at") (get record "sold_at").
Proof.
  intros H Hinv Hsale.
  apply update_inventory_closed in H as (b & s0 & _ & Hr & _ & Hs & ->); [|done].
  assert (Hacc : accounting (updated b s0 s (accounting record) record)
                 = store_state s (accounting record)).
  { unfold accounting at 1. unfold get_default. by rewrite dF_accounting. }
  rewrite Hacc. unfold get at 1 2 3.
  destruct (store_state_lookup s (accounting record)) as (_ & _ & -> & -> & ->).
  simpl.
  destruct (first_normal _ _ _ _ _ _ _ _ _ Hr Hs) as [[_ _ Ht0] _].
  destruct (final_state _ _ _ _ _ _ _ Hs) as (_ & _ & Hst & Hsa & Hso).
  destruct (first_state _ _ _ Hr) as (_ & _ & Hso0 & Hsa0).
  simpl in Hst, Hsa, Hso. rewrite Ht0 in Hsa.
  split; [done|]. split.
  - rewrite Hsa, Hsa0, Hsale. reflexivity.
  - by rewrite Hso, Hso0.
Qed.

(** C1, on the code: whenever the distributor's mark-unsold succeeds on an
    inventory record, the account is back in [distributor_stock] with the
    sale type of the reverted sale still set and with the sale time it had;
    the handler passes [sale_type=None] and [sold_at=None], which
    [update_account_state] reads as arguments left out. *)
Theorem mark_unsold_keeps_sale (distributor username : string)
    (users users' : gmap string dict) :
  distributor_mark_unsold distributor users username = Ok (users', true) →
  ∃ record record',
    users !! username = Some record ∧ users' !! username = Some record' ∧
    get (accounting record) "status" = VStr ACCOUNT_STATUS_SOLD ∧
    (_is_inventory_record record = Ok true →
     get (accounting record') "status" = VStr ACCOUNT_STATUS_DISTRIBUTOR_STOCK ∧
     get (accounting record') "sale_type" = VStr SALE_TYPE_DISTRIBUTION ∧
     get (accounting record') "sold_at" =
       py_or (get (accounting record) "sold_at") (get record "sold_at")).
Proof.
  unfold distributor_mark_unsold. intros H.
  destruct (users !! username) as [record|] eqn:Hu; [|discriminate].
  apply bind_Ok_inv in H as (state & Hstate & H).
  apply accounting_of_Ok in Hstate as ->.
  destruct (py_eq (get (accounting record) "owner") (VStr distributor)); [|discriminate].
  destruct (py_eq (get (accounting record) "status") (VStr ACCOUNT_STATUS_SOLD))
    eqn:Hsold; [|discriminate].
  destruct (py_eq (get (accounting record) "sale_type") (VStr SALE_TYPE_DISTRIBUTION))
    eqn:Hsale; [|discriminate].
  simpl in H. apply bind_Ok_inv in H as ([record' s] & Hupd & H).
  inversion H; subst users'. simpl.
  exists record, record'. rewrite lookup_insert_eq.
  apply py_eq_str in Hsold, Hsale.
  split; [done|]. split; [done|]. split; [done|].
  intros Hinv. by eapply unsold_state.
Qed.

(** An account a distributor sold on 2 February. *)
Definition sold_record : dict :=
  list_to_map
    [("owner", VStr "distB"); ("source", VStr "agent"); ("price", VFloat 9.99);
     ("accounting",
      VDict (list_to_map
               [("owner", VStr "distB"); ("manager", VStr "distB");
                ("status", VStr ACCOUNT_STATUS_SOLD);
                ("sale_type", VStr SALE_TYPE_DISTRIBUTION);
                ("sold_at", VStr "2024-02-02 10:00:00")]%string))]%string.

Lemma mark_unsold_keeps_sale_witness :
  ∃ users' record',
    distributor_mark_unsold "distB" {[ "acct1"%string := sold_record ]} "acct1"
    = Ok (users', true) ∧
    users' !! "acct1"%string = Some record' ∧
    get (accounting record') "status" = VStr ACCOUNT_STATUS_DISTRIBUTOR_STOCK ∧
    get (accounting record') "sale_type" = VStr SALE_TYPE_DISTRIBUTION ∧
    get (accounting record') "sold_at" = VStr "2024-02-02 10:00:00".
Proof.
  assert (Hok : (r ← distributor_mark_unsold "distB"
                       {[ "acct1"%string := sold_record ]} "acct1"; Ok (snd r))
                = Ok true) by (vm_compute; reflexivity).
  destruct (distributor_mark_unsold "distB" {[ "acct1"%string := sold_record ]} "acct1")
    as [[users' flag]|] eqn:E; [|discriminate Hok].
  simpl in Hok. inversion Hok; subst flag. clear Hok.
  destruct (mark_unsold_keeps_sale _ _ _ _ E)
    as (record & record' & Hrecord & Hrecord' & _ & Hkept).
  rewrite lookup_singleton_eq in Hrecord. inversion Hrecord; subst record.
  exists users', record'. split; [reflexivity|]. split; [exact Hrecord'|].
  destruct Hkept as (Hst & Hsa & Hso); [vm_compute; reflexivity|].
  split; [exact Hst|]. split; [exact Hsa|]. rewrite Hso. vm_compute. reflexivity.
Defined.

(** ** Records that are not inventory *)

Lemma sorted_roles_set (roles : gset string) :
  list_to_set (sorted_roles roles) = roles.
Proof.
  unfold sorted_roles.
  rewrite (list_to_set_perm_L _ _ (merge_sort_Permutation str_le (elements roles))).
  apply list_to_set_elements_L.
Qed.

Lemma role_set_strings (l : list string) :
  role_set (py_or (VList (VStr <$> l)) (VList [])) = Ok (list_to_set l).
Proof.
  assert (Hor : py_or (VList (VStr <$> l)) (VList []) = VList (VStr <$> l))
    by (by destruct l).
  rewrite Hor. clear Hor. unfold role_set.
  assert (Hh : forallb hashable (VStr <$> l) = true) by (induction l; simpl; auto).
  rewrite Hh. simpl.
  assert (Hm : mapM as_str (VStr <$> l) = Some l).
  { apply mapM_Some. clear Hh. induction l; simpl; constructor; auto. }
  by rewrite Hm.
Qed.

Lemma add_role_member (role : string) (roles : gset string) :
  add_role (VBool (bool_decide (role ∈ roles))) role roles = roles.
Proof.
  unfold add_role. simpl.
  destruct (bool_decide (role ∈ roles)) eqn:E; [|done].
  apply bool_decide_eq_true in E.
  by apply subseteq_union_1_L, singleton_subseteq_l.
Qed.

(** A key [_is_inventory_record] looks at. *)
Definition inventory_key (k : string) : Prop :=
  k = "owner"%string ∨ k = "forsale"%string ∨ k = "distribution_tag"%string ∨
  k = "distributor_forsale"%string ∨ k = "assigned_distributor"%string ∨
  k = "source"%string.

Lemma is_inventory_ext (d d' : dict) :
  (∀ k, inventory_key k → d !! k = d' !! k) →
  _is_inventory_record d = _is_inventory_record d'.
Proof.
  intros H. unfold _is_inventory_record, has_key, get. simpl.
  rewrite (H "owner"), (H "forsale"), (H "distribution_tag"),
    (H "distributor_forsale"), (H "assigned_distributor"), (H "source")
    by (unfold inventory_key; tauto).
  done.
Qed.

Lemma normalise_roles_Ok (data d1 : dict) :
  _normalise_roles data = Ok d1 →
  ∃ roles : gset string,
    roles ≠ ∅ ∧
    d1 = <["is_distributor" := VBool (bool_decide (ROLE_DISTRIBUTOR ∈ roles))]>
           (<["is_agent" := VBool (bool_decide (ROLE_AGENT ∈ roles))]>
              (<["is_admin" := VBool (bool_decide (ROLE_ADMIN ∈ roles))]>
                 (<["roles" := VList (VStr <$> sorted_roles roles)]> data))).
Proof.
  unfold _normalise_roles. intros H. apply bind_Ok_inv in H as (r0 & _ & H).
  remember (add_role (get data "is_distributor") ROLE_DISTRIBUTOR
              (add_role (get data "is_agent") ROLE_AGENT
                 (add_role (get data "is_admin") ROLE_ADMIN r0))) as R.
  exists (if bool_decide (R = ∅) then {[ROLE_CUSTOMER]} else R). split.
  - destruct (decide (R = ∅)) as [E|E];
      [rewrite bool_decide_true by done | rewrite bool_decide_false by done];
      [apply non_empty_singleton_L | done].
  - by inversion H.
Qed.

Lemma normalise_roles_idempotent (data d1 : dict) :
  _normalise_roles data = Ok d1 → _normalise_roles d1 = Ok d1.
Proof.
  intros H. apply normalise_roles_Ok in H as (roles & Hne & ->).
  set (d1 := <["is_distributor" := _]> _).
  assert (Hroles : d1 !! "roles" = Some (VList (VStr <$> sorted_roles roles)))
    by (unfold d1; by map_simpl).
  assert (Hadmin : d1 !! "is_admin" = Some (VBool (bool_decide (ROLE_ADMIN ∈ roles))))
    by (unfold d1; by map_simpl).
  assert (Hagent : d1 !! "is_agent" = Some (VBool (bool_decide (ROLE_AGENT ∈ roles))))
    by (unfold d1; by map_simpl).
  assert (Hdist : d1 !! "is_distributor"
                  = Some (VBool (bool_decide (ROLE_DISTRIBUTOR ∈ roles))))
    by (unfold d1; by map_simpl).
  unfold _normalise_roles, get. rewrite Hroles, Hadmin, Hagent, Hdist. simpl.
  rewrite role_set_strings, sorted_roles_set. simpl.
  rewrite !add_role_member. rewrite (bool_decide_false (roles = ∅)) by done.
  rewrite (insert_id d1 "roles") by done.
  rewrite (insert_id d1 "is_admin") by done.
  rewrite (insert_id d1 "is_agent") by done.
  by rewrite (insert_id d1 "is_distributor").
Qed.

Lemma normalise_roles_inventory (data d1 : dict) :
  _normalise_roles data = Ok d1 →
  _is_inventory_record d1 = _is_inventory_record data.
Proof.
  intros H. apply normalise_roles_Ok in H as (roles & _ & ->).
  apply is_inventory_ext. intros k Hk.
  assert (Hne : k ≠ "roles"%string ∧ k ≠ "is_admin"%string ∧
                k ≠ "is_agent"%string ∧ k ≠ "is_distributor"%string).
  { unfold inventory_key in Hk.
    repeat split; intros ->; repeat destruct Hk as [Hk|Hk]; discriminate. }
  destruct Hne as (? & ? & ? & ?). by rewrite !lookup_insert_ne.
Qed.

(** The fields of the returned state [s] that no argument named are those
    of the state [s0] the record had; a manager that was not set defaults to
    the owner. *)
Definition retained (owner manager status sale_type sold_at : option string)
    (s0 s : AccountState.t) : Prop :=
  (owner = None → AccountState.owner s = AccountState.owner s0) ∧
  (manager = None →
   AccountState.manager s =
   if py_truthy (AccountState.manager s0) then AccountState.manager s0
   else AccountState.owner s) ∧
  (status = None → AccountState.status s = AccountState.status s0) ∧
  (sale_type = None → AccountState.sale_type s = AccountState.sale_type s0) ∧
  (sold_at = None → AccountState.sold_at s = AccountState.sold_at s0).

Lemma update_retained (data : dict)
    (owner manager status sale_type sold_at : option string)
    (s0 s : AccountState.t) :
  read_state (setdefault data "accounting" (VDict ∅)) (accounting data) = Ok s0 →
  AccountState.ensure_defaults
    (apply_arguments owner manager status sale_type sold_at s0) = Ok s →
  retained owner manager status sale_type sold_at s0 s.
Proof.
  intros Hr Hs.
  destruct (first_normal _ _ _ _ _ _ _ _ _ Hr Hs) as [[_ Hst Hsa] _].
  destruct (final_state _ _ _ _ _ _ _ Hs) as (Ho & Hm & Hst' & Hsa' & Hso).
  unfold retained.
  split; [intros E; by rewrite Ho, E|].
  split; [intros E; by rewrite Hm, E|].
  split; [intros E; rewrite Hst', E; simpl; by rewrite Hst|].
  split; [intros E; rewrite Hsa', E; simpl; by rewrite Hsa|].
  intros E; by rewrite Hso, E.
Qed.

Lemma second_call_hashable (data d1 d2 : dict)
    (owner manager status sale_type sold_at : option string)
    (b : bool) (s0 s1 s2 : AccountState.t) :
  read_state (setdefault data "accounting" (VDict ∅)) (accounting data) = Ok s0 →
  AccountState.ensure_defaults
    (apply_arguments owner manager status sale_type sold_at s0) = Ok s1 →
  d1 = updated b s0 s1 (accounting data) data →
  _is_inventory_record data = Ok true →
  update_account_state d1 owner manager status sale_type sold_at = Ok (d2, s2) →
  b = true → py_truthy (AccountState.sale_type s1) = false →
  hashable (get data "sale_type") = true.
Proof.
  intros Hr Hs -> Hinv H2 Hb Hfalsy.
  apply update_inventory_closed in H2 as (_ & s' & Hacc & Hr' & _);
    [|by eapply second_inventory].
  assert (Hacc' : accounting (updated b s0 s1 (accounting data) data)
                  = store_state s1 (accounting data)).
  { unfold accounting at 1. unfold get_default.
    by rewrite (dF_accounting data (accounting data) b s0 s1). }
  rewrite Hacc' in Hr'.
  assert (Hset : setdefault (updated b s0 s1 (accounting data) data)
                   "accounting" (VDict ∅)
                 = updated b s0 s1 (accounting data) data).
  { unfold setdefault.
    by rewrite (dF_accounting data (accounting data) b s0 s1). }
  rewrite Hset in Hr'.
  apply read_state_spec in Hr' as (_ & Hh & _).
  destruct (second_raw data (accounting data) _ _ _ _ _ b s0 s1 Hr Hs)
    as (_ & _ & _ & Hsa & _).
  rewrite Hsa, py_or_falsy in Hh by done.
  unfold get in Hh. rewrite dF_business in Hh by done. exact Hh.
Qed.

(** C6: a second call of [update_account_state] with the same arguments, on
    the record the first call left, returns the same state and leaves the
    record as it is, whenever it returns; it returns whenever the legacy
    [sale_type] field of a record with a business role is hashable, and on
    every record without business role.  For an inventory record the fields
    of the state that no argument named are those of the state the record
    had, a manager that was not set defaulting to the owner. *)
Theorem update_account_state_idempotent (data d1 : dict)
    (owner manager status sale_type sold_at : option string) (s1 : AccountState.t) :
  update_account_state data owner manager status sale_type sold_at = Ok (d1, s1) →
  (∀ d2 s2,
     update_account_state d1 owner manager status sale_type sold_at = Ok (d2, s2) →
     d2 = d1 ∧ s2 = s1) ∧
  ((has_business_role data = Ok true → hashable (get data "sale_type") = true) →
   update_account_state d1 owner manager status sale_type sold_at = Ok (d1, s1)) ∧
  (∀ d0 s0, _is_inventory_record data = Ok true →
            ensure_accounting data = Ok (d0, s0) →
            retained owner manager status sale_type sold_at s0 s1).
Proof.
  intros H.
  assert (Hinv : ∃ inv : bool, _is_inventory_record data = Ok inv).
  { unfold update_account_state in H. apply bind_Ok_inv in H as (inv & Hinv & _).
    eauto. }
  destruct Hinv as ([] & Hinv).
  - pose proof H as H'.
    apply update_inventory_closed in H' as (b & s0 & Hsd & Hr & Hb & Hs & Hd1);
      [|done].
    split; [|split].
    + intros d2 s2 H2.
      assert (Hsame : update_account_state d1 owner manager status sale_type sold_at
                      = Ok (d1, s1)).
      { rewrite Hd1. eapply second_call; try done. intros Hb' Hfalsy. subst d1.
        by eapply second_call_hashable. }
      rewrite Hsame in H2. by inversion H2.
    + intros Hhash. rewrite Hd1. eapply second_call; try done.
      intros -> _. by apply Hhash.
    + intros d0 s0' _ H0. apply ensure_accounting_Ok_inv in H0 as (_ & Hr' & _).
      rewrite Hr in Hr'. inversion Hr'; subst s0'.
      by eapply update_retained.
  - assert (Hsame : update_account_state d1 owner manager status sale_type sold_at
                    = Ok (d1, s1)).
    { unfold update_account_state in H. rewrite Hinv in H. simpl in H.
      apply bind_Ok_inv in H as (d' & Hd' & H). inversion H; subst.
      unfold update_account_state.
      rewrite (normalise_roles_inventory _ _ Hd'), Hinv. simpl.
      by rewrite (normalise_roles_idempotent _ _ Hd'). }
    split; [|split; [done|]].
    + intros d2 s2 H2. rewrite Hsame in H2. by inversion H2.
    + intros d0 s0 Hinv'. rewrite Hinv in Hinv'. discriminate.
Qed.

Lemma update_account_state_idempotent_witness :
  ∃ d1 s1,
    update_account_state stock_record None (Some "agentA")
      (Some ACCOUNT_STATUS_SOLD) (Some SALE_TYPE_DIRECT)
      (Some "2024-02-02 10:00:00") = Ok (d1, s1) ∧
    update_account_state d1 None (Some "agentA")
      (Some ACCOUNT_STATUS_SOLD) (Some SALE_TYPE_DIRECT)
      (Some "2024-02-02 10:00:00") = Ok (d1, s1) ∧
    AccountState.owner s1 = VStr "agentA".
Proof.
  assert (Hok : is_Ok (update_account_state stock_record None (Some "agentA")
                         (Some ACCOUNT_STATUS_SOLD) (Some SALE_TYPE_DIRECT)
                         (Some "2024-02-02 10:00:00")) = true)
    by (vm_compute; reflexivity).
  destruct (update_account_state stock_record None (Some "agentA")
              (Some ACCOUNT_STATUS_SOLD) (Some SALE_TYPE_DIRECT)
              (Some "2024-02-02 10:00:00")) as [[d1 s1]|] eqn:E; [|discriminate Hok].
  exists d1, s1. split; [reflexivity|].
  destruct (update_account_state_idempotent _ _ _ _ _ _ _ _ E)
    as (_ & Hsame & Hkept).
  split; [apply Hsame; intros _; vm_compute; reflexivity|].
  assert (Hok0 : (r ← ensure_accounting stock_record; Ok (AccountState.owner (snd r)))
                 = Ok (VStr "agentA")) by (vm_compute; reflexivity).
  destruct (ensure_accounting stock_record) as [[d0 s0]|] eqn:E0; [|discriminate Hok0].
  destruct (Hkept d0 s0) as (Ho & _); [vm_compute; reflexivity | reflexivity |].
  rewrite (Ho eq_refl). simpl in Hok0. by inversion Hok0.
Defined.

(** * Further properties of the code *)

(** ** Roles *)

#[export] Instance str_le_total : Total str_le.
Proof. intros s t. apply String.leb_total. Qed.

Lemma elem_of_sorted_roles (roles : gset string) (r : string) :
  r ∈ sorted_roles roles ↔ r ∈ roles.
Proof.
  unfold sorted_roles.
  rewrite (merge_sort_Permutation str_le (elements roles)).
  apply elem_of_elements.
Qed.

Lemma sorted_roles_canonical (roles : gset string) :
  Sorted str_le (sorted_roles roles) ∧ NoDup (sorted_roles roles).
Proof.
  unfold sorted_roles. split; [apply (Sorted_merge_sort str_le)|].
  rewrite (merge_sort_Permutation str_le (elements roles)).
  apply NoDup_elements.
Qed.

Lemma add_role_elem (flag : value) (role r : string) (roles : gset string) :
  r ∈ add_role flag role roles ↔ (py_truthy flag = true ∧ r = role) ∨ r ∈ roles.
Proof.
  unfold add_role. destruct (py_truthy flag).
  - rewrite elem_of_union, elem_of_singleton. tauto.
  - split; [by right | by intros [[? _]|?]].
Qed.

(** The roles a record lists, read as [set(data.get("roles") or [])]. *)
Definition listed_roles (data : dict) : result (gset string) :=
  role_set (py_or (get data "roles") (VList [])).

(** The set of roles [_normalise_roles] settles on. *)
Definition settled_roles (data : dict) (listed : gset string) : gset string :=
  let roles :=
    add_role (get data "is_distributor") ROLE_DISTRIBUTOR
      (add_role (get data "is_agent") ROLE_AGENT
         (add_role (get data "is_admin") ROLE_ADMIN listed)) in
  if bool_decide (roles = ∅) then {[ROLE_CUSTOMER]} else roles.

Lemma normalise_roles_settled (data d1 : dict) :
  _normalise_roles data = Ok d1 →
  ∃ listed,
    listed_roles data = Ok listed ∧
    d1 = <["is_distributor" :=
             VBool (bool_decide (ROLE_DISTRIBUTOR ∈ settled_roles data listed))]>
           (<["is_agent" := VBool (bool_decide (ROLE_AGENT ∈ settled_roles data listed))]>
              (<["is_admin" :=
                   VBool (bool_decide (ROLE_ADMIN ∈ settled_roles data listed))]>
                 (<["roles" := VList (VStr <$> sorted_roles (settled_roles data listed))]>
                    data))).
Proof.
  unfold _normalise_roles, listed_roles. intros H.
  apply bind_Ok_inv in H as (listed & Hl & H). exists listed. split; [done|].
  by inversion H.
Qed.

(** A record without roles and with a truthy agent flag. *)
Definition flagged_agent : dict :=
  list_to_map [("is_agent", VInt 1); ("nickname", VStr "a")]%string.

(** X1: [_normalise_roles] leaves a record whose [roles] is a non-empty list
    of strings, sorted and without duplicates, and whose three flags are the
    booleans telling whether [admin], [agent] and [distributor] are in it.
    The list holds every role the record listed and every role whose flag
    was truthy, and [customer] exactly when there was none of either; no
    other key of the record changes. *)
Theorem normalise_roles_canonical (data d1 : dict) :
  _normalise_roles data = Ok d1 →
  ∃ (listed : gset string) (roles : list string),
    listed_roles data = Ok listed ∧
    d1 !! "roles" = Some (VList (VStr <$> roles)) ∧
    roles ≠ [] ∧ Sorted str_le roles ∧ NoDup roles ∧
    d1 !! "is_admin" = Some (VBool (bool_decide (ROLE_ADMIN ∈ roles))) ∧
    d1 !! "is_agent" = Some (VBool (bool_decide (ROLE_AGENT ∈ roles))) ∧
    d1 !! "is_distributor" = Some (VBool (bool_decide (ROLE_DISTRIBUTOR ∈ roles))) ∧
    (∀ r, r ∈ listed → r ∈ roles) ∧
    (py_truthy (get data "is_admin") = true → ROLE_ADMIN ∈ roles) ∧
    (py_truthy (get data "is_agent") = true → ROLE_AGENT ∈ roles) ∧
    (py_truthy (get data "is_distributor") = true → ROLE_DISTRIBUTOR ∈ roles) ∧
    (listed = ∅ → py_truthy (get data "is_admin") = false →
     py_truthy (get data "is_agent") = false →
     py_truthy (get data "is_distributor") = false → roles = [ROLE_CUSTOMER]) ∧
    (∀ k, k ≠ "roles"%string → k ≠ "is_admin"%string → k ≠ "is_agent"%string →
          k ≠ "is_distributor"%string → d1 !! k = data !! k).
Proof.
  intros H. apply normalise_roles_settled in H as (listed & Hl & ->).
  set (R := settled_roles data listed).
  assert (Hmem : ∀ r, r ∈ sorted_roles R ↔ r ∈ R) by apply elem_of_sorted_roles.
  assert (Hin : ∀ r, bool_decide (r ∈ sorted_roles R) = bool_decide (r ∈ R))
    by (intros r; apply bool_decide_ext, Hmem).
  assert (Hsub : ∀ r,
            r ∈ add_role (get data "is_distributor") ROLE_DISTRIBUTOR
                  (add_role (get data "is_agent") ROLE_AGENT
                     (add_role (get data "is_admin") ROLE_ADMIN listed)) → r ∈ R).
  { intros r Hr. unfold R, settled_roles.
    destruct (bool_decide _) eqn:E; [|done].
    apply bool_decide_eq_true in E. rewrite E in Hr. set_solver. }
  exists listed, (sorted_roles R). split; [done|].
  split; [by map_simpl|].
  split.
  { intros Hnil. assert (HR : R ≠ ∅).
    { unfold R, settled_roles. destruct (bool_decide _) eqn:E.
      - apply non_empty_singleton_L.
      - by apply bool_decide_eq_false in E. }
    apply HR. apply set_eq. intros r. rewrite <- Hmem, Hnil.
    rewrite elem_of_nil. split; [done | by intros ?%not_elem_of_empty]. }
  split; [apply sorted_roles_canonical|]. split; [apply sorted_roles_canonical|].
  rewrite !Hin.
  split; [by map_simpl|]. split; [by map_simpl|]. split; [by map_simpl|].
  split.
  { intros r Hr. apply Hmem, Hsub. rewrite !add_role_elem. tauto. }
  split; [intros E; apply Hmem, Hsub; rewrite !add_role_elem; tauto|].
  split; [intros E; apply Hmem, Hsub; rewrite !add_role_elem; tauto|].
  split; [intros E; apply Hmem, Hsub; rewrite !add_role_elem; tauto|].
  split.
  { intros -> E1 E2 E3.
    assert (HR : R = {[ROLE_CUSTOMER]}).
    { unfold R, settled_roles, add_role. rewrite E1, E2, E3.
      by rewrite bool_decide_true. }
    unfold sorted_roles. rewrite HR, elements_singleton. reflexivity. }
  intros k ? ? ? ?. by map_simpl.
Qed.

Lemma normalise_roles_canonical_witness :
  ∃ d1 roles, _normalise_roles flagged_agent = Ok d1 ∧
              d1 !! "roles" = Some (VList (VStr <$> roles)) ∧
              ROLE_AGENT ∈ roles ∧ NoDup roles ∧
              d1 !! "nickname" = Some (VStr "a").
Proof.
  assert (Hok : is_Ok (_normalise_roles flagged_agent) = true)
    by (vm_compute; reflexivity).
  destruct (_normalise_roles flagged_agent) as [d1|] eqn:E; [|discriminate Hok].
  destruct (normalise_roles_canonical _ _ E)
    as (listed & roles & _ & Hroles & _ & _ & Hnd & _ & _ & _ & _ & _ & Hflag & _ & _ & Hkeep).
  exists d1, roles. split; [reflexivity|]. split; [exact Hroles|].
  split; [apply Hflag; vm_compute; reflexivity|]. split; [exact Hnd|].
  rewrite Hkeep by done. vm_compute. reflexivity.
Defined.

(** X2: normalising the roles of a record a second time changes nothing, and
    it never changes whether the record counts as an inventory record. *)
Theorem normalise_roles_twice (data d1 : dict) :
  _normalise_roles data = Ok d1 →
  _normalise_roles d1 = Ok d1 ∧
  _is_inventory_record d1 = _is_inventory_record data.
Proof.
  intros H. split.
  - exact (normalise_roles_idempotent _ _ H).
  - exact (normalise_roles_inventory _ _ H).
Qed.

Lemma normalise_roles_twice_witness :
  ∃ d1, _normalise_roles flagged_agent = Ok d1 ∧ _normalise_roles d1 = Ok d1.
Proof.
  assert (Hok : is_Ok (_normalise_roles flagged_agent) = true)
    by (vm_compute; reflexivity).
  destruct (_normalise_roles flagged_agent) as [d1|] eqn:E; [|discriminate Hok].
  exists d1. split; [reflexivity|].
  exact (proj1 (normalise_roles_twice _ _ E)).
Defined.

(** ** The accounting state of a record *)

Lemma mirror_idem (s : AccountState.t) (d : dict) : mirror s (mirror s d) = mirror s d.
Proof.
  apply map_eq. intros k.
  destruct (key_cases k) as [-> | [-> | [Hk | (Hk & _)]]].
  - apply mirror_lookup_ne, unmirrored_accounting.
  - rewrite !mirror_lookup_sold_at.
    by destruct (py_truthy (AccountState.sold_at s)).
  - by apply mirror_lookup_fixed.
  - by apply mirror_lookup_ne.
Qed.

(** With no change of state the second write of [update_account_state]
    repeats the first. *)
Lemma updated_same (b : bool) (s : AccountState.t) (sd data : dict) :
  updated b s s sd data
  = mirror_if b s (<["accounting" := VDict (store_state s sd)]> data).
Proof.
  unfold updated, mirror_if. destruct b.
  - by rewrite insert_insert_eq.
  - rewrite (insert_id (mirror s _)).
    + apply mirror_idem.
    + rewrite mirror_lookup_ne by apply unmirrored_accounting.
      by rewrite lookup_insert_eq.
Qed.

Lemma apply_no_arguments (s : AccountState.t) :
  apply_arguments None None None None None s = s.
Proof. reflexivity. Qed.

(** What [ensure_accounting] returns, from the state it reads. *)
Lemma ensure_accounting_closed (data d1 : dict) (s : AccountState.t) :
  ensure_accounting data = Ok (d1, s) →
  ∃ b : bool,
    has_business_role data = Ok b ∧
    read_state (setdefault data "accounting" (VDict ∅)) (accounting data) = Ok s ∧
    normal s ∧
    d1 = mirror_if b s (<["accounting" := VDict (store_state s (accounting data))]> data).
Proof.
  intros H. pose proof H as H'.
  apply ensure_accounting_Ok_inv in H' as (Hsd & Hr & Hn & _).
  pose proof H as H''. apply ensure_accounting_data in H'' as (b & Hb & _).
  exists b. split; [done|]. split; [done|]. split; [done|].
  rewrite (ensure_accounting_intro _ _ _ _ Hsd Hr Hb) in H. by inversion H.
Qed.

(** Calling [update_account_state] without arguments is calling
    [ensure_accounting]. *)
Lemma update_without_arguments (data d1 : dict) (s : AccountState.t) :
  _is_inventory_record data = Ok true →
  ensure_accounting data = Ok (d1, s) →
  update_account_state data None None None None None = Ok (d1, s).
Proof.
  intros Hinv H. pose proof H as H'.
  apply ensure_accounting_Ok_inv in H' as (Hsd & _).
  apply ensure_accounting_closed in H as (b & Hb & Hr & Hn & ->).
  rewrite (update_inventory_intro data (accounting data) None None None None None
             s s b Hinv Hsd Hr Hb).
  - by rewrite updated_same.
  - rewrite apply_no_arguments. by apply ensure_defaults_normal.
Qed.

Lemma ensure_accounting_of_update (data d1 : dict) (s : AccountState.t) :
  _is_inventory_record data = Ok true →
  update_account_state data None None None None None = Ok (d1, s) →
  ensure_accounting data = Ok (d1, s).
Proof.
  intros Hinv H.
  apply update_inventory_closed in H as (b & s0 & Hsd & Hr & Hb & Hs & ->); [|done].
  rewrite apply_no_arguments in Hs.
  rewrite (ensure_defaults_normal _ (read_state_Ok _ _ _ Hr)) in Hs.
  inversion Hs; subst s0.
  rewrite (ensure_accounting_intro _ _ _ _ Hsd Hr Hb). by rewrite updated_same.
Qed.

Lemma derive_sale_type_falsy (x c : value) :
  py_truthy (derive_sale_type x c) = false → py_truthy c = false.
Proof.
  unfold derive_sale_type. destruct (py_truthy c) eqn:E; [by rewrite E | done].
Qed.

(** The legacy [sale_type] field was looked up in a set whenever the state
    read has no sale type. *)
Lemma read_state_hashable (data state_data : dict) (s : AccountState.t) :
  read_state (setdefault data "accounting" (VDict ∅)) state_data = Ok s →
  py_truthy (AccountState.sale_type s) = false →
  hashable (get data "sale_type") = true.
Proof.
  intros Hr Hf. apply read_state_spec in Hr as (_ & _ & Hc & Es). cbv zeta in Hc, Es.
  rewrite get_setdefault_ne in Hc by done. apply Hc.
  rewrite Es in Hf. simpl in Hf. by apply derive_sale_type_falsy in Hf.
Qed.

Lemma ensure_accounting_fixed (data sd : dict) (b : bool) (s : AccountState.t) :
  read_state (setdefault data "accounting" (VDict ∅)) sd = Ok s →
  has_business_role data = Ok b →
  let d1 := mirror_if b s (<["accounting" := VDict (store_state s sd)]> data) in
  ensure_accounting d1 = Ok (d1, s).
Proof.
  intros Hr Hb d1. unfold d1. clear d1. rewrite <- updated_same.
  pose proof (read_state_Ok _ _ _ Hr) as Hn.
  assert (Hd : AccountState.ensure_defaults
                 (apply_arguments None None None None None s) = Ok s)
    by (rewrite apply_no_arguments; by apply ensure_defaults_normal).
  assert (Hh : b = true → py_truthy (AccountState.sale_type s) = false →
               hashable (get data "sale_type") = true)
    by (intros _; by eapply read_state_hashable).
  pose proof (second_read data sd None None None None None b s s Hr Hd Hh) as Hr2.
  pose proof (second_defaults data sd None None None None None b s s Hr Hd Hh) as Hd2.
  pose proof (second_record data sd None None None None None b s s Hr Hd) as Hrec.
  set (s' := AccountState.with_sale_type _ _) in Hr2, Hd2, Hrec.
  assert (s' = s) as Hs'.
  { rewrite apply_no_arguments in Hd2.
    rewrite (ensure_defaults_normal _ (read_state_Ok _ _ _ Hr2)) in Hd2.
    by inversion Hd2. }
  rewrite Hs' in Hr2, Hrec. rewrite updated_same in Hrec at 1.
  rewrite (ensure_accounting_intro _ (store_state s sd) s b).
  - by rewrite Hrec.
  - unfold get_default. by rewrite dF_accounting.
  - exact Hr2.
  - by apply second_role.
Qed.

(** X3: [ensure_accounting] is idempotent: on the record it left, it returns
    the same state and leaves the record as it is. *)
Theorem ensure_accounting_twice (data d1 : dict) (s : AccountState.t) :
  ensure_accounting data = Ok (d1, s) → ensure_accounting d1 = Ok (d1, s).
Proof.
  intros H. apply ensure_accounting_closed in H as (b & Hb & Hr & _ & ->).
  by apply ensure_accounting_fixed.
Qed.

Lemma ensure_accounting_twice_witness :
  ∃ d1 s, ensure_accounting flagged_record = Ok (d1, s) ∧
          ensure_accounting d1 = Ok (d1, s).
Proof.
  assert (Hok : is_Ok (ensure_accounting flagged_record) = true)
    by (vm_compute; reflexivity).
  destruct (ensure_accounting flagged_record) as [[d1 s]|] eqn:E; [|discriminate Hok].
  exists d1, s. split; [reflexivity|].
  exact (ensure_accounting_twice _ _ _ E).
Defined.

Lemma store_state_lookup_ne (s : AccountState.t) (sd : dict) (k : string) :
  k ≠ "owner"%string → k ≠ "manager"%string → k ≠ "status"%string →
  k ≠ "sale_type"%string → k ≠ "sold_at"%string →
  store_state s sd !! k = sd !! k.
Proof. intros. unfold store_state. by map_simpl. Qed.

(** X4: the state [ensure_accounting] returns is always valid (one of the
    three statuses, a sale type or none, a manager that falls back to the
    owner), its owner and sale time are those of the [accounting] dict when
    that holds them and the legacy ones otherwise, and the record's
    [accounting] dict holds exactly that state beside the other keys it
    had. *)
Theorem ensure_accounting_state (data d1 : dict) (s : AccountState.t) :
  ensure_accounting data = Ok (d1, s) →
  (AccountState.status s = VStr ACCOUNT_STATUS_AGENT_STOCK ∨
   AccountState.status s = VStr ACCOUNT_STATUS_DISTRIBUTOR_STOCK ∨
   AccountState.status s = VStr ACCOUNT_STATUS_SOLD) ∧
  (AccountState.sale_type s = VStr SALE_TYPE_DIRECT ∨
   AccountState.sale_type s = VStr SALE_TYPE_DISTRIBUTION ∨
   AccountState.sale_type s = VNone) ∧
  (py_truthy (AccountState.manager s) = false →
   AccountState.manager s = AccountState.owner s) ∧
  AccountState.owner s = py_or (get (accounting data) "owner") (get data "owner") ∧
  AccountState.sold_at s = py_or (get (accounting data) "sold_at") (get data "sold_at") ∧
  ∃ acc, d1 !! "accounting" = Some (VDict acc) ∧
         acc !! "owner" = Some (AccountState.owner s) ∧
         acc !! "manager" = Some (AccountState.manager s) ∧
         acc !! "status" = Some (AccountState.status s) ∧
         acc !! "sale_type" = Some (AccountState.sale_type s) ∧
         acc !! "sold_at" = Some (AccountState.sold_at s) ∧
         (∀ k, k ≠ "owner"%string → k ≠ "manager"%string → k ≠ "status"%string →
               k ≠ "sale_type"%string → k ≠ "sold_at"%string →
               acc !! k = accounting data !! k).
Proof.
  intros H. apply ensure_accounting_closed in H as (b & _ & Hr & [Hm Hst Hsa] & ->).
  destruct (first_state _ _ _ Hr) as (Ho & _ & Hso & _).
  split; [by apply is_status_spec|]. split; [by apply is_sale_type_spec|].
  split; [done|]. split; [done|]. split; [done|].
  exists (store_state s (accounting data)).
  rewrite mirror_if_lookup_accounting, lookup_insert_eq. split; [done|].
  destruct (store_state_lookup s (accounting data)) as (? & ? & ? & ? & ?).
  repeat (split; [done|]). intros k ? ? ? ? ?. by apply store_state_lookup_ne.
Qed.

Lemma ensure_accounting_state_witness :
  ∃ d1 s, ensure_accounting flagged_record = Ok (d1, s) ∧
          AccountState.owner s = VStr "agentA" ∧
          ∃ acc, d1 !! "accounting" = Some (VDict acc) ∧
                 acc !! "owner" = Some (VStr "agentA").
Proof.
  assert (Hok : is_Ok (ensure_accounting flagged_record) = true)
    by (vm_compute; reflexivity).
  destruct (ensure_accounting flagged_record) as [[d1 s]|] eqn:E; [|discriminate Hok].
  exists d1, s. split; [reflexivity|].
  destruct (ensure_accounting_state _ _ _ E)
    as (_ & _ & _ & Ho & _ & acc & Hacc & Hao & _).
  assert (Hs : AccountState.owner s = VStr "agentA")
    by (rewrite Ho; vm_compute; reflexivity).
  split; [exact Hs|]. exists acc. split; [exact Hacc|]. by rewrite Hao, Hs.
Defined.

(** ** Rebuilding the state from the legacy fields *)

Lemma py_or_none (v : value) : py_or VNone v = v.
Proof. reflexivity. Qed.

Lemma get_empty (k : string) : get (∅ : dict) k = VNone.
Proof. unfold get. by rewrite lookup_empty. Qed.

Lemma accounting_delete (d : dict) : accounting (delete "accounting" d) = ∅.
Proof. unfold accounting, get_default. by rewrite lookup_delete_eq. Qed.

(** The state of a record whose [accounting] dict is gone, read from the
    fields the mirror of [s] wrote. *)
Lemma legacy_raw_state (s : AccountState.t) (d : dict) :
  let d' := setdefault (delete "accounting" (mirror s d)) "accounting" (VDict ∅) in
  raw_state d' ∅ =
  AccountState.mk
    (AccountState.owner s)
    (py_or (AccountState.manager s)
       (py_or (get (mirror s d) "assigned_distributor") (AccountState.owner s)))
    (get d "status")
    (default VNone (VStr <$> legacy_token s))
    (if py_truthy (AccountState.sold_at s) then AccountState.sold_at s
     else get d "sold_at") ∧
  get d' "sale_type" = default VNone (VStr <$> legacy_token s).
Proof.
  intros d'.
  assert (Hget : ∀ k, k ≠ "accounting"%string → get d' k = get (mirror s d) k).
  { intros k Hk. unfold d'. rewrite get_setdefault_ne by done.
    unfold get. by rewrite lookup_delete_ne. }
  unfold raw_state. rewrite !get_empty, !py_or_none, !Hget by done.
  destruct (mirror_owner_manager s d) as (Ho & Hm).
  assert (get (mirror s d) "owner" = AccountState.owner s) as ->
    by (unfold get; by rewrite Ho).
  assert (get (mirror s d) "manager" = AccountState.manager s) as ->
    by (unfold get; by rewrite Hm).
  assert (get (mirror s d) "status" = get d "status") as ->.
  { unfold get. rewrite mirror_lookup_ne; [done|]. repeat split; done. }
  assert (get (mirror s d) "sale_type" = default VNone (VStr <$> legacy_token s)) as ->
    by (unfold get; by rewrite mirror_sale_type_token).
  assert (get (mirror s d) "sold_at" =
          if py_truthy (AccountState.sold_at s) then AccountState.sold_at s
          else get d "sold_at") as ->.
  { unfold get. rewrite mirror_lookup_sold_at.
    by destruct (py_truthy (AccountState.sold_at s)). }
  done.
Qed.

Lemma legacy_token_decoded (s : AccountState.t) :
  is_sale_type (AccountState.sale_type s) = true →
  let x := default VNone (VStr <$> legacy_token s) in
  hashable x = true ∧
  derive_sale_type x (if is_sale_type x then x else VNone) = AccountState.sale_type s.
Proof.
  intros Hs. apply is_sale_type_spec in Hs. unfold legacy_token.
  destruct Hs as [-> | [-> | ->]]; vm_compute; done.
Qed.

(** X5: the legacy fields written by the mirror carry the owner, the manager
    and the sale type, but not the status: when the [accounting] dict of a
    mirrored record is lost, [ensure_accounting] rebuilds a state with the
    same owner, manager and sale type (and the same sale time when there was
    one), while its status is the one of the record's own [status] field, or
    [agent_stock], whatever the flags say. *)
Theorem legacy_fields_rebuild (data d1 : dict) (s : AccountState.t) :
  ensure_accounting data = Ok (d1, s) →
  has_business_role data = Ok false →
  hashable (get data "status") = true →
  ∃ d2 s2,
    ensure_accounting (delete "accounting" d1) = Ok (d2, s2) ∧
    AccountState.owner s2 = AccountState.owner s ∧
    AccountState.manager s2 = AccountState.manager s ∧
    AccountState.sale_type s2 = AccountState.sale_type s ∧
    (py_truthy (AccountState.sold_at s) = true →
     AccountState.sold_at s2 = AccountState.sold_at s) ∧
    AccountState.status s2 =
      (if is_status (get data "status") then get data "status"
       else VStr ACCOUNT_STATUS_AGENT_STOCK).
Proof.
  intros H Hrole Hstatus.
  apply ensure_accounting_closed in H as (b & Hb & _ & [Hm Hst Hsa] & ->).
  rewrite Hrole in Hb. inversion Hb; subst b. unfold mirror_if.
  set (D := <["accounting" := VDict (store_state s (accounting data))]> data).
  destruct (legacy_raw_state s D) as (Hraw & Hx). cbv zeta in Hraw, Hx.
  destruct (legacy_token_decoded s Hsa) as (Hhash & Hdec). cbv zeta in Hhash, Hdec.
  assert (HD : get D "status" = get data "status")
    by (unfold get, D; by rewrite lookup_insert_ne).
  rewrite HD in Hraw.
  set (d' := delete "accounting" (mirror s D)) in *.
  set (r := raw_state (setdefault d' "accounting" (VDict ∅)) ∅) in *.
  set (s2 := AccountState.with_sale_type
               (derive_sale_type (get (setdefault d' "accounting" (VDict ∅)) "sale_type")
                  (AccountState.sale_type (defaults r)))
               (defaults r)).
  assert (Hr2 : read_state (setdefault d' "accounting" (VDict ∅)) ∅ = Ok s2).
  { apply read_state_spec. fold r. cbv zeta. unfold s2. rewrite Hraw, Hx. simpl.
    split; [done|]. split; [done|]. split; done. }
  assert (Hrole2 : has_business_role d' = Ok false).
  { rewrite <- Hrole. apply has_business_role_ext. unfold d'.
    rewrite lookup_delete_ne by done.
    rewrite mirror_lookup_ne by apply unmirrored_roles.
    unfold D. by rewrite lookup_insert_ne. }
  assert (Hsd : get_default d' "accounting" (VDict ∅) = VDict ∅)
    by (unfold get_default, d'; by rewrite lookup_delete_eq).
  eexists _, s2. split; [exact (ensure_accounting_intro _ _ _ _ Hsd Hr2 Hrole2)|].
  unfold s2. rewrite Hraw, Hx. unfold defaults. simpl.
  split; [done|]. split.
  { destruct (business_cases (py_truthy (AccountState.manager s))) as [E|E].
    - rewrite (py_or_truthy _ _ E). by rewrite E.
    - rewrite (py_or_falsy _ _ E).
      pose proof (mirror_assigned_falsy s D E) as Ha.
      rewrite (py_or_falsy _ _ Ha).
      rewrite <- (Hm E) at 1. rewrite E. symmetry. by apply Hm. }
  split; [exact Hdec|]. split; [by intros ->|]. done.
Qed.

Lemma legacy_fields_rebuild_witness :
  ∃ d1 s d2 s2,
    ensure_accounting sold_record = Ok (d1, s) ∧
    ensure_accounting (delete "accounting" d1) = Ok (d2, s2) ∧
    AccountState.status s = VStr ACCOUNT_STATUS_SOLD ∧
    AccountState.sale_type s2 = AccountState.sale_type s ∧
    AccountState.status s2 = VStr ACCOUNT_STATUS_AGENT_STOCK.
Proof.
  assert (Hok : (r ← ensure_accounting sold_record; Ok (AccountState.status (snd r)))
                = Ok (VStr ACCOUNT_STATUS_SOLD)) by (vm_compute; reflexivity).
  destruct (ensure_accounting sold_record) as [[d1 s]|] eqn:E; [|discriminate Hok].
  simpl in Hok.
  assert (Hst : AccountState.status s = VStr ACCOUNT_STATUS_SOLD) by congruence.
  clear Hok.
  assert (Hrole : has_business_role sold_record = Ok false)
    by (vm_compute; reflexivity).
  assert (Hhash : hashable (get sold_record "status") = true)
    by (vm_compute; reflexivity).
  destruct (legacy_fields_rebuild _ _ _ E Hrole Hhash)
    as (d2 & s2 & H2 & _ & _ & Hsa & _ & Hs2).
  exists d1, s, d2, s2. split; [reflexivity|]. split; [exact H2|].
  split; [exact Hst|]. split; [exact Hsa|]. rewrite Hs2. vm_compute. reflexivity.
Defined.

(** ** Normalising user records *)

(** [normalize_user_record(username, data)] *)
Definition normalize_user_record (username : string) (data : dict) : result dict :=
  data ← _normalise_roles data;
  inventory ← _is_inventory_record data;
  if (inventory : bool) then
    r ← ensure_accounting data;
    Ok (fst r)
  else Ok (delete "accounting" data).

(** One round of the loop of [normalize_user_store]:
    [users[username] = normalize_user_record(username, record)]. *)
Definition normalize_entry (username : string) (record : dict)
    (users : result (gmap string dict)) : result (gmap string dict) :=
  users ← users;
  record ← normalize_user_record username record;
  Ok (<[username := record]> users).

(** [normalize_user_store(users)]: the loop runs over the entries the store
    had when it started. *)
Definition normalize_user_store (users : gmap string dict)
  : result (gmap string dict) :=
  map_fold normalize_entry (Ok users) users.

(** The keys [_normalise_roles] reads and writes. *)
Definition role_key (k : string) : Prop :=
  k = "roles"%string ∨ k = "is_admin"%string ∨ k = "is_agent"%string ∨
  k = "is_distributor"%string.

Lemma normalise_roles_fixed_ext (d d' : dict) :
  (∀ k, role_key k → d !! k = d' !! k) →
  _normalise_roles d' = Ok d' → _normalise_roles d = Ok d.
Proof.
  intros Hk H. apply normalise_roles_settled in H as (listed & Hl & Hd').
  assert (Hr : d' !! "roles"
               = Some (VList (VStr <$> sorted_roles (settled_roles d' listed))))
    by (rewrite Hd' at 1; by map_simpl).
  assert (Ha : d' !! "is_admin"
               = Some (VBool (bool_decide (ROLE_ADMIN ∈ settled_roles d' listed))))
    by (rewrite Hd' at 1; by map_simpl).
  assert (Hg : d' !! "is_agent"
               = Some (VBool (bool_decide (ROLE_AGENT ∈ settled_roles d' listed))))
    by (rewrite Hd' at 1; by map_simpl).
  assert (Hi : d' !! "is_distributor"
               = Some (VBool (bool_decide (ROLE_DISTRIBUTOR ∈ settled_roles d' listed))))
    by (rewrite Hd' at 1; by map_simpl).
  clear Hd'.
  assert (Hget : ∀ k, role_key k → get d k = get d' k)
    by (intros k Hrk; unfold get; by rewrite Hk).
  unfold listed_roles in Hl. unfold _normalise_roles.
  rewrite !Hget by (unfold role_key; tauto). rewrite Hl. simpl.
  fold (settled_roles d' listed).
  rewrite <- (Hk "roles") in Hr by (unfold role_key; tauto).
  rewrite <- (Hk "is_admin") in Ha by (unfold role_key; tauto).
  rewrite <- (Hk "is_agent") in Hg by (unfold role_key; tauto).
  rewrite <- (Hk "is_distributor") in Hi by (unfold role_key; tauto).
  rewrite (insert_id d "roles") by done.
  rewrite (insert_id d "is_admin") by done.
  rewrite (insert_id d "is_agent") by done.
  by rewrite (insert_id d "is_distributor").
Qed.

Lemma role_key_unmirrored (k : string) :
  role_key k → unmirrored k ∧ k ≠ "accounting"%string.
Proof.
  unfold role_key, unmirrored.
  intros [-> | [-> | [-> | ->]]]; repeat split; done.
Qed.

Lemma inventory_key_accounting (k : string) : inventory_key k → k ≠ "accounting"%string.
Proof. unfold inventory_key. intros H ->. repeat destruct H as [H|H]; discriminate. Qed.

Lemma ensure_accounting_inventory (data d1 : dict) (s : AccountState.t) :
  ensure_accounting data = Ok (d1, s) →
  _is_inventory_record data = Ok true → _is_inventory_record d1 = Ok true.
Proof.
  intros H Hinv. apply ensure_accounting_closed in H as (b & _ & _ & _ & ->).
  rewrite <- updated_same. by apply second_inventory.
Qed.

Lemma normalize_user_record_Ok (username : string) (data d : dict) :
  normalize_user_record username data = Ok d →
  ∃ dR (inventory : bool),
    _normalise_roles data = Ok dR ∧ _is_inventory_record data = Ok inventory ∧
    if inventory then ∃ s, ensure_accounting dR = Ok (d, s)
    else d = delete "accounting" dR.
Proof.
  unfold normalize_user_record. intros H.
  apply bind_Ok_inv in H as (dR & HR & H).
  apply bind_Ok_inv in H as (inventory & Hinv & H).
  exists dR, inventory. split; [done|].
  split; [by rewrite <- (normalise_roles_inventory _ _ HR)|].
  destruct inventory.
  - apply bind_Ok_inv in H as ([d' s] & He & H). inversion H; subst. eauto.
  - by inversion H.
Qed.

(** A customer record that still carries an [accounting] dict. *)
Definition customer_record : dict :=
  list_to_map
    [("nickname", VStr "c"); ("accounting", VDict {[ "status" := VStr "sold" ]})]%string.

(** X6: a normalised record carries an [accounting] dict exactly when it is
    an inventory record: [normalize_user_record] removes the dict from any
    other record, and leaves an inventory record an inventory record with
    the state [ensure_accounting] returns in its dict. *)
Theorem normalize_user_record_accounting (username : string) (data d : dict) :
  normalize_user_record username data = Ok d →
  _is_inventory_record d = _is_inventory_record data ∧
  (_is_inventory_record data = Ok false → d !! "accounting" = None) ∧
  (_is_inventory_record data = Ok true →
   ∃ acc, d !! "accounting" = Some (VDict acc) ∧
          is_status (get acc "status") = true ∧
          is_sale_type (get acc "sale_type") = true).
Proof.
  intros H. apply normalize_user_record_Ok in H as (dR & inventory & HR & Hinv & H).
  pose proof (normalise_roles_inventory _ _ HR) as HinvR.
  destruct inventory.
  - destruct H as (s & He).
    split; [rewrite Hinv; apply (ensure_accounting_inventory _ _ _ He); congruence|].
    split; [intros; congruence|]. intros _.
    apply ensure_accounting_closed in He as (b & _ & _ & [_ Hst Hsa] & ->).
    exists (store_state s (accounting dR)).
    rewrite mirror_if_lookup_accounting, lookup_insert_eq. split; [done|].
    unfold get. destruct (store_state_lookup s (accounting dR)) as (_ & _ & -> & -> & _).
    done.
  - subst d. split.
    + rewrite <- HinvR. apply is_inventory_ext. intros k Hk.
      apply lookup_delete_ne. intros <-. by apply inventory_key_accounting in Hk.
    + split; [intros _; apply lookup_delete_eq | intros; congruence].
Qed.

Lemma normalize_user_record_accounting_witness :
  ∃ d, normalize_user_record "c1" customer_record = Ok d ∧
       d !! "accounting" = None ∧ _is_inventory_record d = Ok false.
Proof.
  assert (Hok : is_Ok (normalize_user_record "c1" customer_record) = true)
    by (vm_compute; reflexivity).
  destruct (normalize_user_record "c1" customer_record) as [d|] eqn:E;
    [|discriminate Hok].
  destruct (normalize_user_record_accounting _ _ _ E) as (Hinv & Hnone & _).
  exists d. split; [reflexivity|].
  split; [apply Hnone; vm_compute; reflexivity|].
  rewrite Hinv. vm_compute. reflexivity.
Defined.

Lemma normalize_user_record_fixed (username username' : string) (data d : dict) :
  normalize_user_record username data = Ok d →
  normalize_user_record username' d = Ok d.
Proof.
  intros H. apply normalize_user_record_Ok in H as (dR & inventory & HR & Hinv & H).
  pose proof (normalise_roles_inventory _ _ HR) as HinvR.
  pose proof (normalise_roles_idempotent _ _ HR) as HRR.
  unfold normalize_user_record. destruct inventory.
  - destruct H as (s & He).
    assert (Hd : _normalise_roles d = Ok d).
    { apply (normalise_roles_fixed_ext d dR); [|done]. intros k Hk.
      apply role_key_unmirrored in Hk as (Hk & Hacc).
      by apply (ensure_accounting_lookup _ _ _ _ He). }
    rewrite Hd. simpl.
    rewrite (ensure_accounting_inventory _ _ _ He) by congruence. simpl.
    assert (Hagain : ensure_accounting d = Ok (d, s)).
    { pose proof He as He'.
      apply ensure_accounting_closed in He' as (b & Hb & Hr & _ & Ed).
      rewrite Ed. by apply ensure_accounting_fixed. }
    by rewrite Hagain.
  - subst d.
    assert (Hd : _normalise_roles (delete "accounting" dR) = Ok (delete "accounting" dR)).
    { apply (normalise_roles_fixed_ext _ dR); [|done]. intros k Hk.
      apply role_key_unmirrored in Hk as (_ & Hacc). by apply lookup_delete_ne. }
    rewrite Hd. simpl.
    assert (Hi : _is_inventory_record (delete "accounting" dR) = Ok false).
    { rewrite <- Hinv, <- HinvR. apply is_inventory_ext. intros k Hk.
      apply lookup_delete_ne. intros <-. by apply inventory_key_accounting in Hk. }
    rewrite Hi. simpl. by rewrite delete_delete_eq.
Qed.

(** X7: [normalize_user_record] is idempotent: a normalised record is
    normalised to itself. *)
Theorem normalize_user_record_twice (username username' : string) (data d : dict) :
  normalize_user_record username data = Ok d →
  normalize_user_record username' d = Ok d.
Proof.
  intros H. by eapply normalize_user_record_fixed.
Qed.

Lemma normalize_user_record_twice_witness :
  ∃ d, normalize_user_record "a1" stock_record = Ok d ∧
       normalize_user_record "a1" d = Ok d.
Proof.
  assert (Hok : is_Ok (normalize_user_record "a1" stock_record) = true)
    by (vm_compute; reflexivity).
  destruct (normalize_user_record "a1" stock_record) as [d|] eqn:E;
    [|discriminate Hok].
  exists d. split; [reflexivity|].
  exact (normalize_user_record_twice _ _ _ _ E).
Defined.

(** The entries of the store the loop started from, after part [m] of them
    has been normalised. *)
Lemma normalize_entries_Ok (init m : gmap string dict) (users' : gmap string dict) :
  map_fold normalize_entry (Ok init) m = Ok users' →
  ∀ username,
    match m !! username with
    | Some record =>
        ∃ record', normalize_user_record username record = Ok record' ∧
                   users' !! username = Some record'
    | None => users' !! username = init !! username
    end.
Proof.
  revert users'.
  apply (map_fold_weak_ind
           (λ r m, ∀ users', r = Ok users' → ∀ username,
              match m !! username with
              | Some record =>
                  ∃ record', normalize_user_record username record = Ok record' ∧
                             users' !! username = Some record'
              | None => users' !! username = init !! username
              end)).
  - intros users' [= <-] username. by rewrite lookup_empty.
  - intros i x m' r Hi IH users' H username.
    unfold normalize_entry in H.
    apply bind_Ok_inv in H as (acc & -> & H).
    apply bind_Ok_inv in H as (record' & Hrec & H). inversion H; subst users'.
    destruct (decide (username = i)) as [->|Hne].
    + rewrite !lookup_insert_eq. eauto.
    + rewrite !lookup_insert_ne by done. by apply IH.
Qed.

Lemma normalize_entries_fixed (init m : gmap string dict) :
  (∀ username record, m !! username = Some record →
     normalize_user_record username record = Ok record ∧
     init !! username = Some record) →
  map_fold normalize_entry (Ok init) m = Ok init.
Proof.
  apply (map_fold_weak_ind
           (λ r m, (∀ username record, m !! username = Some record →
                      normalize_user_record username record = Ok record ∧
                      init !! username = Some record) → r = Ok init)).
  - done.
  - intros i x m' r Hi IH H.
    rewrite IH.
    + destruct (H i x) as (Hn & Hinit); [by rewrite lookup_insert_eq|].
      unfold normalize_entry. simpl. rewrite Hn. simpl. by rewrite insert_id.
    + intros username record Hl. apply H.
      rewrite lookup_insert_ne; [done|]. intros <-. congruence.
Qed.

(** A store with an inventory account and a customer. *)
Definition sample_store : gmap string dict :=
  <["a1"%string := stock_record]> {[ "c1"%string := customer_record ]}.

(** X8: [normalize_user_store] keeps the usernames and replaces every record
    by its normalised form; normalising the store a second time changes
    nothing. *)
Theorem normalize_user_store_pointwise (users users' : gmap string dict) :
  normalize_user_store users = Ok users' →
  dom users' = dom users ∧
  (∀ username record, users !! username = Some record →
     ∃ record', normalize_user_record username record = Ok record' ∧
                users' !! username = Some record') ∧
  normalize_user_store users' = Ok users'.
Proof.
  intros H. pose proof (normalize_entries_Ok users users users' H) as Hk.
  assert (Hpoint : ∀ username record, users !! username = Some record →
            ∃ record', normalize_user_record username record = Ok record' ∧
                       users' !! username = Some record').
  { intros username record Hl. specialize (Hk username). by rewrite Hl in Hk. }
  split; [|split; [done|]].
  - apply set_eq. intros username. rewrite !elem_of_dom.
    specialize (Hk username). destruct (users !! username) as [record|] eqn:E.
    + destruct Hk as (record' & _ & ->). split; eauto.
    + by rewrite Hk.
  - apply normalize_entries_fixed. intros username record' Hl. split; [|done].
    specialize (Hk username). destruct (users !! username) as [record|] eqn:E.
    + destruct Hk as (r & Hn & Hr). rewrite Hl in Hr. inversion Hr; subst r.
      by eapply normalize_user_record_fixed.
    + rewrite Hk in Hl. discriminate.
Qed.

Lemma normalize_user_store_pointwise_witness :
  ∃ users', normalize_user_store sample_store = Ok users' ∧
            dom users' = dom sample_store ∧
            normalize_user_store users' = Ok users'.
Proof.
  assert (Hok : is_Ok (normalize_user_store sample_store) = true)
    by (vm_compute; reflexivity).
  destruct (normalize_user_store sample_store) as [users'|] eqn:E;
    [|discriminate Hok].
  destruct (normalize_user_store_pointwise _ _ E) as (Hdom & _ & Hfix).
  exists users'. split; [reflexivity|]. split; [exact Hdom | exact Hfix].
Defined.

(** ** Inventory iterators *)

(** The loop the three iterators share: the entries whose [accounting] dict
    holds [who] under [key] and the status [status], in the order of the
    store; the list is what the generator yields when it is run to its
    end. *)
Definition iter_accounts (key who status : string) (users : gmap string dict)
  : result (list (string * dict)) :=
  foldr (λ '(username, record) rest,
           let state := get record "accounting" in
           if negb (py_truthy state) then rest
           else match state with
                | VDict state =>
                    if py_eq (get state key) (VStr who)
                       && py_eq (get state "status") (VStr status)
                    then l ← rest; Ok ((username, record) :: l)
                    else rest
                | _ => Raise AttributeError
                end)
        (Ok []) (map_to_list users).

Definition iter_agent_inventory (users : gmap string dict) (agent : string) :=
  iter_accounts "owner" agent ACCOUNT_STATUS_AGENT_STOCK users.

Definition iter_distributor_inventory (users : gmap string dict) (distributor : string) :=
  iter_accounts "owner" distributor ACCOUNT_STATUS_DISTRIBUTOR_STOCK users.

Definition iter_managed_accounts (users : gmap string dict) (manager : string) :=
  iter_accounts "manager" manager ACCOUNT_STATUS_SOLD users.

(** The record is yielded for [who] under [key] and [status]. *)
Definition listed_as (key who status : string) (record : dict) : Prop :=
  ∃ state, get record "accounting" = VDict state ∧ state ≠ ∅ ∧
           get state key = VStr who ∧ get state "status" = VStr status.

Lemma iter_accounts_list (key who status : string) (l : list (string * dict))
    (out : list (string * dict)) :
  foldr (λ '(username, record) rest,
           let state := get record "accounting" in
           if negb (py_truthy state) then rest
           else match state with
                | VDict state =>
                    if py_eq (get state key) (VStr who)
                       && py_eq (get state "status") (VStr status)
                    then l ← rest; Ok ((username, record) :: l)
                    else rest
                | _ => Raise AttributeError
                end)
        (Ok []) l = Ok out →
  ∀ username record,
    (username, record) ∈ out ↔
    (username, record) ∈ l ∧ listed_as key who status record.
Proof.
  revert out. induction l as [|[u r] l IH]; intros out H username record.
  - inversion H. rewrite !elem_of_nil. tauto.
  - cbn [foldr] in H. cbv zeta in H.
    assert (Hcase : ∀ P : Prop, ((username, record) ∈ l ∧ listed_as key who status record ↔ P) →
              ¬ listed_as key who status r →
              ((username, record) ∈ (u, r) :: l ∧ listed_as key who status record ↔ P)).
    { intros P HP Hno. rewrite elem_of_cons, <- HP. split.
      - intros [[[= -> ->]|?] ?]; [done | done].
      - intros [? ?]. split; [by right | done]. }
    destruct (py_truthy (get r "accounting")) eqn:Et; simpl in H.
    2:{ rewrite (IH _ H). symmetry. apply Hcase; [done|].
        intros (st & Hst & Hne & _). rewrite Hst in Et. simpl in Et.
        apply negb_false_iff, bool_decide_eq_true in Et. done. }
    destruct (get r "accounting") as [| | | | | |st] eqn:Es; try discriminate.
    destruct (py_eq (get st key) (VStr who)) eqn:E1; simpl in H.
    2:{ rewrite (IH _ H). symmetry. apply Hcase; [done|].
        intros (st' & Hst' & _ & Hk & _). rewrite Es in Hst'.
        inversion Hst'; subst st'. rewrite Hk in E1. simpl in E1.
        by rewrite String.eqb_refl in E1. }
    destruct (py_eq (get st "status") (VStr status)) eqn:E2; simpl in H.
    2:{ rewrite (IH _ H). symmetry. apply Hcase; [done|].
        intros (st' & Hst' & _ & _ & Hk). rewrite Es in Hst'.
        inversion Hst'; subst st'. rewrite Hk in E2. simpl in E2.
        by rewrite String.eqb_refl in E2. }
    apply bind_Ok_inv in H as (out' & Hout & H). inversion H; subst out.
    apply py_eq_str in E1, E2.
    assert (Hr : listed_as key who status r).
    { exists st. split; [done|]. split; [|done].
      intros ->. simpl in Et. by rewrite bool_decide_true in Et. }
    rewrite !elem_of_cons, (IH _ Hout). split.
    + intros [[= -> ->]|[? ?]]; [split; [by left | done] | split; [by right | done]].
    + intros [[[= -> ->]|?] ?]; [by left | by right].
Qed.

Lemma iter_accounts_spec (key who status : string) (users : gmap string dict)
    (out : list (string * dict)) :
  iter_accounts key who status users = Ok out →
  ∀ username record,
    (username, record) ∈ out ↔
    users !! username = Some record ∧ listed_as key who status record.
Proof.
  intros H username record. unfold iter_accounts in H.
  rewrite (iter_accounts_list _ _ _ _ _ H). by rewrite elem_of_map_to_list.
Qed.

Lemma listed_as_status (key who status key' who' status' : string) (record : dict) :
  listed_as key who status record → listed_as key' who' status' record →
  status = status'.
Proof.
  intros (st & Hst & _ & _ & Hs) (st' & Hst' & _ & _ & Hs').
  rewrite Hst in Hst'. inversion Hst'; subst st'. congruence.
Qed.

Lemma listed_as_who (key who who' status status' : string) (record : dict) :
  listed_as key who status record → listed_as key who' status' record → who = who'.
Proof.
  intros (st & Hst & _ & Hk & _) (st' & Hst' & _ & Hk' & _).
  rewrite Hst in Hst'. inversion Hst'; subst st'. congruence.
Qed.

(** A store with an account in an agent's stock and one a distributor
    sold. *)
Definition two_accounts : gmap string dict :=
  <["a1"%string := stock_record]> {[ "acct1"%string := sold_record ]}.

(** X9: the three iterators never yield the same account: an account of an
    agent's inventory is in no distributor's inventory and among no
    manager's sold accounts, an account of a distributor's inventory is
    among no manager's sold accounts, and no account is in the inventory of
    two agents; what each yields are entries of the store. *)
Theorem inventories_disjoint (users : gmap string dict)
    (agent agent' distributor manager : string)
    (la la' ld lm : list (string * dict)) :
  iter_agent_inventory users agent = Ok la →
  iter_agent_inventory users agent' = Ok la' →
  iter_distributor_inventory users distributor = Ok ld →
  iter_managed_accounts users manager = Ok lm →
  (∀ x, x ∈ la → (x ∉ ld) ∧ (x ∉ lm)) ∧
  (∀ x, x ∈ ld → x ∉ lm) ∧
  (∀ x, x ∈ la → x ∈ la' → agent = agent') ∧
  (∀ username record, (username, record) ∈ la ++ ld ++ lm →
                      users !! username = Some record).
Proof.
  intros Ha Ha' Hd Hm.
  pose proof (iter_accounts_spec _ _ _ _ _ Ha) as Sa.
  pose proof (iter_accounts_spec _ _ _ _ _ Ha') as Sa'.
  pose proof (iter_accounts_spec _ _ _ _ _ Hd) as Sd.
  pose proof (iter_accounts_spec _ _ _ _ _ Hm) as Sm.
  split; [|split; [|split]].
  - intros [u r] Hx. apply Sa in Hx as (_ & Hx). split.
    + intros Hy. apply Sd in Hy as (_ & Hy).
      by pose proof (listed_as_status _ _ _ _ _ _ _ Hx Hy).
    + intros Hy. apply Sm in Hy as (_ & Hy).
      by pose proof (listed_as_status _ _ _ _ _ _ _ Hx Hy).
  - intros [u r] Hx Hy. apply Sd in Hx as (_ & Hx). apply Sm in Hy as (_ & Hy).
    by pose proof (listed_as_status _ _ _ _ _ _ _ Hx Hy).
  - intros [u r] Hx Hy. apply Sa in Hx as (_ & Hx). apply Sa' in Hy as (_ & Hy).
    by eapply listed_as_who.
  - intros u r. rewrite !elem_of_app, Sa, Sd, Sm. tauto.
Qed.

Lemma inventories_disjoint_witness :
  ∃ la lm,
    iter_agent_inventory two_accounts "agentA" = Ok la ∧
    iter_managed_accounts two_accounts "distB" = Ok lm ∧
    ("a1"%string, stock_record) ∈ la ∧ ("a1"%string, stock_record) ∉ lm.
Proof.
  assert (Ha : iter_agent_inventory two_accounts "agentA"
               = Ok [("a1"%string, stock_record)]) by (vm_compute; reflexivity).
  assert (Hd : iter_distributor_inventory two_accounts "distB" = Ok [])
    by (vm_compute; reflexivity).
  assert (Hm : iter_managed_accounts two_accounts "distB"
               = Ok [("acct1"%string, sold_record)]) by (vm_compute; reflexivity).
  destruct (inventories_disjoint _ _ _ _ _ _ _ _ _ Ha Ha Hd Hm) as (Hex & _).
  exists [("a1"%string, stock_record)], [("acct1"%string, sold_record)].
  split; [exact Ha|]. split; [exact Hm|].
  assert (Hin : ("a1"%string, stock_record) ∈ [("a1"%string, stock_record)])
    by constructor.
  split; [exact Hin | exact (proj2 (Hex _ Hin))].
Defined.

(** ** Accounts created by an approval *)

Lemma store_state_nonempty (s : AccountState.t) (sd : dict) : store_state s sd ≠ ∅.
Proof.
  intros H. pose proof (store_state_lookup s sd) as (Ho & _).
  rewrite H, lookup_empty in Ho. discriminate.
Qed.

(** An inventory record updated with an owner and a valid status is listed
    under them. *)
Lemma update_listed (record record' : dict) (owner status : string)
    (manager sale_type sold_at : option string) (s : AccountState.t) :
  update_account_state record (Some owner) manager (Some status) sale_type sold_at
  = Ok (record', s) →
  _is_inventory_record record = Ok true →
  is_status (VStr status) = true →
  listed_as "owner" owner status record'.
Proof.
  intros H Hinv Hst.
  apply update_inventory_closed in H as (b & s0 & _ & Hr & _ & Hs & ->); [|done].
  exists (store_state s (accounting record)).
  split; [unfold get; by rewrite dF_accounting|].
  split; [apply store_state_nonempty|].
  destruct (final_state _ _ _ _ _ _ _ Hs) as (Ho & _ & Hst' & _).
  simpl in Ho, Hst'. rewrite Hst in Hst'.
  unfold get. destruct (store_state_lookup s (accounting record)) as (-> & _ & -> & _).
  simpl. by rewrite Ho, Hst'.
Qed.

Lemma new_account_inventory (app : application) (now_ts : string) (c : credentials) :
  _is_inventory_record (new_account app now_ts c) = Ok true.
Proof. destruct app, c. vm_compute. reflexivity. Qed.

(** The record was created for the application [app]. *)
Definition created_for (app : application) (now_ts : string)
    (fresh : nat → credentials) (record : dict) : Prop :=
  ∃ k s, update_account_state (new_account app now_ts (fresh k))
           (Some (app_agent app)) (Some (app_agent app))
           (Some ACCOUNT_STATUS_AGENT_STOCK) None None = Ok (record, s).

Lemma create_accounts_lookup (app : application) (now_ts : string)
    (fresh : nat → credentials) (n i : nat) (users users' : gmap string dict) :
  create_accounts app now_ts fresh i n users = Ok users' →
  (∀ u, (∃ record, users !! u = Some record ∧ created_for app now_ts fresh record) →
        ∃ record, users' !! u = Some record ∧ created_for app now_ts fresh record) ∧
  (∀ j, (i ≤ j < i + n)%nat →
        ∃ record, users' !! cred_username (fresh j) = Some record ∧
                  created_for app now_ts fresh record) ∧
  (∀ u, (∀ j, (i ≤ j < i + n)%nat → u ≠ cred_username (fresh j)) →
        users' !! u = users !! u).
Proof.
  revert i users. induction n as [|n IH]; intros i users H.
  - inversion H; subst. split; [done|]. split; [lia | done].
  - cbn [create_accounts] in H. apply bind_Ok_inv in H as ([record s] & Hrec & H).
    simpl in H. apply IH in H as (Hkeep & Hnew & Hother).
    assert (Hc : created_for app now_ts fresh record) by (by exists i, s).
    split; [|split].
    + intros u (r & Hu & Hr). apply Hkeep.
      destruct (decide (u = cred_username (fresh i))) as [->|Hne].
      * rewrite lookup_insert_eq. eauto.
      * rewrite lookup_insert_ne by done. eauto.
    + intros j Hj. destruct (decide (j = i)) as [->|Hne].
      * apply Hkeep. rewrite lookup_insert_eq. eauto.
      * apply Hnew. lia.
    + intros u Hu. rewrite Hother by (intros j Hj; apply Hu; lia).
      rewrite lookup_insert_ne; [done|]. intros <-. by apply (Hu i); [lia|].
Qed.

(** X10: every account an approval creates ends up in the agent's stock:
    once [_approve_application] has completed, [iter_agent_inventory] yields,
    for the agent of the application, an account under each of the
    generated usernames; accounts under other usernames are left as they
    were. *)
Theorem approved_accounts_in_stock (admin now_ts : string) (fresh : nat → credentials)
    (s1 s2 : stamp) (users users' : gmap string dict)
    (records records' : list dict) (app : application)
    (stock : list (string * dict)) :
  _approve_application admin now_ts fresh s1 s2 users records app
  = Ok (users', records') →
  iter_agent_inventory users' (app_agent app) = Ok stock →
  (∀ j, (j < Z.to_nat (app_count app))%nat →
        ∃ record, (cred_username (fresh j), record) ∈ stock) ∧
  (∀ u, (∀ j, (j < Z.to_nat (app_count app))%nat → u ≠ cred_username (fresh j)) →
        users' !! u = users !! u).
Proof.
  unfold _approve_application. intros H Hstock.
  apply bind_Ok_inv in H as (us & Hus & H).
  apply bind_Ok_inv in H as (total & _ & H).
  apply bind_Ok_inv in H as (r1 & _ & H).
  apply bind_Ok_inv in H as (r2 & _ & H). inversion H; subst us records'.
  apply create_accounts_lookup in Hus as (_ & Hnew & Hother).
  split.
  - intros j Hj. destruct (Hnew j) as (record & Hl & k & s & Hup); [lia|].
    exists record. apply (iter_accounts_spec _ _ _ _ _ Hstock). split; [done|].
    apply (update_listed _ _ _ _ _ _ _ _ Hup); [apply new_account_inventory | done].
  - intros u Hu. apply Hother. intros j Hj. apply Hu. lia.
Qed.

Lemma approved_accounts_in_stock_witness :
  ∃ users' records' stock record,
    _approve_application "root" "2024-01-01 00:00:00" sample_credentials
      {| stamp_uuid := "id-1"; stamp_now := "2024-01-01 00:00:01" |}
      {| stamp_uuid := "id-2"; stamp_now := "2024-01-01 00:00:02" |}
      ∅ [] sample_order = Ok (users', records') ∧
    iter_agent_inventory users' "agentA" = Ok stock ∧
    ("huiying100002"%string, record) ∈ stock.
Proof.
  assert (Hok : is_Ok (r ← _approve_application "root" "2024-01-01 00:00:00"
                             sample_credentials
                             {| stamp_uuid := "id-1"; stamp_now := "2024-01-01 00:00:01" |}
                             {| stamp_uuid := "id-2"; stamp_now := "2024-01-01 00:00:02" |}
                             ∅ [] sample_order;
                       iter_agent_inventory (fst r) "agentA") = true)
    by (vm_compute; reflexivity).
  destruct (_approve_application "root" "2024-01-01 00:00:00" sample_credentials
              {| stamp_uuid := "id-1"; stamp_now := "2024-01-01 00:00:01" |}
              {| stamp_uuid := "id-2"; stamp_now := "2024-01-01 00:00:02" |}
              ∅ [] sample_order) as [[users' records']|] eqn:E; [|discriminate Hok].
  simpl in Hok.
  destruct (iter_agent_inventory users' "agentA") as [stock|] eqn:Es;
    [|discriminate Hok].
  destruct (approved_accounts_in_stock _ _ _ _ _ _ _ _ _ _ _ E Es) as (Hnew & _).
  destruct (Hnew 2%nat) as (record & Hin); [vm_compute; lia|].
  exists users', records', stock, record.
  split; [reflexivity|]. split; [exact Es | exact Hin].
Defined.

(** ** Normalised ledger entries *)

Lemma from_raw_Ok_inv (uuid4 now : string) (raw : dict) (e : LedgerEntry.t) :
  LedgerEntry.from_raw uuid4 now raw = Ok e →
  py_str (py_or (get raw "id") (VStr uuid4)) = Ok (LedgerEntry.id e) ∧
  py_str (py_or (get raw "time") (VStr now)) = Ok (LedgerEntry.time e) ∧
  py_str (py_or (get raw "actor") (py_or (get raw "admin") (VStr "")))
  = Ok (LedgerEntry.actor e) ∧
  py_str (py_or (get raw "actor_role") (py_or (get raw "role") (VStr ROLE_ADMIN)))
  = Ok (LedgerEntry.actor_role e) ∧
  py_str (py_or (get raw "transaction_type") (VStr TRANSACTION_LEGACY))
  = Ok (LedgerEntry.transaction_type e) ∧
  LedgerEntry._get_direction raw = Ok (LedgerEntry.direction e) ∧
  LedgerEntry._get_amount raw = Ok (LedgerEntry.amount e) ∧
  LedgerEntry._get_quantity raw = Ok (LedgerEntry.quantity e) ∧
  LedgerEntry._get_sale_type raw = Ok (LedgerEntry.sale_type e) ∧
  (∃ metadata, py_dict (get_default raw "metadata" (VDict ∅)) = Ok metadata ∧
               LedgerEntry.metadata e = LedgerEntry.legacy_metadata raw metadata) ∧
  LedgerEntry.product e = get raw "product" ∧
  LedgerEntry.account_username e
  = py_or (get raw "account_username") (get raw "username") ∧
  LedgerEntry.counterparty e
  = py_or (get raw "counterparty") (py_or (get raw "agent") (get raw "distributor")).
Proof.
  unfold LedgerEntry.from_raw. intros H.
  apply bind_Ok_inv in H as (id & Hid & H).
  apply bind_Ok_inv in H as (time & Htime & H).
  apply bind_Ok_inv in H as (actor & Hactor & H).
  apply bind_Ok_inv in H as (role & Hrole & H).
  apply bind_Ok_inv in H as (tt & Htt & H).
  apply bind_Ok_inv in H as (dir & Hdir & H).
  apply bind_Ok_inv in H as (amount & Hamount & H).
  apply bind_Ok_inv in H as (quantity & Hquantity & H).
  apply bind_Ok_inv in H as (sale & Hsale & H).
  apply bind_Ok_inv in H as (metadata & Hmeta & H).
  inversion H; subst e; simpl. repeat (split; [done|]).
  split; [eauto|]. done.
Qed.

Lemma py_eq_str_cases (v : value) (s : string) :
  py_eq v (VStr s) = true ∧ v = VStr s ∨ py_eq v (VStr s) = false ∧ v ≠ VStr s.
Proof.
  destruct (py_eq v (VStr s)) eqn:E.
  - left. split; [done|]. by apply py_eq_str.
  - right. split; [done|]. intros Hv. apply py_eq_str in Hv. congruence.
Qed.

Lemma get_direction_Ok (raw : dict) (dir : string) :
  LedgerEntry._get_direction raw = Ok dir →
  (get raw "direction" = VStr "in" ∧ dir = "in"%string) ∨
  (get raw "direction" = VStr "out" ∧ dir = "out"%string) ∨
  (get raw "direction" ≠ VStr "in" ∧ get raw "direction" ≠ VStr "out" ∧
   dir = if py_eq (get raw "transaction_type") (VStr TRANSACTION_AGENT_PURCHASE)
         then "out"%string else "in"%string).
Proof.
  unfold LedgerEntry._get_direction, in_set. intros H.
  destruct (hashable (get raw "direction")); [|discriminate]. simpl in H.
  rewrite orb_false_r in H.
  destruct (py_eq_str_cases (get raw "direction") "in") as [(E1 & Hv)|(E1 & Hv)];
    rewrite E1 in H; simpl in H.
  { rewrite Hv in H. simpl in H. left. split; [done|]. by inversion H. }
  destruct (py_eq_str_cases (get raw "direction") "out") as [(E2 & Hv')|(E2 & Hv')];
    rewrite E2 in H; simpl in H.
  { rewrite Hv' in H. simpl in H. right. left. split; [done|]. by inversion H. }
  right. right. split; [done|]. split; [done|].
  destruct (py_eq _ _); by inversion H.
Qed.

Lemma get_sale_type_Ok (raw : dict) (st : value) :
  LedgerEntry._get_sale_type raw = Ok st →
  let x := get raw "sale_type" in
  st = (if is_sale_type x then x
        else if existsb (py_eq x) [VStr LEGACY_DIRECT; VStr "direct"]
        then VStr SALE_TYPE_DIRECT
        else if existsb (py_eq x) [VStr LEGACY_DISTRIBUTION; VStr "distribution"]
        then VStr SALE_TYPE_DISTRIBUTION else VNone).
Proof.
  unfold LedgerEntry._get_sale_type, in_set. intros H. cbv zeta in *.
  set (x := get raw "sale_type") in *.
  destruct (hashable x); [|discriminate]. cbn [mbind result_bind] in H.
  change (existsb (py_eq x) [VStr SALE_TYPE_DIRECT; VStr SALE_TYPE_DISTRIBUTION; VNone])
    with (is_sale_type x) in H.
  destruct (is_sale_type x); [by inversion H|].
  destruct (existsb (py_eq x) [VStr LEGACY_DIRECT; VStr "direct"]);
    [by inversion H|].
  destruct (existsb (py_eq x) [VStr LEGACY_DISTRIBUTION; VStr "distribution"]);
    by inversion H.
Qed.

(** A legacy record: the operator's name under [admin], a localized sale
    type, no direction. *)
Definition legacy_raw : dict :=
  list_to_map
    [("admin", VStr "agentA"); ("role", VStr "agent"); ("revenue", VStr "19.9");
     ("count", VInt 2); ("sale_type", VStr LEGACY_DISTRIBUTION);
     ("time", VStr "2023-05-01 08:00:00")]%string.

(** X11: an entry read by [from_raw] is canonical: its direction is [in] or
    [out] (the raw direction when it is one of the two, and otherwise [out]
    for an [agent_purchase] and [in] for anything else), and its sale type
    is [direct_sale], [distribution_sale] or [None], the localized and short
    legacy tokens being translated and any other value dropped. *)
Theorem from_raw_canonical (uuid4 now : string) (raw : dict) (e : LedgerEntry.t) :
  LedgerEntry.from_raw uuid4 now raw = Ok e →
  (LedgerEntry.direction e = "in"%string ∨ LedgerEntry.direction e = "out"%string) ∧
  (get raw "direction" = VStr "in" → LedgerEntry.direction e = "in"%string) ∧
  (get raw "direction" = VStr "out" → LedgerEntry.direction e = "out"%string) ∧
  (get raw "direction" ≠ VStr "in" → get raw "direction" ≠ VStr "out" →
   (LedgerEntry.direction e = "out"%string ↔
    get raw "transaction_type" = VStr TRANSACTION_AGENT_PURCHASE)) ∧
  (LedgerEntry.sale_type e = VStr SALE_TYPE_DIRECT ∨
   LedgerEntry.sale_type e = VStr SALE_TYPE_DISTRIBUTION ∨
   LedgerEntry.sale_type e = VNone) ∧
  (get raw "sale_type" = VStr LEGACY_DIRECT ∨ get raw "sale_type" = VStr "direct" ∨
   get raw "sale_type" = VStr SALE_TYPE_DIRECT →
   LedgerEntry.sale_type e = VStr SALE_TYPE_DIRECT) ∧
  (get raw "sale_type" = VStr LEGACY_DISTRIBUTION ∨
   get raw "sale_type" = VStr "distribution" ∨
   get raw "sale_type" = VStr SALE_TYPE_DISTRIBUTION →
   LedgerEntry.sale_type e = VStr SALE_TYPE_DISTRIBUTION).
Proof.
  intros H. apply from_raw_Ok_inv in H
    as (_ & _ & _ & _ & _ & Hdir & _ & _ & Hsale & _).
  apply get_direction_Ok in Hdir. apply get_sale_type_Ok in Hsale. cbv zeta in Hsale.
  split; [|split; [|split; [|split]]].
  - destruct Hdir as [(_ & ->) | [(_ & ->) | (_ & _ & ->)]]; auto.
    destruct (py_eq _ _); auto.
  - intros E. destruct Hdir as [(_ & ->) | [(E' & _) | (E' & _)]]; congruence.
  - intros E. destruct Hdir as [(E' & _) | [(_ & ->) | (_ & E' & _)]]; congruence.
  - intros E1 E2. destruct Hdir as [(E' & _) | [(E' & _) | (_ & _ & ->)]]; try done.
    destruct (py_eq_str_cases (get raw "transaction_type") TRANSACTION_AGENT_PURCHASE)
      as [(-> & Hv)|(-> & Hv)]; split; done.
  - split; [|split].
    + rewrite Hsale. destruct (is_sale_type (get raw "sale_type")) eqn:E.
      * by apply is_sale_type_spec.
      * repeat case_match; auto.
    + intros [E | [E | E]]; rewrite Hsale, E; reflexivity.
    + intros [E | [E | E]]; rewrite Hsale, E; reflexivity.
Qed.

Lemma from_raw_canonical_witness :
  ∃ e, LedgerEntry.from_raw "id-1" "2024-01-01 00:00:00" legacy_raw = Ok e ∧
       LedgerEntry.direction e = "in"%string ∧
       LedgerEntry.sale_type e = VStr SALE_TYPE_DISTRIBUTION.
Proof.
  assert (Hok : is_Ok (LedgerEntry.from_raw "id-1" "2024-01-01 00:00:00" legacy_raw)
                = true) by (vm_compute; reflexivity).
  destruct (LedgerEntry.from_raw "id-1" "2024-01-01 00:00:00" legacy_raw) as [e|] eqn:E;
    [|discriminate Hok].
  destruct (from_raw_canonical _ _ _ _ E) as (Hio & _ & _ & Hder & _ & _ & Hdist).
  exists e. split; [reflexivity|]. split.
  - destruct Hio as [Hin|Hout]; [exact Hin|].
    apply Hder in Hout; [discriminate Hout | discriminate | discriminate].
  - apply Hdist. left. reflexivity.
Defined.

(** The legacy keys [from_raw] adds to the metadata, each with the raw field
    it is taken from. *)
Definition legacy_keys : list (string * string) :=
  [("legacy_admin", "admin"); ("legacy_role", "role"); ("legacy_count", "count");
   ("legacy_revenue", "revenue"); ("legacy_price", "price");
   ("legacy_user_id", "user_id"); ("legacy_direction", "direction")]%string.

Lemma legacy_metadata_lookup (raw metadata : dict) :
  (∀ lk sk, (lk, sk) ∈ legacy_keys →
     LedgerEntry.legacy_metadata raw metadata !! lk
     = Some (default (get raw sk) (metadata !! lk))) ∧
  (∀ k, k ∉ legacy_keys.*1 →
     LedgerEntry.legacy_metadata raw metadata !! k = metadata !! k).
Proof.
  unfold LedgerEntry.legacy_metadata, legacy_keys. split.
  - intros lk sk Hin.
    repeat (apply elem_of_cons in Hin as [[= -> ->]|Hin];
            [rewrite ?lookup_setdefault_ne by done;
             rewrite lookup_setdefault_eq;
             by rewrite ?lookup_setdefault_ne by done|]).
    by apply elem_of_nil in Hin.
  - intros k Hk. simpl in Hk.
    rewrite !lookup_setdefault_ne; [done|..]; intros <-; apply Hk;
      rewrite !elem_of_cons; repeat first [left; reflexivity | right].
Qed.

(** A raw record whose metadata already names a legacy admin. *)
Definition annotated_raw : dict :=
  list_to_map
    [("admin", VStr "agentA"); ("amount", VInt 5);
     ("metadata", VDict (list_to_map [("legacy_admin", VStr "root");
                                      ("note", VStr "gift")]%string))]%string.

(** X12: [from_raw] never loses or overwrites metadata: every key of the raw
    record's metadata keeps its value in the entry, and each legacy key that
    was absent is added with the raw record's field of that name ([None]
    when the record has none). *)
Theorem from_raw_metadata (uuid4 now : string) (raw : dict) (e : LedgerEntry.t) :
  LedgerEntry.from_raw uuid4 now raw = Ok e →
  ∃ metadata,
    py_dict (get_default raw "metadata" (VDict ∅)) = Ok metadata ∧
    (∀ k v, metadata !! k = Some v → LedgerEntry.metadata e !! k = Some v) ∧
    (∀ lk sk, (lk, sk) ∈ legacy_keys → metadata !! lk = None →
              LedgerEntry.metadata e !! lk = Some (get raw sk)) ∧
    (∀ k, k ∉ legacy_keys.*1 → LedgerEntry.metadata e !! k = metadata !! k).
Proof.
  intros H. apply from_raw_Ok_inv in H
    as (_ & _ & _ & _ & _ & _ & _ & _ & _ & (metadata & Hm & ->) & _).
  destruct (legacy_metadata_lookup raw metadata) as (Hleg & Hother).
  exists metadata. split; [done|]. split; [|split; [|done]].
  - intros k v Hk.
    destruct (decide (k ∈ legacy_keys.*1)) as [Hin|Hin].
    + apply list_elem_of_fmap in Hin as ([lk sk] & -> & Hin). simpl in *.
      by rewrite (Hleg _ _ Hin), Hk.
    + by rewrite Hother.
  - intros lk sk Hin Hnone. by rewrite (Hleg _ _ Hin), Hnone.
Qed.

Lemma from_raw_metadata_witness :
  ∃ e, LedgerEntry.from_raw "id-1" "2024-01-01 00:00:00" annotated_raw = Ok e ∧
       LedgerEntry.metadata e !! "legacy_admin" = Some (VStr "root") ∧
       LedgerEntry.metadata e !! "note" = Some (VStr "gift") ∧
       LedgerEntry.metadata e !! "legacy_role" = Some VNone.
Proof.
  assert (Hok : is_Ok (LedgerEntry.from_raw "id-1" "2024-01-01 00:00:00" annotated_raw)
                = true) by (vm_compute; reflexivity).
  destruct (LedgerEntry.from_raw "id-1" "2024-01-01 00:00:00" annotated_raw)
    as [e|] eqn:E; [|discriminate Hok].
  destruct (from_raw_metadata _ _ _ _ E) as (metadata & Hm & Hkeep & Hadd & _).
  assert (Hm' : py_dict (get_default annotated_raw "metadata" (VDict ∅))
                = Ok (list_to_map [("legacy_admin", VStr "root");
                                   ("note", VStr "gift")]%string))
    by (vm_compute; reflexivity).
  rewrite Hm' in Hm. inversion Hm; subst metadata.
  exists e. split; [reflexivity|].
  split; [apply Hkeep; vm_compute; reflexivity|].
  split; [apply Hkeep; vm_compute; reflexivity|].
  apply (Hadd "legacy_role"%string "role"%string);
    [unfold legacy_keys; rewrite !elem_of_cons;
     repeat first [left; reflexivity | right]
    | vm_compute; reflexivity].
Defined.

Lemma caught_try_except {A} (r h : result A) :
  caught r = true → try_except r h = h.
Proof. by destruct r as [a|[]]. Qed.

(** A legacy record with an unusable revenue. *)
Definition garbled_revenue_raw : dict :=
  list_to_map [("revenue", VStr "n/a"); ("price", VStr "2.5"); ("count", VInt 0)]%string.

(** X13: without an [amount] field, [from_raw] takes the amount from the
    revenue when that is a number, and falls through to the price times the
    count when the revenue is missing or is not a number, a count of zero or
    none counting as one; the amount is [0.0] only when the price or the
    count is not a number either. *)
Theorem from_raw_amount_derivation (uuid4 now : string) (raw : dict)
    (e : LedgerEntry.t) :
  LedgerEntry.from_raw uuid4 now raw = Ok e →
  has_key raw "amount" = false →
  let revenue := get raw "revenue" in
  let price := LedgerEntry.float_or_0 (get raw "price") in
  let count := py_int (py_or (get raw "count") (VInt 0)) in
  (revenue ≠ VNone →
   ∀ r, LedgerEntry.float_or_0 revenue = Ok r → LedgerEntry.amount e = r) ∧
  (revenue = VNone ∨ caught (LedgerEntry.float_or_0 revenue) = true →
   (∀ p n f, price = Ok p → count = Ok n →
             float_of_Z (if n =? 0 then 1 else n) = Ok f →
             LedgerEntry.amount e = (p * f)%float) ∧
   (caught price = true → LedgerEntry.amount e = 0%float) ∧
   (∀ p, price = Ok p → caught count = true → LedgerEntry.amount e = 0%float)).
Proof.
  intros H Hk revenue price count.
  apply from_raw_Ok_inv in H as (_ & _ & _ & _ & _ & _ & Ha & _).
  unfold LedgerEntry._get_amount in Ha. rewrite Hk in Ha.
  fold revenue price count in Ha. split.
  - intros Hrev r Hr. rewrite Hr in Ha.
    destruct revenue; try done; simpl in Ha; by inversion Ha.
  - intros Hrev.
    assert (Hnone : try_except
                      match revenue with
                      | VNone => Ok None
                      | _ => LedgerEntry.float_or_0 revenue ≫= λ x, Ok (Some x)
                      end (Ok None) = Ok None).
    { destruct Hrev as [-> | Hc]; [done|].
      destruct (LedgerEntry.float_or_0 revenue) as [x|[]]; try discriminate;
        by destruct revenue. }
    rewrite Hnone in Ha. cbn [mbind result_bind] in Ha.
    split; [|split].
    + intros p n f Hp Hn Hf. rewrite Hp, Hn in Ha. simpl in Ha.
      unfold float_mul_int in Ha. rewrite Hf in Ha. simpl in Ha. by inversion Ha.
    + intros Hc. rewrite caught_try_except in Ha; [by inversion Ha|].
      by destruct price as [p|[]].
    + intros p Hp Hc. rewrite caught_try_except in Ha; [by inversion Ha|].
      rewrite Hp. simpl. by destruct count as [n|[]].
Qed.

Lemma from_raw_amount_derivation_witness :
  ∃ e, LedgerEntry.from_raw "id-1" "2024-01-01 00:00:00" garbled_revenue_raw = Ok e ∧
       LedgerEntry.amount e = 2.5%float.
Proof.
  assert (Hok : is_Ok (LedgerEntry.from_raw "id-1" "2024-01-01 00:00:00"
                         garbled_revenue_raw) = true) by (vm_compute; reflexivity).
  destruct (LedgerEntry.from_raw "id-1" "2024-01-01 00:00:00" garbled_revenue_raw)
    as [e|] eqn:E; [|discriminate Hok].
  destruct (from_raw_amount_derivation _ _ _ _ E) as (_ & Hfall);
    [vm_compute; reflexivity|].
  destruct Hfall as (Hprod & _); [right; vm_compute; reflexivity|].
  exists e. split; [reflexivity|].
  rewrite (Hprod 2.5%float 0 1%float); vm_compute; reflexivity.
Defined.

(** ** Loading the ledger *)

(** [normalize_ledger_records(records)], from record [i] on; [st i] holds
    what [uuid.uuid4()] and the clock return while record [i] is read. *)
Fixpoint normalize_ledger_from (st : nat → stamp) (i : nat) (records : list dict)
  : result (list dict) :=
  match records with
  | [] => Ok []
  | raw :: records =>
      entry ← LedgerEntry.from_raw (stamp_uuid (st i)) (stamp_now (st i)) raw;
      d ← LedgerEntry.to_dict entry;
      normalised ← normalize_ledger_from st (S i) records;
      Ok (d :: normalised)
  end.

Definition normalize_ledger_records (st : nat → stamp) (records : list dict)
  : result (list dict) :=
  normalize_ledger_from st 0 records.

(** [load_ledger()] once the file is parsed into its list of records: the
    handler [except Exception] turns any exception into the empty ledger. *)
Definition load_ledger (st : nat → stamp) (records : list dict) : result (list dict) :=
  match normalize_ledger_records st records with
  | Ok normalised =>
      Ok ((λ r, setdefault r "role" (get_default r "actor_role" (VStr "admin")))
            <$> normalised)
  | Raise NotModelled => Raise NotModelled
  | Raise _ => Ok []
  end.

(** The legacy fields of a dumped entry repeat the canonical ones. *)
Definition mirrored (d : dict) : Prop :=
  d !! "admin" = d !! "actor" ∧ d !! "role" = d !! "actor_role" ∧
  d !! "count" = d !! "quantity" ∧ d !! "revenue" = d !! "amount" ∧
  is_Some (d !! "role") ∧
  (d !! "direction" = Some (VStr "in") ∨ d !! "direction" = Some (VStr "out")).

Lemma normalised_mirrored (uuid4 now : string) (raw d : dict) (e : LedgerEntry.t) :
  LedgerEntry.from_raw uuid4 now raw = Ok e → LedgerEntry.to_dict e = Ok d →
  mirrored d.
Proof.
  intros He Hd. apply to_dict_Ok_inv in Hd as (price & _ & ->).
  apply from_raw_Ok_inv in He as (_ & _ & _ & _ & _ & Hdir & _).
  apply get_direction_Ok in Hdir.
  unfold mirrored. rewrite !agent_field_lookup by done.
  split; [done|]. split; [done|]. split; [done|]. split; [done|].
  split; [by eexists|].
  change (LedgerEntry.entry_fields e price !! "direction")
    with (Some (VStr (LedgerEntry.direction e))).
  destruct Hdir as [(_ & ->) | [(_ & ->) | (_ & _ & ->)]]; auto.
  destruct (py_eq _ _); auto.
Qed.

Lemma normalize_ledger_from_Ok (st : nat → stamp) (records : list dict) (i : nat)
    (l : list dict) :
  normalize_ledger_from st i records = Ok l →
  length l = length records ∧ ∀ d, d ∈ l → mirrored d.
Proof.
  revert i l. induction records as [|raw records IH]; intros i l H.
  - inversion H. split; [done|]. intros d Hd. by apply elem_of_nil in Hd.
  - cbn [normalize_ledger_from] in H.
    apply bind_Ok_inv in H as (e & He & H).
    apply bind_Ok_inv in H as (d & Hd & H).
    apply bind_Ok_inv in H as (l' & Hl' & H). inversion H; subst l.
    apply IH in Hl' as (Hlen & Hall). split; [simpl; by rewrite Hlen|].
    intros d' [->|Hin]%elem_of_cons; [by eapply normalised_mirrored | by apply Hall].
Qed.

Lemma backfill_role (d : dict) :
  is_Some (d !! "role") →
  setdefault d "role" (get_default d "actor_role" (VStr "admin")) = d.
Proof. intros [v Hv]. unfold setdefault. by rewrite Hv. Qed.

(** A ledger file whose second record has a null metadata. *)
Definition damaged_ledger : list dict := [legacy_raw; null_metadata_raw].

(** X14: [load_ledger] returns all of the ledger or nothing.  When every
    record normalises, it returns the normalised records, one per record of
    the file, each with its legacy fields repeating the canonical ones and a
    direction that is [in] or [out]; the backfill of the [role] field never
    changes a record.  When any record makes the normalisation raise, it
    returns the empty ledger. *)
Theorem load_ledger_all_or_nothing (st : nat → stamp) (records : list dict) :
  (∀ l, normalize_ledger_records st records = Ok l →
        load_ledger st records = Ok l ∧ length l = length records ∧
        ∀ d, d ∈ l → mirrored d) ∧
  (∀ e, normalize_ledger_records st records = Raise e → e ≠ NotModelled →
        load_ledger st records = Ok []).
Proof.
  unfold load_ledger. split.
  - intros l H. rewrite H.
    apply normalize_ledger_from_Ok in H as (Hlen & Hall).
    split; [|done]. f_equal.
    rewrite <- (list_fmap_id l) at 2. apply list_fmap_ext.
    intros i d Hd. apply backfill_role, (Hall d).
    by eapply list_elem_of_lookup_2.
  - intros e -> He. by destruct e.
Qed.

Definition fixed_stamp : nat → stamp :=
  λ _, {| stamp_uuid := "id-1"; stamp_now := "2024-01-01 00:00:00" |}.

Lemma load_ledger_all_or_nothing_witness :
  load_ledger fixed_stamp damaged_ledger = Ok [] ∧
  ∃ l, load_ledger fixed_stamp [legacy_raw] = Ok l ∧ length l = 1%nat.
Proof.
  split.
  - apply (proj2 (load_ledger_all_or_nothing _ damaged_ledger) TypeError);
      [vm_compute; reflexivity | discriminate].
  - assert (Hok : is_Ok (normalize_ledger_records fixed_stamp [legacy_raw]) = true)
      by (vm_compute; reflexivity).
    destruct (normalize_ledger_records fixed_stamp [legacy_raw]) as [l|] eqn:E;
      [|discriminate Hok].
    exists l.
    destruct (proj1 (load_ledger_all_or_nothing _ [legacy_raw]) l E) as (H1 & H2 & _).
    split; [exact H1 | exact H2].
Defined.

(** ** Normalising a normalised ledger *)

Lemma setdefault_present (d : dict) (k : string) (v : value) :
  is_Some (d !! k) → setdefault d k v = d.
Proof. intros [x Hx]. unfold setdefault. by rewrite Hx. Qed.

Lemma legacy_metadata_settled (raw raw' metadata : dict) :
  LedgerEntry.legacy_metadata raw' (LedgerEntry.legacy_metadata raw metadata)
  = LedgerEntry.legacy_metadata raw metadata.
Proof.
  set (M := LedgerEntry.legacy_metadata raw metadata).
  assert (HM : ∀ lk sk, (lk, sk) ∈ legacy_keys → is_Some (M !! lk)).
  { intros lk sk Hin. unfold M.
    rewrite (proj1 (legacy_metadata_lookup raw metadata) lk sk Hin). by eexists. }
  unfold LedgerEntry.legacy_metadata at 1. cbv zeta.
  rewrite !(setdefault_present M); [done|..];
    (eapply HM; unfold legacy_keys; rewrite !elem_of_cons;
     repeat first [left; reflexivity | right]).
Qed.

Lemma from_raw_sale_type (uuid4 now : string) (raw : dict) (e : LedgerEntry.t) :
  LedgerEntry.from_raw uuid4 now raw = Ok e →
  is_sale_type (LedgerEntry.sale_type e) = true.
Proof.
  intros H. apply from_raw_Ok_inv in H
    as (_ & _ & _ & _ & _ & _ & _ & _ & Hsale & _).
  apply get_sale_type_Ok in Hsale. cbv zeta in Hsale. rewrite Hsale.
  destruct (is_sale_type (get raw "sale_type")) eqn:E; [done|].
  repeat case_match; reflexivity.
Qed.

(** X15: a normalised ledger record can always be normalised again, and the
    second pass keeps the direction, the quantity, the sale type, the actor,
    the product and the metadata of the first; the identifier, the time, the
    role and the transaction type are kept when they are not empty; the
    amount is the first amount rounded to two decimals. *)
Theorem renormalise_stable (uuid4 now uuid4' now' : string) (raw d : dict)
    (e : LedgerEntry.t) :
  LedgerEntry.from_raw uuid4 now raw = Ok e →
  LedgerEntry.to_dict e = Ok d →
  ∃ e', LedgerEntry.from_raw uuid4' now' d = Ok e' ∧
        LedgerEntry.direction e' = LedgerEntry.direction e ∧
        LedgerEntry.quantity e' = LedgerEntry.quantity e ∧
        LedgerEntry.sale_type e' = LedgerEntry.sale_type e ∧
        LedgerEntry.actor e' = LedgerEntry.actor e ∧
        LedgerEntry.product e' = LedgerEntry.product e ∧
        LedgerEntry.metadata e' = LedgerEntry.metadata e ∧
        LedgerEntry.amount e' = reread_amount (LedgerEntry.amount e) ∧
        (LedgerEntry.id e ≠ ""%string → LedgerEntry.id e' = LedgerEntry.id e) ∧
        (LedgerEntry.time e ≠ ""%string → LedgerEntry.time e' = LedgerEntry.time e) ∧
        (LedgerEntry.actor_role e ≠ ""%string →
         LedgerEntry.actor_role e' = LedgerEntry.actor_role e) ∧
        (LedgerEntry.transaction_type e ≠ ""%string →
         LedgerEntry.transaction_type e' = LedgerEntry.transaction_type e).
Proof.
  intros He Hd.
  pose proof (from_raw_sale_type _ _ _ _ He) as Hst.
  apply is_sale_type_spec in Hst.
  destruct (from_raw_to_dict uuid4' now' e d) as (e' & He' & Hq & Hdir & Hamt);
    [by destruct Hst as [-> | [-> | ->]] | done |].
  exists e'. split; [done|].
  apply to_dict_Ok_inv in Hd as (price & _ & ->).
  apply from_raw_Ok_inv in He
    as (_ & _ & _ & _ & _ & Hdir0 & _ & _ & _ & (m0 & _ & Hm0) & _).
  apply get_direction_Ok in Hdir0.
  apply from_raw_Ok_inv in He'
    as (Hid & Htime & Hactor & Hrole & Htt & _ & _ & _ & Hsale & (m & Hm & Hmeta)
        & Hprod & _).
  rewrite get_agent_field in Hid, Htime, Htt, Hprod by done.
  rewrite !(get_agent_field e _ "actor"), !(get_agent_field e _ "admin") in Hactor
    by done.
  rewrite !(get_agent_field e _ "actor_role"), !(get_agent_field e _ "role") in Hrole
    by done.
  change (get (LedgerEntry.entry_fields e price) "id")
    with (VStr (LedgerEntry.id e)) in Hid.
  change (get (LedgerEntry.entry_fields e price) "time")
    with (VStr (LedgerEntry.time e)) in Htime.
  change (get (LedgerEntry.entry_fields e price) "actor")
    with (VStr (LedgerEntry.actor e)) in Hactor.
  change (get (LedgerEntry.entry_fields e price) "admin")
    with (VStr (LedgerEntry.actor e)) in Hactor.
  change (get (LedgerEntry.entry_fields e price) "actor_role")
    with (VStr (LedgerEntry.actor_role e)) in Hrole.
  change (get (LedgerEntry.entry_fields e price) "role")
    with (VStr (LedgerEntry.actor_role e)) in Hrole.
  change (get (LedgerEntry.entry_fields e price) "transaction_type")
    with (VStr (LedgerEntry.transaction_type e)) in Htt.
  change (get (LedgerEntry.entry_fields e price) "product")
    with (LedgerEntry.product e) in Hprod.
  split.
  { rewrite Hdir. unfold reread_direction.
    by destruct Hdir0 as [(_ & ->) | [(_ & ->) | (_ & _ & ->)]];
      [| | destruct (py_eq _ _)]. }
  split; [done|]. split.
  { apply get_sale_type_Ok in Hsale. cbv zeta in Hsale.
    rewrite get_agent_field in Hsale by done.
    change (get (LedgerEntry.entry_fields e price) "sale_type")
      with (LedgerEntry.sale_type e) in Hsale.
    rewrite Hsale. by destruct Hst as [-> | [-> | ->]]. }
  split.
  { unfold py_or in Hactor. simpl in Hactor.
    destruct (String.eqb_spec (LedgerEntry.actor e) "") as [E|E];
      simpl in Hactor; inversion Hactor; congruence. }
  split; [done|]. split.
  { rewrite Hmeta. unfold get_default in Hm.
    rewrite agent_field_lookup in Hm by done.
    change (LedgerEntry.entry_fields e price !! "metadata")
      with (Some (VDict (LedgerEntry.metadata e))) in Hm.
    simpl in Hm. inversion Hm; subst m.
    rewrite Hm0. apply legacy_metadata_settled. }
  split; [done|].
  rewrite py_str_or_str in Hid, Htime, Htt.
  split; [|split; [|split]]; intros Hne.
  - apply String.eqb_neq in Hne. rewrite Hne in Hid. by inversion Hid.
  - apply String.eqb_neq in Hne. rewrite Hne in Htime. by inversion Htime.
  - unfold py_or in Hrole. simpl in Hrole.
    apply String.eqb_neq in Hne. rewrite Hne in Hrole. simpl in Hrole.
    by inversion Hrole.
  - apply String.eqb_neq in Hne. rewrite Hne in Htt. by inversion Htt.
Qed.

Lemma renormalise_stable_witness :
  ∃ e d e',
    LedgerEntry.from_raw "id-1" "2024-01-01 00:00:00" legacy_raw = Ok e ∧
    LedgerEntry.to_dict e = Ok d ∧
    LedgerEntry.from_raw "id-2" "2024-02-02 00:00:00" d = Ok e' ∧
    LedgerEntry.metadata e' = LedgerEntry.metadata e ∧
    LedgerEntry.sale_type e' = LedgerEntry.sale_type e.
Proof.
  assert (Hok : is_Ok (e ← LedgerEntry.from_raw "id-1" "2024-01-01 00:00:00" legacy_raw;
                       LedgerEntry.to_dict e) = true)
    by (vm_compute; reflexivity).
  destruct (LedgerEntry.from_raw "id-1" "2024-01-01 00:00:00" legacy_raw)
    as [e|] eqn:E1; [|discriminate Hok].
  cbn [mbind result_bind] in Hok.
  destruct (LedgerEntry.to_dict e) as [d|] eqn:E2; [|discriminate Hok].
  destruct (renormalise_stable "id-1" "2024-01-01 00:00:00" "id-2"
              "2024-02-02 00:00:00" legacy_raw d e E1 E2)
    as (e' & He' & _ & _ & Hs & _ & _ & Hm & _).
  exists e, d, e'. repeat split; assumption.
Defined.

(** ** The distributor's view of an account *)

(** [get_distributor_user_type(user_info, distributor)] *)
Definition get_distributor_user_type (user_info : dict) (distributor : string)
  : result string :=
  match get_default user_info "accounting" (VDict ∅) with
  | VDict state =>
      if negb (py_truthy (VDict state)) then Ok "unknown"%string
      else if py_eq (get state "owner") (VStr distributor)
              && py_eq (get state "status") (VStr ACCOUNT_STATUS_DISTRIBUTOR_STOCK)
      then Ok "unsold"%string
      else if py_eq (get state "status") (VStr ACCOUNT_STATUS_SOLD)
              && py_eq (get state "manager") (VStr distributor)
      then
        if py_eq (get state "sale_type") (VStr SALE_TYPE_DISTRIBUTION)
           && py_eq (get state "owner") (VStr distributor)
        then Ok "sold"%string else Ok "managed"%string
      else Ok "unknown"%string
  | state =>
      if negb (py_truthy state) then Ok "unknown"%string else Raise AttributeError
  end.

Lemma py_eq_refl_str (s : string) : py_eq (VStr s) (VStr s) = true.
Proof. by apply py_eq_str. Qed.

(** The guard of [distributor_mark_sold] holds exactly for the accounts
    listed as unsold. *)
Lemma unsold_guard (record : dict) (distributor : string) :
  get_distributor_user_type record distributor = Ok "unsold"%string ↔
  py_eq (get (accounting record) "owner") (VStr distributor)
  && py_eq (get (accounting record) "status") (VStr ACCOUNT_STATUS_DISTRIBUTOR_STOCK)
  = true ∧ (∃ state, get_default record "accounting" (VDict ∅) = VDict state).
Proof.
  unfold get_distributor_user_type, accounting.
  destruct (get_default record "accounting" (VDict ∅)) as [| | | | | |state];
    try (split; [by repeat case_match | by intros (_ & ? & ?)]).
  destruct (py_eq (get state "owner") (VStr distributor)
            && py_eq (get state "status") (VStr ACCOUNT_STATUS_DISTRIBUTOR_STOCK))
    eqn:G.
  - assert (Hne : state ≠ ∅).
    { intros ->. apply andb_true_iff in G as (G & _). by apply py_eq_str in G. }
    simpl. rewrite bool_decide_false by done. simpl. split; eauto.
  - split; [by repeat case_match | by intros (? & _)].
Qed.

(** The type of a record whose [accounting] dict is [state]. *)
Lemma user_type_of_state (record state : dict) (distributor : string) :
  get record "accounting" = VDict state → state ≠ ∅ →
  get state "owner" = VStr distributor →
  (get state "status" = VStr ACCOUNT_STATUS_DISTRIBUTOR_STOCK →
   get_distributor_user_type record distributor = Ok "unsold"%string) ∧
  (get state "status" = VStr ACCOUNT_STATUS_SOLD →
   get state "manager" = VStr distributor →
   get state "sale_type" = VStr SALE_TYPE_DISTRIBUTION →
   get_distributor_user_type record distributor = Ok "sold"%string).
Proof.
  intros Hacc Hne Ho. unfold get_distributor_user_type, get_default.
  unfold get in Hacc. destruct (record !! "accounting") as [v|]; simpl in Hacc;
    [|discriminate]. subst v. simpl. rewrite bool_decide_false by done. simpl.
  rewrite Ho, py_eq_refl_str. split.
  - intros ->. by rewrite py_eq_refl_str.
  - intros -> -> ->. by rewrite !py_eq_refl_str.
Qed.

(** What [distributor_mark_sold] leaves in the record of an inventory
    account. *)
Lemma sold_state (record record' : dict) (distributor sold_time : string)
    (s : AccountState.t) :
  update_account_state record (Some distributor) (Some distributor)
    (Some ACCOUNT_STATUS_SOLD) (Some SALE_TYPE_DISTRIBUTION) (Some sold_time)
  = Ok (record', s) →
  _is_inventory_record record = Ok true →
  get_distributor_user_type record' distributor = Ok "sold"%string ∧
  get (accounting record') "sold_at" = VStr sold_time.
Proof.
  intros H Hinv.
  apply update_inventory_closed in H as (b & s0 & _ & Hr & _ & Hs & ->); [|done].
  destruct (final_state _ _ _ _ _ _ _ Hs) as (Ho & Hm & Hst & Hsa & Hso).
  simpl in Ho, Hm, Hst, Hsa, Hso.
  destruct (store_state_lookup s (accounting record)) as (Lo & Lm & Lst & Lsa & Lso).
  split.
  - eapply (user_type_of_state _ (store_state s (accounting record))).
    + unfold get. by rewrite dF_accounting.
    + apply store_state_nonempty.
    + unfold get. by rewrite Lo, Ho.
    + unfold get. by rewrite Lst, Hst.
    + unfold get. rewrite Lm, Hm, Ho. simpl. by destruct (negb _).
    + unfold get. by rewrite Lsa, Hsa.
  - unfold accounting at 1. unfold get_default. rewrite dF_accounting. simpl.
    unfold get. by rewrite Lso, Hso.
Qed.

Lemma user_type_state (record : dict) (distributor t : string) :
  get_distributor_user_type record distributor = Ok t → t ≠ "unknown"%string →
  accounting_of record = Ok (accounting record).
Proof.
  unfold get_distributor_user_type, accounting_of, accounting.
  destruct (get_default record "accounting" (VDict ∅)); try done;
    intros H Hne; destruct (negb _); by inversion H.
Qed.

Lemma sold_guard (record : dict) (distributor : string) :
  get_distributor_user_type record distributor = Ok "sold"%string →
  py_eq (get (accounting record) "owner") (VStr distributor)
  && py_eq (get (accounting record) "status") (VStr ACCOUNT_STATUS_SOLD)
  && py_eq (get (accounting record) "sale_type") (VStr SALE_TYPE_DISTRIBUTION)
  = true.
Proof.
  unfold get_distributor_user_type, accounting.
  destruct (get_default record "accounting" (VDict ∅)) as [| | | | | |state];
    try (by repeat case_match).
  destruct (negb _); [done|].
  destruct (py_eq (get state "owner") (VStr distributor)
            && py_eq (get state "status") (VStr ACCOUNT_STATUS_DISTRIBUTOR_STOCK));
    [done|].
  destruct (py_eq (get state "status") (VStr ACCOUNT_STATUS_SOLD)); [|done].
  destruct (py_eq (get state "manager") (VStr distributor)); [|done]. simpl.
  destruct (py_eq (get state "sale_type") (VStr SALE_TYPE_DISTRIBUTION)); [|done].
  by destruct (py_eq (get state "owner") (VStr distributor)).
Qed.

(** An account in a distributor's stock. *)
Definition distributor_stock_record : dict :=
  list_to_map
    [("owner", VStr "distB"); ("source", VStr "distribution");
     ("price", VFloat 9.99); ("product", VStr "basic");
     ("accounting",
      VDict (list_to_map
               [("owner", VStr "distB"); ("manager", VStr "distB");
                ("status", VStr ACCOUNT_STATUS_DISTRIBUTOR_STOCK)]%string))]%string.

(** X16: when a distributor marks sold an inventory account listed as
    unsold, the call succeeds, the account becomes listed as sold for that
    distributor with the sale time of the call, no other account changes,
    and the ledger gains one incoming [distributor_sale] entry of quantity 1
    for the account, acted by the distributor. *)
Theorem distributor_sale_moves_account (distributor sold_time username : string)
    (s : stamp) (users users' : gmap string dict) (records records' : list dict)
    (record : dict) (flag : bool) :
  users !! username = Some record →
  _is_inventory_record record = Ok true →
  get_distributor_user_type record distributor = Ok "unsold"%string →
  distributor_mark_sold distributor sold_time s users records username
  = Ok (users', records', flag) →
  flag = true ∧
  (∃ record', users' !! username = Some record' ∧
              get_distributor_user_type record' distributor = Ok "sold"%string ∧
              get (accounting record') "sold_at" = VStr sold_time) ∧
  (∀ u, u ≠ username → users' !! u = users !! u) ∧
  ∃ d, records' = records ++ [d] ∧
       d !! "transaction_type" = Some (VStr TRANSACTION_DISTRIBUTOR_SALE) ∧
       d !! "account_username" = Some (VStr username) ∧
       d !! "actor" = Some (VStr distributor) ∧
       d !! "quantity" = Some (VInt 1) ∧
       d !! "direction" = Some (VStr "in").
Proof.
  intros Hu Hinv Ht H. unfold distributor_mark_sold in H. rewrite Hu in H.
  rewrite (user_type_state _ _ _ Ht) in H by done. cbn [mbind result_bind] in H.
  apply unsold_guard in Ht as (G & _). rewrite G in H.
  apply bind_Ok_inv in H as ([record' s'] & Hupd & H). cbn [fst] in H.
  apply bind_Ok_inv in H as (amount & _ & H).
  apply bind_Ok_inv in H as (e & He & H).
  apply record_transaction_Ok_inv in He as (d & Hd & ->). cbn [fst] in H.
  inversion H; subst users' records' flag. clear H.
  destruct (sold_state _ _ _ _ _ Hupd Hinv) as (Hsold & Hat).
  split; [done|]. split.
  { exists record'. by rewrite lookup_insert_eq. }
  split.
  { intros u Hne. by rewrite lookup_insert_ne. }
  exists d. split; [done|].
  unfold build_ledger_entry in Hd. apply to_dict_Ok_inv in Hd as (price & _ & ->).
  rewrite !agent_field_lookup by done. done.
Qed.

Lemma distributor_sale_moves_account_witness :
  ∃ users' records' record',
    distributor_mark_sold "distB" "2024-02-02 10:00:00" (fixed_stamp 0)
      {[ "acct1"%string := distributor_stock_record ]} [] "acct1"
    = Ok (users', records', true) ∧
    users' !! "acct1"%string = Some record' ∧
    get_distributor_user_type record' "distB" = Ok "sold"%string ∧
    length records' = 1%nat.
Proof.
  assert (Hok : is_Ok (distributor_mark_sold "distB" "2024-02-02 10:00:00"
                         (fixed_stamp 0)
                         {[ "acct1"%string := distributor_stock_record ]} [] "acct1")
                = true) by (vm_compute; reflexivity).
  destruct (distributor_mark_sold "distB" "2024-02-02 10:00:00" (fixed_stamp 0)
              {[ "acct1"%string := distributor_stock_record ]} [] "acct1")
    as [[[users' records'] flag]|] eqn:E; [|discriminate Hok].
  assert (Hu : ({[ "acct1"%string := distributor_stock_record ]} : gmap string dict)
               !! "acct1"%string = Some distributor_stock_record)
    by apply lookup_singleton_eq.
  assert (Hinv : _is_inventory_record distributor_stock_record = Ok true)
    by (vm_compute; reflexivity).
  assert (Ht : get_distributor_user_type distributor_stock_record "distB"
               = Ok "unsold"%string) by (vm_compute; reflexivity).
  destruct (distributor_sale_moves_account _ _ _ _ _ _ _ _ _ _ Hu Hinv Ht E)
    as (-> & (record' & Hr' & Hsold & _) & _ & (d & -> & _)).
  exists users', [d], record'. repeat split; assumption || reflexivity.
Defined.

(** X17: [distributor_mark_sold] acts on nothing but the accounts listed as
    unsold for the distributor: for any other username it leaves the users
    and the ledger as they were, and reports success exactly when the
    username exists. *)
Theorem distributor_sale_only_unsold (distributor sold_time username : string)
    (s : stamp) (users users' : gmap string dict) (records records' : list dict)
    (flag : bool) :
  (∀ record, users !! username = Some record →
             get_distributor_user_type record distributor ≠ Ok "unsold"%string) →
  distributor_mark_sold distributor sold_time s users records username
  = Ok (users', records', flag) →
  users' = users ∧ records' = records ∧
  flag = bool_decide (is_Some (users !! username)).
Proof.
  intros Ht H. unfold distributor_mark_sold in H.
  destruct (users !! username) as [record|] eqn:Hu.
  - apply bind_Ok_inv in H as (state & Hstate & H).
    pose proof Hstate as Hacc. apply accounting_of_Ok in Hacc as ->.
    destruct (py_eq (get (accounting record) "owner") (VStr distributor)
              && py_eq (get (accounting record) "status")
                   (VStr ACCOUNT_STATUS_DISTRIBUTOR_STOCK)) eqn:G.
    + exfalso. apply (Ht record eq_refl). apply unsold_guard. split; [done|].
      unfold accounting_of in Hstate.
      destruct (get_default record "accounting" (VDict ∅)); try discriminate. eauto.
    + inversion H. rewrite bool_decide_true by eauto. done.
  - inversion H. rewrite bool_decide_false; [done|]. by intros [? ?].
Qed.

Lemma distributor_sale_only_unsold_witness :
  distributor_mark_sold "distB" "2024-02-03 10:00:00" (fixed_stamp 0)
    {[ "acct1"%string := sold_record ]} [] "acct1"
  = Ok ({[ "acct1"%string := sold_record ]}, [], true).
Proof.
  assert (Hok : is_Ok (distributor_mark_sold "distB" "2024-02-03 10:00:00"
                         (fixed_stamp 0) {[ "acct1"%string := sold_record ]} []
                         "acct1") = true) by (vm_compute; reflexivity).
  destruct (distributor_mark_sold "distB" "2024-02-03 10:00:00" (fixed_stamp 0)
              {[ "acct1"%string := sold_record ]} [] "acct1")
    as [[[users' records'] flag]|] eqn:E; [|discriminate Hok].
  assert (Ht : ∀ record,
             ({[ "acct1"%string := sold_record ]} : gmap string dict)
             !! "acct1"%string = Some record →
             get_distributor_user_type record "distB" ≠ Ok "unsold"%string).
  { intros record Hr. rewrite lookup_singleton_eq in Hr.
    inversion Hr; subst record. vm_compute. discriminate. }
  destruct (distributor_sale_only_unsold _ _ _ _ _ _ _ _ _ Ht E) as (-> & -> & ->).
  reflexivity.
Defined.

(** X18: when a distributor marks unsold an inventory account listed as
    sold, the call succeeds, the account is listed as unsold again for that
    distributor, and no other account changes. *)
Theorem distributor_unsale_lists_unsold (distributor username : string)
    (users users' : gmap string dict) (record : dict) (flag : bool) :
  users !! username = Some record →
  _is_inventory_record record = Ok true →
  get_distributor_user_type record distributor = Ok "sold"%string →
  distributor_mark_unsold distributor users username = Ok (users', flag) →
  flag = true ∧
  (∃ record', users' !! username = Some record' ∧
              get_distributor_user_type record' distributor = Ok "unsold"%string) ∧
  (∀ u, u ≠ username → users' !! u = users !! u).
Proof.
  intros Hu Hinv Ht H. unfold distributor_mark_unsold in H. rewrite Hu in H.
  rewrite (user_type_state _ _ _ Ht) in H by done. cbn [mbind result_bind] in H.
  rewrite (sold_guard _ _ Ht) in H.
  apply bind_Ok_inv in H as ([record' s'] & Hupd & H).
  inversion H; subst users' flag. clear H. cbn [fst].
  split; [done|]. split.
  - exists record'. rewrite lookup_insert_eq. split; [done|].
    destruct (update_listed _ _ _ _ _ _ _ _ Hupd Hinv eq_refl)
      as (state & Hacc & Hne & Ho & Hst).
    by apply (user_type_of_state _ _ _ Hacc Hne Ho).
  - intros u Hne. by rewrite lookup_insert_ne.
Qed.

Lemma distributor_unsale_lists_unsold_witness :
  ∃ users' record',
    distributor_mark_unsold "distB" {[ "acct1"%string := sold_record ]} "acct1"
    = Ok (users', true) ∧
    users' !! "acct1"%string = Some record' ∧
    get_distributor_user_type record' "distB" = Ok "unsold"%string.
Proof.
  assert (Hok : is_Ok (distributor_mark_unsold "distB"
                         {[ "acct1"%string := sold_record ]} "acct1") = true)
    by (vm_compute; reflexivity).
  destruct (distributor_mark_unsold "distB" {[ "acct1"%string := sold_record ]} "acct1")
    as [[users' flag]|] eqn:E; [|discriminate Hok].
  assert (Hu : ({[ "acct1"%string := sold_record ]} : gmap string dict)
               !! "acct1"%string = Some sold_record) by apply lookup_singleton_eq.
  assert (Hinv : _is_inventory_record sold_record = Ok true)
    by (vm_compute; reflexivity).
  assert (Ht : get_distributor_user_type sold_record "distB" = Ok "sold"%string)
    by (vm_compute; reflexivity).
  destruct (distributor_unsale_lists_unsold _ _ _ _ _ _ Hu Hinv Ht E)
    as (-> & (record' & Hr' & Hunsold) & _).
  exists users', record'. repeat split; assumption.
Defined.

(** ** Direct sales of an agent *)

(** [mark_sold(name)] for the logged-in agent [current]: the users, the
    ledger, and whether the sale was made (the [success] of the JSON
    answer). *)
Definition mark_sold (current sold_time : string) (s : stamp)
    (users : gmap string dict) (records : list dict) (name : string)
  : result (gmap string dict * list dict * bool) :=
  match users !! name with
  | Some record =>
      state ← accounting_of record;
      if py_eq (get state "owner") (VStr current)
         && py_eq (get state "status") (VStr ACCOUNT_STATUS_AGENT_STOCK)
      then
        r ← update_account_state record None (Some current)
              (Some ACCOUNT_STATUS_SOLD) (Some SALE_TYPE_DIRECT) (Some sold_time);
        let record := <["sold_by" := VStr current]> (fst r) in
        amount ← LedgerEntry.float_or_0 (get_default record "price" (VInt 0));
        e ← record_transaction (stamp_uuid s) (stamp_now s) records
              (with_account name SALE_TYPE_DIRECT
                 (with_product (get_default record "product" (VStr ""))
                    (ledger_kw TRANSACTION_AGENT_DIRECT_SALE current ROLE_AGENT
                       amount 1)));
        Ok (<[name := record]> users, fst e, true)
      else Ok (users, records, false)
  | None => Ok (users, records, false)
  end.

Lemma listed_accounting (key who status : string) (record : dict) :
  listed_as key who status record →
  ∃ state, accounting_of record = Ok state ∧ accounting record = state ∧
           get state key = VStr who ∧ get state "status" = VStr status.
Proof.
  intros (state & Hacc & _ & Hk & Hst). exists state.
  unfold accounting_of, accounting, get_default. unfold get in Hacc.
  destruct (record !! "accounting") as [v|]; simpl in Hacc; [|discriminate].
  subst v. done.
Qed.

(** What [mark_sold] leaves in the [accounting] dict of an inventory
    account of the agent. *)
Lemma direct_sale_state (record record' : dict) (current sold_time : string)
    (s : AccountState.t) :
  update_account_state record None (Some current) (Some ACCOUNT_STATUS_SOLD)
    (Some SALE_TYPE_DIRECT) (Some sold_time) = Ok (record', s) →
  _is_inventory_record record = Ok true →
  current ≠ ""%string →
  get (accounting record) "owner" = VStr current →
  ∃ state, get record' "accounting" = VDict state ∧ state ≠ ∅ ∧
           get state "owner" = VStr current ∧
           get state "manager" = VStr current ∧
           get state "status" = VStr ACCOUNT_STATUS_SOLD ∧
           get state "sale_type" = VStr SALE_TYPE_DIRECT ∧
           get state "sold_at" = VStr sold_time.
Proof.
  intros H Hinv Hne Howner.
  assert (Htruthy : py_truthy (VStr current) = true).
  { simpl. apply String.eqb_neq in Hne. by rewrite Hne. }
  apply update_inventory_closed in H as (b & s0 & _ & Hr & _ & Hs & ->); [|done].
  destruct (final_state _ _ _ _ _ _ _ Hs) as (Ho & Hm & Hst & Hsa & Hso).
  destruct (first_state _ _ _ Hr) as (Ho0 & _).
  simpl in Ho, Hm, Hst, Hsa, Hso.
  rewrite Howner in Ho0. unfold py_or in Ho0. rewrite Htruthy in Ho0.
  simpl in Htruthy. rewrite Htruthy in Hm.
  destruct (store_state_lookup s (accounting record)) as (Lo & Lm & Lst & Lsa & Lso).
  exists (store_state s (accounting record)).
  split; [unfold get; by rewrite dF_accounting|].
  split; [apply store_state_nonempty|].
  unfold get. rewrite Lo, Lm, Lst, Lsa, Lso. simpl.
  by rewrite Ho, Ho0, Hm, Hst, Hsa, Hso.
Qed.

Lemma mark_sold_inv (current sold_time name : string) (s : stamp)
    (users users' : gmap string dict) (records records' : list dict) :
  mark_sold current sold_time s users records name = Ok (users', records', true) →
  ∃ record dF sF amount d,
    users !! name = Some record ∧
    get (accounting record) "owner" = VStr current ∧
    update_account_state record None (Some current) (Some ACCOUNT_STATUS_SOLD)
      (Some SALE_TYPE_DIRECT) (Some sold_time) = Ok (dF, sF) ∧
    build_ledger_entry (stamp_uuid s) (stamp_now s)
      (with_account name SALE_TYPE_DIRECT
         (with_product
            (get_default (<["sold_by" := VStr current]> dF) "product" (VStr ""))
            (ledger_kw TRANSACTION_AGENT_DIRECT_SALE current ROLE_AGENT amount 1)))
    = Ok d ∧
    users' = <[name := <["sold_by" := VStr current]> dF]> users ∧
    records' = records ++ [d].
Proof.
  unfold mark_sold. intros H.
  destruct (users !! name) as [record|]; [|discriminate].
  apply bind_Ok_inv in H as (state & Hstate & H).
  apply accounting_of_Ok in Hstate as ->.
  destruct (py_eq (get (accounting record) "owner") (VStr current)) eqn:Ho;
    [|discriminate].
  destruct (py_eq (get (accounting record) "status") (VStr ACCOUNT_STATUS_AGENT_STOCK));
    [|discriminate].
  cbn [andb] in H. apply bind_Ok_inv in H as ([dF sF] & Hupd & H). cbn [fst] in H.
  apply bind_Ok_inv in H as (amount & Hamount & H).
  apply bind_Ok_inv in H as (e & He & H).
  apply record_transaction_Ok_inv in He as (d & Hd & ->). cbn [fst] in H.
  inversion H; subst users' records'.
  exists record, dF, sF, amount, d. by apply py_eq_str in Ho.
Qed.

(** An account in an agent's stock. *)
Definition agent_stock_record : dict :=
  list_to_map
    [("owner", VStr "agentA"); ("source", VStr "agent");
     ("price", VFloat 19.9); ("product", VStr "basic");
     ("accounting",
      VDict (list_to_map
               [("owner", VStr "agentA"); ("manager", VStr "agentA");
                ("status", VStr ACCOUNT_STATUS_AGENT_STOCK)]%string))]%string.

(** X19: when an agent marks sold an inventory account of their own stock,
    the sale is made: the account is then owned and managed by the agent
    with status [sold], sale type [direct_sale] and the sale time of the
    call, it carries the agent as [sold_by], no other account changes, and
    the ledger gains one incoming [agent_direct_sale] entry of quantity 1
    for the account. *)
Theorem agent_sale_moves_account (current sold_time name : string) (s : stamp)
    (users users' : gmap string dict) (records records' : list dict)
    (record : dict) (flag : bool) :
  users !! name = Some record →
  _is_inventory_record record = Ok true →
  current ≠ ""%string →
  listed_as "owner" current ACCOUNT_STATUS_AGENT_STOCK record →
  mark_sold current sold_time s users records name = Ok (users', records', flag) →
  flag = true ∧
  (∃ record' state,
     users' !! name = Some record' ∧
     record' !! "sold_by" = Some (VStr current) ∧
     get record' "accounting" = VDict state ∧
     get state "owner" = VStr current ∧
     get state "manager" = VStr current ∧
     get state "status" = VStr ACCOUNT_STATUS_SOLD ∧
     get state "sale_type" = VStr SALE_TYPE_DIRECT ∧
     get state "sold_at" = VStr sold_time) ∧
  (∀ u, u ≠ name → users' !! u = users !! u) ∧
  ∃ d, records' = records ++ [d] ∧
       d !! "transaction_type" = Some (VStr TRANSACTION_AGENT_DIRECT_SALE) ∧
       d !! "account_username" = Some (VStr name) ∧
       d !! "actor" = Some (VStr current) ∧
       d !! "quantity" = Some (VInt 1) ∧
       d !! "direction" = Some (VStr "in").
Proof.
  intros Hu Hinv Hne Hlisted H.
  assert (flag = true) as ->.
  { unfold mark_sold in H. rewrite Hu in H.
    apply listed_accounting in Hlisted as (state & Hacc & _ & Ho & Hst).
    rewrite Hacc in H. cbn [mbind result_bind] in H. rewrite Ho, Hst, !py_eq_refl_str in H.
    cbn [andb] in H. apply bind_Ok_inv in H as (? & _ & H).
    apply bind_Ok_inv in H as (? & _ & H). apply bind_Ok_inv in H as (? & _ & H).
    by inversion H. }
  apply mark_sold_inv in H
    as (record0 & dF & sF & amount & d & Hu0 & Ho & Hupd & Hd & -> & ->).
  rewrite Hu in Hu0. inversion Hu0; subst record0. clear Hu0.
  destruct (direct_sale_state _ _ _ _ _ Hupd Hinv Hne Ho)
    as (state & Hacc & _ & Hfields).
  split; [done|]. split.
  { exists (<["sold_by" := VStr current]> dF), state.
    rewrite !lookup_insert_eq. split; [done|]. split; [done|].
    split; [|done]. unfold get. rewrite lookup_insert_ne by done. exact Hacc. }
  split.
  { intros u Hu'. by rewrite lookup_insert_ne. }
  exists d. split; [done|].
  unfold build_ledger_entry in Hd. apply to_dict_Ok_inv in Hd as (price & _ & ->).
  rewrite !agent_field_lookup by done. done.
Qed.

Lemma agent_sale_moves_account_witness :
  ∃ users' records' record',
    mark_sold "agentA" "2024-03-03 09:00:00" (fixed_stamp 0)
      {[ "acct1"%string := agent_stock_record ]} [] "acct1"
    = Ok (users', records', true) ∧
    users' !! "acct1"%string = Some record' ∧
    record' !! "sold_by" = Some (VStr "agentA") ∧
    length records' = 1%nat.
Proof.
  assert (Hok : is_Ok (mark_sold "agentA" "2024-03-03 09:00:00" (fixed_stamp 0)
                         {[ "acct1"%string := agent_stock_record ]} [] "acct1")
                = true) by (vm_compute; reflexivity).
  destruct (mark_sold "agentA" "2024-03-03 09:00:00" (fixed_stamp 0)
              {[ "acct1"%string := agent_stock_record ]} [] "acct1")
    as [[[users' records'] flag]|] eqn:E; [|discriminate Hok].
  assert (Hu : ({[ "acct1"%string := agent_stock_record ]} : gmap string dict)
               !! "acct1"%string = Some agent_stock_record)
    by apply lookup_singleton_eq.
  assert (Hinv : _is_inventory_record agent_stock_record = Ok true)
    by (vm_compute; reflexivity).
  assert (Hne : "agentA"%string ≠ ""%string) by discriminate.
  assert (Hl : listed_as "owner" "agentA" ACCOUNT_STATUS_AGENT_STOCK
                 agent_stock_record).
  { eexists. split; [vm_compute; reflexivity|].
    split; [|split; vm_compute; reflexivity].
    intros Hempty. apply (f_equal (λ m : dict, m !! "owner")) in Hempty.
    vm_compute in Hempty. discriminate Hempty. }
  destruct (agent_sale_moves_account _ _ _ _ _ _ _ _ _ _ Hu Hinv Hne Hl E)
    as (-> & (record' & state & Hr' & Hby & _) & _ & (d & -> & _)).
  exists users', [d], record'. repeat split; assumption || reflexivity.
Defined.

(** The loop of [batch_sold] from name [i] on; [times i] and [st i] are what
    the clock and [uuid.uuid4()] return while name [i] is handled. *)
Fixpoint batch_sold_from (current : string) (times : nat → string)
    (st : nat → stamp) (i : nat) (names : list string)
    (users : gmap string dict) (records : list dict) (sold_any : bool)
  : result (gmap string dict * list dict * bool) :=
  match names with
  | [] => Ok (users, records, sold_any)
  | name :: names =>
      match users !! name with
      | Some record =>
          state ← accounting_of record;
          if py_eq (get state "owner") (VStr current)
             && py_eq (get state "status") (VStr ACCOUNT_STATUS_AGENT_STOCK)
          then
            r ← update_account_state record None (Some current)
                  (Some ACCOUNT_STATUS_SOLD) (Some SALE_TYPE_DIRECT)
                  (Some (times i));
            let record := <["sold_by" := VStr current]> (fst r) in
            amount ← LedgerEntry.float_or_0 (get_default record "price" (VInt 0));
            e ← record_transaction (stamp_uuid (st i)) (stamp_now (st i)) records
                  (with_account name SALE_TYPE_DIRECT
                     (with_product (get_default record "product" (VStr ""))
                        (ledger_kw TRANSACTION_AGENT_DIRECT_SALE current ROLE_AGENT
                           amount 1)));
            batch_sold_from current times st (S i) names
              (<[name := record]> users) (fst e) true
          else batch_sold_from current times st (S i) names users records sold_any
      | None => batch_sold_from current times st (S i) names users records sold_any
      end
  end.

(** [batch_sold()] for the logged-in agent [current] and the submitted
    [names]: the users and the ledger after the loop, which are saved when
    [sold_any] is set. *)
Definition batch_sold (current : string) (times : nat → string) (st : nat → stamp)
    (names : list string) (users : gmap string dict) (records : list dict)
  : result (gmap string dict * list dict * bool) :=
  batch_sold_from current times st 0 names users records false.

(** The account is in the stock of the agent, as the handlers test it. *)
Definition in_stock (current : string) (users : gmap string dict) (name : string)
  : Prop :=
  ∃ record state, users !! name = Some record ∧ accounting_of record = Ok state ∧
    py_eq (get state "owner") (VStr current)
    && py_eq (get state "status") (VStr ACCOUNT_STATUS_AGENT_STOCK) = true.

(** The accounts in stock are inventory records. *)
Definition stock_is_inventory (current : string) (users : gmap string dict) : Prop :=
  ∀ name record, users !! name = Some record → in_stock current users name →
                 _is_inventory_record record = Ok true.

(** The account a ledger entry is about. *)
Definition entry_account (d : dict) : value := get d "account_username".

(** Each round of the loop is one [mark_sold]. *)
Lemma batch_sold_from_cons (current : string) (times : nat → string)
    (st : nat → stamp) (i : nat) (name : string) (names : list string)
    (users : gmap string dict) (records : list dict) (sold_any : bool) :
  batch_sold_from current times st i (name :: names) users records sold_any
  = (mark_sold current (times i) (st i) users records name
     ≫= λ r : gmap string dict * list dict * bool,
       batch_sold_from current times st (S i) names (fst (fst r)) (snd (fst r))
         (if snd r then true else sold_any)).
Proof.
  cbn [batch_sold_from]. unfold mark_sold.
  destruct (users !! name) as [record|]; [|done].
  destruct (accounting_of record) as [state|]; [|done]. cbn [mbind result_bind].
  destruct (py_eq (get state "owner") (VStr current)
            && py_eq (get state "status") (VStr ACCOUNT_STATUS_AGENT_STOCK)); [|done].
  destruct (update_account_state record None (Some current)
              (Some ACCOUNT_STATUS_SOLD) (Some SALE_TYPE_DIRECT) (Some (times i)))
    as [r|]; [|done]. cbn [mbind result_bind].
  destruct (LedgerEntry.float_or_0 _) as [amount|]; [|done]. cbn [mbind result_bind].
  by destruct (record_transaction _ _ _ _) as [e|].
Qed.

Lemma mark_sold_refused (current sold_time name : string) (s : stamp)
    (users users' : gmap string dict) (records records' : list dict) :
  mark_sold current sold_time s users records name = Ok (users', records', false) →
  users' = users ∧ records' = records ∧ ¬ in_stock current users name.
Proof.
  unfold mark_sold. intros H.
  destruct (users !! name) as [record|] eqn:Hu.
  - destruct (accounting_of record) as [state|] eqn:Hstate; [|discriminate].
    cbn [mbind result_bind] in H.
    destruct (py_eq (get state "owner") (VStr current)
              && py_eq (get state "status") (VStr ACCOUNT_STATUS_AGENT_STOCK)) eqn:G.
    + apply bind_Ok_inv in H as (? & _ & H). apply bind_Ok_inv in H as (? & _ & H).
      apply bind_Ok_inv in H as (? & _ & H). by inversion H.
    + inversion H. split; [done|]. split; [done|].
      intros (record0 & state0 & Hu0 & Hstate0 & G0). congruence.
  - inversion H. split; [done|]. split; [done|].
    intros (record0 & state0 & Hu0 & _). congruence.
Qed.

Lemma mark_sold_made (current sold_time name : string) (s : stamp)
    (users users' : gmap string dict) (records records' : list dict) :
  mark_sold current sold_time s users records name = Ok (users', records', true) →
  stock_is_inventory current users → current ≠ ""%string →
  in_stock current users name ∧ ¬ in_stock current users' name ∧
  (∀ u, u ≠ name → users' !! u = users !! u) ∧
  ∃ d, records' = records ++ [d] ∧ entry_account d = VStr name.
Proof.
  intros H Hinv Hne. pose proof H as H0.
  apply mark_sold_inv in H
    as (record & dF & sF & amount & d & Hu & Ho & Hupd & Hd & -> & ->).
  assert (Hstock : in_stock current users name).
  { unfold mark_sold in H0. rewrite Hu in H0.
    destruct (accounting_of record) as [state|] eqn:Hstate; [|discriminate].
    cbn [mbind result_bind] in H0. exists record, state.
    split; [done|]. split; [done|].
    by destruct (py_eq (get state "owner") (VStr current)
                 && py_eq (get state "status") (VStr ACCOUNT_STATUS_AGENT_STOCK)). }
  split; [done|]. split; [|split].
  - intros (record' & state' & Hu' & Hstate' & G).
    rewrite lookup_insert_eq in Hu'. inversion Hu'; subst record'.
    destruct (direct_sale_state _ _ _ _ _ Hupd (Hinv _ _ Hu Hstock) Hne Ho)
      as (state & Hacc & _ & _ & _ & Hst & _).
    apply accounting_of_Ok in Hstate'. subst state'.
    apply andb_true_iff in G as (_ & G). apply py_eq_str in G.
    unfold accounting, get_default in G. unfold get in Hacc.
    rewrite lookup_insert_ne in G by done.
    destruct (dF !! "accounting") as [v|]; simpl in Hacc; [|discriminate].
    subst v. simpl in G. rewrite Hst in G. discriminate G.
  - intros u Hu'. by rewrite lookup_insert_ne.
  - exists d. split; [done|].
    unfold build_ledger_entry in Hd. apply to_dict_Ok_inv in Hd as (price & _ & ->).
    unfold entry_account. by rewrite get_agent_field.
Qed.

Lemma in_stock_ext (current : string) (users users' : gmap string dict) (u : string) :
  users' !! u = users !! u → in_stock current users' u ↔ in_stock current users u.
Proof. intros E. unfold in_stock. by rewrite E. Qed.

Lemma batch_sold_from_sales (current : string) (times : nat → string)
    (st : nat → stamp) (names : list string) (i : nat)
    (users users' : gmap string dict) (records records' : list dict)
    (sold_any sold_any' : bool) :
  stock_is_inventory current users → current ≠ ""%string →
  batch_sold_from current times st i names users records sold_any
  = Ok (users', records', sold_any') →
  ∃ new, records' = records ++ new ∧
         NoDup (entry_account <$> new) ∧
         (∀ v, v ∈ entry_account <$> new ↔
               ∃ name, v = VStr name ∧ name ∈ names ∧ in_stock current users name) ∧
         sold_any' = match new with [] => sold_any | _ => true end ∧
         (∀ u, ¬ (u ∈ names ∧ in_stock current users u) → users' !! u = users !! u).
Proof.
  intros Hinv Hne. revert i users records sold_any Hinv.
  induction names as [|name names IH]; intros i users records sold_any Hinv H.
  { inversion H; subst. exists []. rewrite app_nil_r. split; [done|].
    split; [constructor|]. split; [|done].
    intros v. split; [by intros ?%elem_of_nil|].
    by intros (name & _ & ?%elem_of_nil & _). }
  rewrite batch_sold_from_cons in H.
  apply bind_Ok_inv in H as ([[users1 records1] flag] & Hstep & H). cbn [fst snd] in H.
  destruct flag.
  - apply mark_sold_made in Hstep as (Hin & Hout & Hsame & d & -> & Hd); [|done..].
    assert (Hinv1 : stock_is_inventory current users1).
    { intros u record Hu Hstock.
      assert (u ≠ name) by (by intros ->).
      rewrite Hsame in Hu by done. apply (Hinv u record Hu).
      by rewrite <- (in_stock_ext current users users1 u (Hsame u ltac:(done))). }
    apply IH in H as (new & -> & Hnodup & Hmem & -> & Hkept); [|done].
    exists (d :: new). rewrite <- app_assoc. split; [done|]. split; [|split; [|split]].
    + rewrite fmap_cons, Hd. constructor; [|done].
      intros (name' & [= <-] & _ & Hstock)%Hmem. done.
    + intros v. rewrite fmap_cons, Hd, elem_of_cons, Hmem. split.
      * intros [-> | (name' & -> & Hn & Hstock)].
        { exists name. split; [done|]. split; [by left | done]. }
        exists name'. split; [done|]. split; [by right|].
        assert (name' ≠ name) by (by intros ->).
        by rewrite <- (in_stock_ext current users users1 name' (Hsame _ ltac:(done))).
      * intros (name' & -> & Hn & Hstock).
        destruct (decide (name' = name)) as [->|Hneq]; [by left|]. right.
        exists name'. split; [done|].
        apply elem_of_cons in Hn as [?|Hn]; [done|]. split; [done|].
        by rewrite (in_stock_ext current users users1 name' (Hsame _ Hneq)).
    + by destruct new.
    + intros u Hu.
      assert (u ≠ name) by (intros ->; apply Hu; split; [by left | done]).
      rewrite <- Hsame by done. apply Hkept. intros (Hn & Hstock). apply Hu.
      split; [by right|].
      by rewrite <- (in_stock_ext current users users1 u (Hsame _ ltac:(done))).
  - apply mark_sold_refused in Hstep as (-> & -> & Hout).
    apply IH in H as (new & -> & Hnodup & Hmem & -> & Hkept); [|done].
    exists new. split; [done|]. split; [done|]. split; [|split; [done|]].
    + intros v. rewrite Hmem. split.
      * intros (name' & -> & Hn & Hstock). exists name'.
        split; [done|]. split; [by right | done].
      * intros (name' & -> & Hn & Hstock). exists name'. split; [done|].
        apply elem_of_cons in Hn as [->|Hn]; [done|]. done.
    + intros u Hu. apply Hkept. intros (Hn & Hstock). apply Hu.
      split; [by right | done].
Qed.

(** X20: provided every account of the agent's stock is an inventory record
    (one [_is_inventory_record] accepts), [batch_sold] sells each named
    account of the stock exactly once, however often it is named: the ledger
    gains one entry per account, no two for the same account, for exactly
    the named accounts that were in the agent's stock; no other account
    changes, and the result is saved exactly when an entry was added. *)
Theorem batch_sold_once (current : string) (times : nat → string)
    (st : nat → stamp) (names : list string)
    (users users' : gmap string dict) (records records' : list dict)
    (sold_any : bool) :
  stock_is_inventory current users → current ≠ ""%string →
  batch_sold current times st names users records = Ok (users', records', sold_any) →
  ∃ new, records' = records ++ new ∧
         NoDup (entry_account <$> new) ∧
         (∀ v, v ∈ entry_account <$> new ↔
               ∃ name, v = VStr name ∧ name ∈ names ∧ in_stock current users name) ∧
         sold_any = match new with [] => false | _ => true end ∧
         (∀ u, ¬ (u ∈ names ∧ in_stock current users u) → users' !! u = users !! u).
Proof. intros Hinv Hne H. by eapply batch_sold_from_sales. Qed.

Lemma batch_sold_once_witness :
  ∃ users' records' new,
    batch_sold "agentA" (λ _, "2024-03-03 09:00:00"%string) fixed_stamp
      ["acct1"; "acct1"; "ghost"]%string
      {[ "acct1"%string := agent_stock_record ]} []
    = Ok (users', records', true) ∧
    records' = [] ++ new ∧ NoDup (entry_account <$> new).
Proof.
  set (users := ({[ "acct1"%string := agent_stock_record ]} : gmap string dict)).
  assert (Hok : is_Ok (batch_sold "agentA" (λ _, "2024-03-03 09:00:00"%string)
                         fixed_stamp ["acct1"; "acct1"; "ghost"]%string users [])
                = true) by (vm_compute; reflexivity).
  destruct (batch_sold "agentA" (λ _, "2024-03-03 09:00:00"%string) fixed_stamp
              ["acct1"; "acct1"; "ghost"]%string users [])
    as [[[users' records'] sold_any]|] eqn:E; [|discriminate Hok].
  assert (Hinv : stock_is_inventory "agentA" users).
  { intros name record Hu _. unfold users in Hu.
    apply lookup_singleton_Some in Hu as (_ & <-). vm_compute. reflexivity. }
  assert (Hne : "agentA"%string ≠ ""%string) by discriminate.
  assert (Hstock : in_stock "agentA" users "acct1").
  { exists agent_stock_record, (accounting agent_stock_record).
    split; [apply lookup_singleton_eq|]. split; vm_compute; reflexivity. }
  destruct (batch_sold_once _ _ _ _ _ _ _ _ _ Hinv Hne E)
    as (new & Hrec & Hnodup & Hmem & Hany & _).
  exists users', records', new.
  assert (Hin : VStr "acct1" ∈ entry_account <$> new).
  { apply Hmem. exists "acct1"%string. split; [reflexivity|].
    split; [left | exact Hstock]. }
  destruct new as [|d new]; [apply elem_of_nil in Hin; destruct Hin|].
  rewrite Hany. split; [reflexivity|]. split; [exact Hrec | exact Hnodup].
Defined.

(** ** Handing sold accounts to a distributor *)

(** The loop of [assign_accounts] from account [i] on; [times i] is what the
    clock returns while account [i] is handled.  The sale type passed on is
    [sale_type or SALE_TYPE_DIRECT], a string on every path that reaches the
    call. *)
Fixpoint assign_loop (current_user distributor_username : string)
    (times : nat → string) (i : nat) (account_usernames : list string)
    (users : gmap string dict) (assigned_count : Z) (invalid_accounts : list string)
  : result (gmap string dict * Z * list string) :=
  match account_usernames with
  | [] => Ok (users, assigned_count, invalid_accounts)
  | username :: account_usernames =>
      let next :=
        assign_loop current_user distributor_username times (S i) account_usernames in
      let invalid reason :=
        next users assigned_count
          (invalid_accounts ++ [username +:+ ": " +:+ reason]) in
      match users !! username with
      | None => invalid "用户不存在"%string
      | Some user_info =>
          if negb (py_truthy (VDict user_info)) then invalid "用户不存在"%string
          else
            state ← accounting_of user_info;
            if negb (py_eq (get state "owner") (VStr current_user))
            then invalid "不属于当前代理"%string
            else if negb (py_eq (get state "status") (VStr ACCOUNT_STATUS_SOLD))
            then invalid "账号未售出"%string
            else
              let sale_type := get state "sale_type" in
              if negb (in_tuple sale_type [VStr SALE_TYPE_DIRECT; VNone])
              then invalid "仅支持总部直销账户分配"%string
              else
                let current_manager := get state "manager" in
                other ←
                  (if py_truthy current_manager then
                     known ← in_set current_manager
                               [VStr current_user; VStr distributor_username];
                     Ok (negb known)
                   else Ok false);
                if (other : bool) then invalid "已由其他分销管理"%string
                else
                  r ← update_account_state user_info None
                        (Some distributor_username) None
                        (as_str (py_or sale_type (VStr SALE_TYPE_DIRECT))) None;
                  let user_info := <["assigned_at" := VStr (times i)]> (fst r) in
                  next (<[username := user_info]> users) (assigned_count + 1)
                    invalid_accounts
      end
  end.

(** [assign_accounts()] for the logged-in agent [current_user] and a request
    naming [account_usernames] and [distributor_username]: [None] when the
    request is refused, else the users (saved when an account was assigned),
    the number of accounts assigned and the accounts refused. *)
Definition assign_accounts (current_user : string) (times : nat → string)
    (account_usernames : list string) (distributor_username : string)
    (users : gmap string dict)
  : result (option (gmap string dict * Z * list string)) :=
  if negb (py_truthy (VList (VStr <$> account_usernames)))
     || negb (py_truthy (VStr distributor_username))
  then Ok None
  else
    match users !! distributor_username with
    | None => Ok None
    | Some distributor_info =>
        if negb (py_truthy (VDict distributor_info))
           || negb (py_truthy (get distributor_info "is_distributor"))
           || negb (py_eq (get distributor_info "distributor_owner") (VStr current_user))
        then Ok None
        else
          r ← assign_loop current_user distributor_username times 0
                account_usernames users 0 [];
          Ok (Some r)
    end.

(** The account is sold by [current_user] and managed by the distributor. *)
Definition handed_over (current_user distributor_username : string) (record : dict)
  : Prop :=
  ∃ state, get record "accounting" = VDict state ∧ state ≠ ∅ ∧
           get state "owner" = VStr current_user ∧
           get state "manager" = VStr distributor_username ∧
           get state "status" = VStr ACCOUNT_STATUS_SOLD ∧
           get state "sale_type" = VStr SALE_TYPE_DIRECT.

Lemma truthy_str (s : string) : s ≠ ""%string → py_truthy (VStr s) = true.
Proof. intros Hne. simpl. apply String.eqb_neq in Hne. by rewrite Hne. Qed.

Lemma assign_state (record record' : dict) (current_user distributor_username : string)
    (s : AccountState.t) :
  update_account_state record None (Some distributor_username) None
    (Some SALE_TYPE_DIRECT) None = Ok (record', s) →
  _is_inventory_record record = Ok true →
  current_user ≠ ""%string → distributor_username ≠ ""%string →
  get (accounting record) "owner" = VStr current_user →
  get (accounting record) "status" = VStr ACCOUNT_STATUS_SOLD →
  handed_over current_user distributor_username record' ∧
  _is_inventory_record record' = Ok true.
Proof.
  intros H Hinv Hc Hd Howner Hstatus.
  apply update_inventory_closed in H as (b & s0 & _ & Hr & _ & Hs & ->); [|done].
  split; [|by apply second_inventory].
  destruct (final_state _ _ _ _ _ _ _ Hs) as (Ho & Hm & Hst & Hsa & _).
  destruct (first_state _ _ _ Hr) as (Ho0 & _).
  pose proof (read_state_status _ _ _ Hr) as Hst0.
  simpl in Ho, Hm, Hst, Hsa, Hst0.
  rewrite Howner in Ho0. unfold py_or in Ho0. rewrite (truthy_str _ Hc) in Ho0.
  rewrite Hstatus in Hst0. unfold py_or in Hst0. simpl in Hst0.
  pose proof (truthy_str _ Hd) as Hd'. simpl in Hd'. rewrite Hd' in Hm.
  rewrite Hst0 in Hst. simpl in Hst.
  destruct (store_state_lookup s (accounting record)) as (Lo & Lm & Lst & Lsa & _).
  exists (store_state s (accounting record)).
  split; [unfold get; by rewrite dF_accounting|].
  split; [apply store_state_nonempty|].
  unfold get. rewrite Lo, Lm, Lst, Lsa. simpl.
  by rewrite Ho, Ho0, Hm, Hst, Hsa.
Qed.

(** An account handed over is listed among the distributor's managed
    accounts, not among the distributor's own sales. *)
Lemma handed_over_managed (current_user distributor_username : string)
    (record : dict) :
  handed_over current_user distributor_username record →
  get_distributor_user_type record distributor_username = Ok "managed"%string ∧
  listed_as "manager" distributor_username ACCOUNT_STATUS_SOLD record.
Proof.
  intros (state & Hacc & Hne & Ho & Hm & Hst & Hsa). split.
  - unfold get_distributor_user_type, get_default. unfold get in Hacc.
    destruct (record !! "accounting") as [v|]; simpl in Hacc; [|discriminate].
    subst v. simpl. rewrite bool_decide_false by done. simpl.
    rewrite Hst, Hm, Hsa, !py_eq_refl_str.
    replace (py_eq (VStr ACCOUNT_STATUS_SOLD) (VStr ACCOUNT_STATUS_DISTRIBUTOR_STOCK))
      with false by reflexivity.
    replace (py_eq (VStr SALE_TYPE_DIRECT) (VStr SALE_TYPE_DISTRIBUTION))
      with false by reflexivity.
    by rewrite andb_false_r.
  - by exists state.
Qed.

(** One round of the loop of [assign_accounts]: the account is refused with
    a message, or updated and stamped. *)
Lemma assign_loop_cons (current_user distributor_username : string)
    (times : nat → string) (i : nat) (username : string) (rest : list string)
    (users : gmap string dict) (count : Z) (invalid : list string)
    (res : gmap string dict * Z * list string) :
  assign_loop current_user distributor_username times i (username :: rest)
    users count invalid = Ok res →
  ∃ users1 count1 invalid1,
    assign_loop current_user distributor_username times (S i) rest
      users1 count1 invalid1 = Ok res ∧
    ((users1 = users ∧ count1 = count ∧ ∃ msg, invalid1 = invalid ++ [msg]) ∨
     (∃ record dF sF,
        users !! username = Some record ∧
        get (accounting record) "owner" = VStr current_user ∧
        get (accounting record) "status" = VStr ACCOUNT_STATUS_SOLD ∧
        update_account_state record None (Some distributor_username) None
          (Some SALE_TYPE_DIRECT) None = Ok (dF, sF) ∧
        users1 = <[username := <["assigned_at" := VStr (times i)]> dF]> users ∧
        count1 = count + 1 ∧ invalid1 = invalid)).
Proof.
  cbn [assign_loop]. cbv zeta. intros H.
  destruct (users !! username) as [record|]; [|by eauto 10].
  destruct (negb (py_truthy (VDict record))); [by eauto 10|].
  apply bind_Ok_inv in H as (state & Hstate & H).
  apply accounting_of_Ok in Hstate as ->.
  destruct (py_eq (get (accounting record) "owner") (VStr current_user)) eqn:Ho;
    cbn [negb] in H; [|by eauto 10].
  destruct (py_eq (get (accounting record) "status") (VStr ACCOUNT_STATUS_SOLD))
    eqn:Hst; cbn [negb] in H; [|by eauto 10].
  destruct (in_tuple (get (accounting record) "sale_type")
              [VStr SALE_TYPE_DIRECT; VNone]) eqn:Hsa;
    cbn [negb] in H; [|by eauto 10].
  apply bind_Ok_inv in H as (other & _ & H).
  destruct other; [by eauto 10|].
  apply bind_Ok_inv in H as ([dF sF] & Hupd & H). cbn [fst] in H.
  assert (Harg : as_str (py_or (get (accounting record) "sale_type")
                           (VStr SALE_TYPE_DIRECT)) = Some SALE_TYPE_DIRECT).
  { unfold in_tuple in Hsa. simpl in Hsa. rewrite orb_false_r in Hsa.
    apply orb_true_iff in Hsa as [E|E].
    - apply py_eq_str in E. by rewrite E.
    - apply py_eq_none in E. by rewrite E. }
  rewrite Harg in Hupd. apply py_eq_str in Ho, Hst.
  eexists _, _, _. split; [exact H|]. right. by exists record, dF, sF.
Qed.

(** The accounts whose accounting names [current_user] as owner are
    inventory records. *)
Definition owned_is_inventory (current_user : string) (users : gmap string dict)
  : Prop :=
  ∀ u record, users !! u = Some record →
              get (accounting record) "owner" = VStr current_user →
              _is_inventory_record record = Ok true.

Lemma stamped_record (current_user distributor_username : string) (dF : dict)
    (v : value) :
  handed_over current_user distributor_username dF →
  _is_inventory_record dF = Ok true →
  handed_over current_user distributor_username (<["assigned_at" := v]> dF) ∧
  _is_inventory_record (<["assigned_at" := v]> dF) = Ok true.
Proof.
  intros (state & Hacc & Hrest) Hinv. split.
  - exists state. split; [|done]. unfold get. by rewrite lookup_insert_ne.
  - rewrite <- Hinv. apply is_inventory_ext.
    intros k Hk. rewrite lookup_insert_ne; [done|].
    intros <-. unfold inventory_key in Hk.
    destruct Hk as [?|[?|[?|[?|[?|?]]]]]; discriminate.
Qed.

Lemma assign_loop_spec (current_user distributor_username : string)
    (times : nat → string) (accounts : list string) (i : nat)
    (users users' : gmap string dict) (count count' : Z)
    (invalid invalid' : list string) :
  current_user ≠ ""%string → distributor_username ≠ ""%string →
  owned_is_inventory current_user users →
  assign_loop current_user distributor_username times i accounts users count invalid
  = Ok (users', count', invalid') →
  count ≤ count' ∧
  count' + Z.of_nat (length invalid')
  = count + Z.of_nat (length invalid) + Z.of_nat (length accounts) ∧
  (count' = count → users' = users) ∧
  ∀ u, users' !! u = users !! u ∨
       (u ∈ accounts ∧
        ∃ record', users' !! u = Some record' ∧
                   handed_over current_user distributor_username record' ∧
                   _is_inventory_record record' = Ok true).
Proof.
  intros Hc Hd. revert i users count invalid.
  induction accounts as [|username rest IH]; intros i users count invalid Hinv H.
  { inversion H; subst. simpl. split; [lia|]. split; [lia|]. split; [done|]. by left. }
  apply assign_loop_cons in H as (users1 & count1 & invalid1 & H & Hstep).
  destruct Hstep as [(-> & -> & msg & ->) |
                     (record & dF & sF & Hu & Ho & Hst & Hupd & -> & -> & ->)].
  - apply IH in H as (Hle & Hsum & Hsame & Hall); [|done].
    rewrite length_app in Hsum. simpl in Hsum. simpl.
    split; [done|]. split; [lia|]. split; [done|].
    intros u. destruct (Hall u) as [E | (Hin & Hrec)]; [by left|].
    right. split; [by right | done].
  - destruct (assign_state _ _ _ _ _ Hupd (Hinv _ _ Hu Ho) Hc Hd Ho Hst)
      as (Hover & HdF).
    destruct (stamped_record _ _ _ (VStr (times i)) Hover HdF) as (Hover' & Hinv').
    apply IH in H as (Hle & Hsum & Hsame & Hall).
    + simpl. split; [lia|]. split; [lia|]. split; [lia|].
      intros u. destruct (Hall u) as [E | (Hin & Hrec)].
      * destruct (decide (u = username)) as [->|Hne].
        { right. split; [by left|]. rewrite lookup_insert_eq in E. eauto. }
        left. by rewrite lookup_insert_ne in E.
      * right. split; [by right | done].
    + intros u record1 Hu1 Ho1.
      destruct (decide (u = username)) as [->|Hne].
      * rewrite lookup_insert_eq in Hu1. by inversion Hu1; subst record1.
      * rewrite lookup_insert_ne in Hu1 by done. by eapply Hinv.
Qed.

(** A distributor created by [agentA]. *)
Definition distributor_account : dict :=
  list_to_map
    [("is_distributor", VBool true); ("distributor_owner", VStr "agentA")]%string.

(** An account [agentA] sold directly on 3 March. *)
Definition direct_sold_record : dict :=
  list_to_map
    [("owner", VStr "agentA"); ("source", VStr "agent"); ("price", VFloat 19.9);
     ("accounting",
      VDict (list_to_map
               [("owner", VStr "agentA"); ("manager", VStr "agentA");
                ("status", VStr ACCOUNT_STATUS_SOLD);
                ("sale_type", VStr SALE_TYPE_DIRECT);
                ("sold_at", VStr "2024-03-03 09:00:00")]%string))]%string.

(** X21: provided every account whose accounting names the current agent as
    owner is an inventory record (one [_is_inventory_record] accepts), when
    [assign_accounts] accepts a request, the named distributor is one the
    current agent created; every named account is either counted as
    assigned or reported as invalid; nothing changes when none is assigned;
    and each account of the store is either untouched or a named account
    that is now owned by the agent and listed for the distributor as a
    managed account (never as the distributor's own sale). *)
Theorem assign_accounts_managed (current_user distributor_username : string)
    (times : nat → string) (accounts : list string)
    (users users' : gmap string dict) (assigned_count : Z)
    (invalid_accounts : list string) :
  current_user ≠ ""%string →
  owned_is_inventory current_user users →
  assign_accounts current_user times accounts distributor_username users
  = Ok (Some (users', assigned_count, invalid_accounts)) →
  (∃ info, users !! distributor_username = Some info ∧
           py_truthy (get info "is_distributor") = true ∧
           get info "distributor_owner" = VStr current_user) ∧
  assigned_count + Z.of_nat (length invalid_accounts) = Z.of_nat (length accounts) ∧
  (assigned_count = 0 → users' = users) ∧
  ∀ u, users' !! u = users !! u ∨
       (u ∈ accounts ∧
        ∃ record', users' !! u = Some record' ∧
                   get (accounting record') "owner" = VStr current_user ∧
                   get_distributor_user_type record' distributor_username
                   = Ok "managed"%string ∧
                   listed_as "manager" distributor_username ACCOUNT_STATUS_SOLD
                     record').
Proof.
  intros Hc Hinv H. unfold assign_accounts in H.
  destruct (negb (py_truthy (VList (VStr <$> accounts)))); [discriminate|].
  destruct (py_truthy (VStr distributor_username)) eqn:Hd; [|discriminate].
  cbn [negb orb] in H.
  destruct (users !! distributor_username) as [info|]; [|discriminate].
  destruct (py_truthy (VDict info)); [|discriminate].
  destruct (py_truthy (get info "is_distributor")) eqn:Hflag; [|discriminate].
  destruct (py_eq (get info "distributor_owner") (VStr current_user)) eqn:Ho;
    [|discriminate].
  cbn [negb orb] in H. apply bind_Ok_inv in H as (r & Hloop & H).
  inversion H; subst r. clear H.
  assert (Hd' : distributor_username ≠ ""%string).
  { intros ->. discriminate Hd. }
  apply assign_loop_spec in Hloop as (_ & Hsum & Hsame & Hall); [|done..].
  split. { exists info. apply py_eq_str in Ho. done. }
  split; [simpl in Hsum; lia|]. split; [done|].
  intros u. destruct (Hall u) as [E | (Hin & record' & Hu & Hover & _)]; [by left|].
  right. split; [done|]. exists record'. split; [done|].
  destruct (handed_over_managed _ _ _ Hover) as (Ht & Hl).
  split; [|done].
  destruct Hover as (state & Hacc & _ & Howner & _).
  unfold accounting, get_default. unfold get in Hacc.
  destruct (record' !! "accounting") as [v|]; simpl in Hacc; [|discriminate].
  by subst v.
Qed.

Lemma assign_accounts_managed_witness :
  ∃ users' invalid record',
    assign_accounts "agentA" (λ _, "2024-03-05 12:00:00"%string)
      ["acct1"; "ghost"]%string "distB"
      (<[ "acct1"%string := direct_sold_record ]>
         {[ "distB"%string := distributor_account ]})
    = Ok (Some (users', 1, invalid)) ∧
    length invalid = 1%nat ∧
    users' !! "acct1"%string = Some record' ∧
    get_distributor_user_type record' "distB" = Ok "managed"%string.
Proof.
  set (users := (<[ "acct1"%string := direct_sold_record ]>
                   {[ "distB"%string := distributor_account ]} : gmap string dict)).
  assert (Hok : (assign_accounts "agentA" (λ _, "2024-03-05 12:00:00"%string)
                   ["acct1"; "ghost"]%string "distB" users
                 ≫= λ r,
                 Ok (match r with
                     | Some (u, c, inv) =>
                         Some (c, length inv,
                               bool_decide ((u !! "acct1"%string)
                                            ≫= (λ d, d !! "assigned_at") = None))
                     | None => None
                     end)) = Ok (Some (1, 1%nat, false)))
    by (vm_compute; reflexivity).
  destruct (assign_accounts "agentA" (λ _, "2024-03-05 12:00:00"%string)
              ["acct1"; "ghost"]%string "distB" users)
    as [[[[users' count] invalid]|]|] eqn:E;
    [|discriminate Hok|discriminate Hok].
  cbn [mbind result_bind] in Hok.
  assert (count = 1) as -> by congruence.
  assert (Hlen : length invalid = 1%nat) by congruence.
  assert (Hstamp : bool_decide ((users' !! "acct1"%string)
                                ≫= (λ d, d !! "assigned_at") = None) = false)
    by congruence.
  clear Hok.
  assert (Hc : "agentA"%string ≠ ""%string) by discriminate.
  assert (Hinv : owned_is_inventory "agentA" users).
  { intros u record Hu Ho. unfold users in Hu.
    apply lookup_insert_Some in Hu as [(_ & <-) | (_ & Hu)];
      [vm_compute; reflexivity|].
    apply lookup_singleton_Some in Hu as (_ & <-).
    vm_compute in Ho. discriminate Ho. }
  destruct (assign_accounts_managed _ _ _ _ _ _ _ _ Hc Hinv E)
    as (_ & _ & Hsame & Hall).
  destruct (Hall "acct1"%string) as [Heq | (_ & record' & Hu & _ & Ht & _)].
  - exfalso. apply bool_decide_eq_false in Hstamp. apply Hstamp.
    rewrite Heq. unfold users. rewrite lookup_insert_eq. vm_compute. reflexivity.
  - exists users', invalid, record'. repeat split; assumption || reflexivity.
Defined.

(** ** Sales counters *)

(** The loop of [compute_sold_counts_from_users] over the records still to
    visit. *)
Fixpoint sold_counts_loop (today_str month_str : string) (values : list dict)
    (today_cnt month_cnt : Z) : result (Z * Z) :=
  match values with
  | [] => Ok (today_cnt, month_cnt)
  | v :: values =>
      if in_tuple (get v "forsale") [VBool false; VInt 0; VStr "false"; VStr "False"]
      then
        let sold_at := get v "sold_at" in
        if negb (py_truthy sold_at)
        then sold_counts_loop today_str month_str values today_cnt month_cnt
        else
          s ← py_str sold_at;
          let today_cnt :=
            if String.prefix today_str s then today_cnt + 1 else today_cnt in
          let month_cnt :=
            if String.prefix month_str s then month_cnt + 1 else month_cnt in
          sold_counts_loop today_str month_str values today_cnt month_cnt
      else sold_counts_loop today_str month_str values today_cnt month_cnt
  end.

(** [compute_sold_counts_from_users(users_dict)]; [today_str] and
    [month_str] are today's date printed as [%Y-%m-%d] and as [%Y-%m]. *)
Definition compute_sold_counts_from_users (today_str month_str : string)
    (users_dict : gmap string dict) : result (Z * Z) :=
  sold_counts_loop today_str month_str (map_to_list users_dict).*2 0 0.

Lemma prefix_trans (a b c : string) :
  String.prefix a b = true → String.prefix b c = true → String.prefix a c = true.
Proof.
  revert b c. induction a as [|x a IH]; intros b c Hab Hbc; [by destruct c|].
  destruct b as [|y b]; [discriminate Hab|].
  destruct c as [|z c]; [discriminate Hbc|].
  cbn [String.prefix] in *.
  destruct (ascii_dec x y) as [->|]; [|discriminate Hab].
  destruct (ascii_dec y z) as [|]; [|discriminate Hbc].
  by eapply IH.
Qed.

Lemma sold_counts_loop_bounds (today_str month_str : string) (values : list dict)
    (t m t' m' : Z) :
  sold_counts_loop today_str month_str values t m = Ok (t', m') →
  0 ≤ t' - t ≤ Z.of_nat (length values) ∧
  0 ≤ m' - m ≤ Z.of_nat (length values) ∧
  (String.prefix month_str today_str = true → t' - t ≤ m' - m).
Proof.
  revert t m. induction values as [|v values IH]; intros t m H.
  { inversion H. simpl. lia. }
  cbn [sold_counts_loop] in H. cbv zeta in H. cbn [length].
  assert (Hskip : ∀ t0 m0,
            (t0 = t ∨ t0 = t + 1) → (m0 = m ∨ m0 = m + 1) →
            (String.prefix month_str today_str = true → t0 - t ≤ m0 - m) →
            sold_counts_loop today_str month_str values t0 m0 = Ok (t', m') →
            0 ≤ t' - t ≤ Z.of_nat (S (length values)) ∧
            0 ≤ m' - m ≤ Z.of_nat (S (length values)) ∧
            (String.prefix month_str today_str = true → t' - t ≤ m' - m)).
  { intros t0 m0 Ht0 Hm0 Hstep H0. apply IH in H0 as (H1 & H2 & H3).
    split; [lia|]. split; [lia|]. intros Hpre.
    specialize (H3 Hpre). specialize (Hstep Hpre). lia. }
  destruct (in_tuple _ _); [|apply (Hskip t m); auto; lia].
  destruct (negb _); [apply (Hskip t m); auto; lia|].
  apply bind_Ok_inv in H as (s & _ & H).
  destruct (String.prefix today_str s) eqn:Ht;
    destruct (String.prefix month_str s) eqn:Hm;
    apply Hskip in H; auto; try lia.
  intros Hpre. rewrite (prefix_trans _ _ _ Hpre Ht) in Hm. discriminate Hm.
Qed.

(** An account sold on 29 February, with the legacy fields the counters
    read. *)
Definition sold_flagged_record : dict :=
  list_to_map
    [("owner", VStr "agentA"); ("forsale", VBool false);
     ("sold_at", VStr "2024-02-29 23:59:59")]%string.

(** The clock passes midnight between the two readings of
    [compute_sold_counts_from_users]: a sale of 29 February is counted for
    the day and not for the month. *)
Lemma sold_counts_month_change :
  compute_sold_counts_from_users "2024-02-29" "2024-03"
    {[ "acct1"%string := sold_flagged_record ]} = Ok (1, 0).
Proof. vm_compute. reflexivity. Qed.

(** X22: the counters of [compute_sold_counts_from_users] are never negative
    and never above the number of users; the count of today is at most the
    count of the month whenever the two readings of the clock agree, that
    is, whenever the month read is the month of the day read. *)
Theorem sold_counts_ordered (today_str month_str : string)
    (users_dict : gmap string dict) (today_cnt month_cnt : Z) :
  compute_sold_counts_from_users today_str month_str users_dict
  = Ok (today_cnt, month_cnt) →
  0 ≤ today_cnt ≤ Z.of_nat (size users_dict) ∧
  0 ≤ month_cnt ≤ Z.of_nat (size users_dict) ∧
  (String.prefix month_str today_str = true → today_cnt ≤ month_cnt).
Proof.
  intros H. unfold compute_sold_counts_from_users in H.
  apply sold_counts_loop_bounds in H.
  rewrite length_fmap, length_map_to_list in H.
  destruct H as (Ht & Hm & Hpre). split; [lia|]. split; [lia|].
  intros E. specialize (Hpre E). lia.
Qed.

Lemma sold_counts_ordered_witness :
  ∃ today_cnt month_cnt,
    compute_sold_counts_from_users "2024-02-29" "2024-02"
      {[ "acct1"%string := sold_flagged_record ]}
    = Ok (today_cnt, month_cnt) ∧
    today_cnt = 1 ∧ month_cnt = 1.
Proof.
  assert (Hok : is_Ok (compute_sold_counts_from_users "2024-02-29" "2024-02"
                         {[ "acct1"%string := sold_flagged_record ]}) = true)
    by (vm_compute; reflexivity).
  assert (Hday : (compute_sold_counts_from_users "2024-02-29" "2024-02"
                    {[ "acct1"%string := sold_flagged_record ]}
                  ≫= λ r, Ok (fst r)) = Ok 1) by (vm_compute; reflexivity).
  destruct (compute_sold_counts_from_users "2024-02-29" "2024-02"
              {[ "acct1"%string := sold_flagged_record ]})
    as [[today_cnt month_cnt]|] eqn:E; [|discriminate Hok].
  assert (Hpre : String.prefix "2024-02" "2024-02-29" = true) by reflexivity.
  destruct (sold_counts_ordered _ _ _ _ _ E) as (_ & Hmonth & Horder).
  specialize (Horder Hpre). rewrite map_size_singleton in Hmonth.
  assert (Ht : today_cnt = 1) by (cbn in Hday; congruence).
  exists today_cnt, month_cnt. split; [reflexivity|].
  split; [exact Ht|]. lia.
Defined.

(** ** Month labels of the statistics *)

(** [f"{z:0{width}d}"]: the decimal digits of [z], padded with zeros to
    [width] characters, the sign first. *)
Definition format_0d (width : nat) (z : Z) : string :=
  let digits := pretty (Z.abs_N z) in
  let pad n := String.concat "" (replicate (n - String.length digits) "0"%string) in
  if z <? 0 then "-" +:+ pad (width - 1)%nat +:+ digits
  else pad width +:+ digits.

(** [f"{y:04d}-{m:02d}"] *)
Definition month_label (y m : Z) : string :=
  format_0d 4 y +:+ "-" +:+ format_0d 2 m.

(** The loop of [_months_list] with [n] rounds to go. *)
Fixpoint months_loop (n : nat) (y m : Z) (arr : list string) : list string :=
  match n with
  | O => arr
  | S n =>
      let arr := arr ++ [month_label y m] in
      let m := m - 1 in
      if m =? 0 then months_loop n (y - 1) 12 arr else months_loop n y m arr
  end.

(** [_months_list(n, end)] for an [end] of year [y] and month [m]. *)
Definition _months_list (n : Z) (y m : Z) : list string :=
  reverse (months_loop (Z.to_nat n) y m []).

(** The label of the month number [i], counting months from January of the
    year 0. *)
Definition month_of_index (i : Z) : string :=
  month_label (i / 12) (i mod 12 + 1).

Lemma month_of_index_label (y m : Z) :
  1 ≤ m ≤ 12 → month_of_index (12 * y + m - 1) = month_label y m.
Proof.
  intros Hm. unfold month_of_index.
  assert (Hq : (12 * y + m - 1) / 12 = y)
    by (symmetry; apply (Z.div_unique _ _ _ (m - 1)); lia).
  assert (Hr : (12 * y + m - 1) mod 12 = m - 1)
    by (symmetry; apply (Z.mod_unique _ _ y); lia).
  rewrite Hq, Hr. f_equal. lia.
Qed.

Lemma months_loop_spec (n : nat) (y m : Z) (arr : list string) :
  1 ≤ m ≤ 12 →
  months_loop n y m arr
  = arr ++ ((λ j : nat, month_of_index (12 * y + m - 1 - Z.of_nat j)) <$> seq 0 n).
Proof.
  revert y m arr. induction n as [|n IH]; intros y m arr Hm.
  { simpl. by rewrite app_nil_r. }
  cbn [months_loop]. cbv zeta.
  rewrite <- (month_of_index_label y m Hm).
  destruct (Z.eqb_spec (m - 1) 0) as [E|E].
  - rewrite IH by lia. rewrite <- app_assoc. f_equal.
    cbn [seq fmap list_fmap app]. f_equal; [f_equal; lia|].
    rewrite <- fmap_S_seq, <- list_fmap_compose. apply list_fmap_ext.
    intros i j _. simpl. f_equal. lia.
  - rewrite IH by lia. rewrite <- app_assoc. f_equal.
    cbn [seq fmap list_fmap app]. f_equal; [f_equal; lia|].
    rewrite <- fmap_S_seq, <- list_fmap_compose. apply list_fmap_ext.
    intros i j _. simpl. f_equal. lia.
Qed.

(** X23: [_months_list(n, end)] is the list of the [n] consecutive calendar
    months that end with the month of [end], oldest first: it has [n]
    labels, and label [k] is the month [n - 1 - k] months before [end], the
    year going down by one at each January. *)
Theorem months_list_consecutive (n y m : Z) :
  1 ≤ m ≤ 12 →
  length (_months_list n y m) = Z.to_nat n ∧
  ∀ k : nat, (k < Z.to_nat n)%nat →
    _months_list n y m !! k
    = Some (month_of_index (12 * y + m - 1 - (Z.of_nat (Z.to_nat n) - 1 - Z.of_nat k))).
Proof.
  intros Hm. unfold _months_list. rewrite months_loop_spec by done. simpl.
  split; [by rewrite length_reverse, length_fmap, length_seq|].
  intros k Hk. rewrite reverse_lookup by (by rewrite length_fmap, length_seq).
  rewrite length_fmap, length_seq, list_lookup_fmap.
  rewrite lookup_seq_lt by lia. simpl. do 2 f_equal. lia.
Qed.

Lemma months_list_consecutive_witness :
  _months_list 3 2024 2 !! 0%nat = Some (month_of_index (12 * 2024 + 2 - 1 - 2)) ∧
  month_of_index (12 * 2024 + 2 - 1 - 2) = "2023-12"%string.
Proof.
  split; [|vm_compute; reflexivity].
  apply (proj2 (months_list_consecutive 3 2024 2 ltac:(lia)) 0%nat).
  simpl. lia.
Defined.

(** ** User identifiers *)

(** [s[n:]] *)
Fixpoint string_drop (n : nat) (s : string) : string :=
  match n, s with
  | S n, String _ s => string_drop n s
  | _, _ => s
  end.

(** The loop of [generate_user_id] over the records still to visit; an
    exception of [int] is swallowed by [except Exception]. *)
Fixpoint user_id_loop (ts : string) (values : list dict) (seq : Z) : result Z :=
  match values with
  | [] => Ok seq
  | u :: values =>
      uid ← py_str (get_default u "user_id" (VStr ""));
      if String.prefix ts uid then
        match parse_int (string_drop (String.length ts) uid) with
        | Ok num =>
            user_id_loop ts values (if seq <=? num then num + 1 else seq)
        | Raise NotModelled => Raise NotModelled
        | Raise _ => user_id_loop ts values seq
        end
      else user_id_loop ts values seq
  end.

(** [generate_user_id(users)]; [ts] is the time stamp the clock gives, in
    ASCII digits.  Numbers too long for the interpreter to print are left
    out. *)
Definition generate_user_id (ts : string) (users : gmap string dict)
  : result string :=
  if negb (forallb is_ascii (String.list_ascii_of_string ts))
  then Raise NotModelled
  else
    seq ← user_id_loop ts (map_to_list users).*2 1;
    if Z.abs seq <? 10 ^ Z.of_nat max_str_digits
    then Ok (ts +:+ format_0d 3 seq)
    else Raise NotModelled.

Lemma digit_plain (c : ascii) :
  is_digit c = true →
  is_space c = false ∧ is_underscore c = false ∧
  Ascii.eqb c "-" = false ∧ Ascii.eqb c "+" = false.
Proof.
  destruct c as [[] [] [] [] [] [] [] []]; vm_compute; intros H;
    first [discriminate H | repeat split].
Qed.

Lemma digit_of_pretty_char (r : N) :
  (r < 10)%N → digit_of (pretty_N_char r) = Some (Z.of_N r).
Proof.
  intros Hr.
  assert (r = 0 ∨ r = 1 ∨ r = 2 ∨ r = 3 ∨ r = 4 ∨ r = 5 ∨ r = 6 ∨ r = 7 ∨ r = 8
          ∨ r = 9)%N as Hcases by lia.
  repeat (destruct Hcases as [->|Hcases]; [reflexivity|]). by subst r.
Qed.

(** Reading back the digits [pretty_N_go] prints in front of [s]. *)
Lemma read_digits_pretty_go (x : N) :
  ∀ s, ∃ (p : Z) (d : nat),
    ((0 < x)%N → (0 < d)%nat) ∧
    Forall (λ c, is_digit c = true)
      (take d (String.list_ascii_of_string (pretty_N_go x s))) ∧
    drop d (String.list_ascii_of_string (pretty_N_go x s))
    = String.list_ascii_of_string s ∧
    ∀ acc k, read_digits acc k (String.list_ascii_of_string (pretty_N_go x s))
             = read_digits (acc * p + Z.of_N x) (k + d)
                 (String.list_ascii_of_string s).
Proof.
  induction (N.lt_wf_0 x) as [x _ IH]. intros s.
  assert (x = 0 ∨ 0 < x)%N as [->|Hx] by lia.
  { exists 1, 0%nat. rewrite pretty_N_go_0.
    split; [lia|]. split; [constructor|]. split; [done|].
    intros acc k. f_equal; lia. }
  rewrite pretty_N_go_step by done.
  destruct (IH (x `div` 10)%N (N.div_lt x 10 Hx eq_refl)
              (String (pretty_N_char (x `mod` 10)) s))
    as (p & d & _ & Hdigits & Hrest & Hread).
  pose proof (digit_of_pretty_char (x `mod` 10) (N.mod_lt x 10 ltac:(done))) as Hc.
  exists (10 * p), (S d). split; [lia|].
  set (l := String.list_ascii_of_string
              (pretty_N_go (x `div` 10) (String (pretty_N_char (x `mod` 10)) s)))
    in *.
  assert (El : l = take d l ++ pretty_N_char (x `mod` 10)
                               :: String.list_ascii_of_string s).
  { rewrite <- (take_drop d l) at 1. by rewrite Hrest. }
  assert (Hd : length (take d l) = d).
  { apply (f_equal length) in Hrest. rewrite length_drop in Hrest. simpl in Hrest.
    rewrite length_take. lia. }
  split; [|split].
  - rewrite El. rewrite take_app_ge by lia. rewrite Hd.
    replace (S d - d)%nat with 1%nat by lia. simpl. rewrite take_0.
    apply Forall_app. split; [done|]. constructor; [|constructor].
    unfold is_digit. by rewrite Hc.
  - rewrite El. rewrite drop_app_ge by lia. rewrite Hd.
    replace (S d - d)%nat with 1%nat by lia. done.
  - intros acc k. rewrite Hread. simpl. rewrite Hc.
    pose proof (N.div_mod x 10 ltac:(done)) as Hdm. f_equal; lia.
Qed.

Lemma drop_spaces_digits (l : list ascii) :
  Forall (λ c, is_digit c = true) l → drop_spaces l = l.
Proof.
  intros [|c l' Hc _]; [done|]. simpl.
  by destruct (digit_plain c Hc) as (-> & _).
Qed.

Lemma strip_digits (l : list ascii) :
  Forall (λ c, is_digit c = true) l → strip l = l.
Proof.
  intros Hl. unfold strip. rewrite (drop_spaces_digits l Hl).
  rewrite drop_spaces_digits by (by apply Forall_reverse).
  apply reverse_involutive.
Qed.

Lemma drop_underscores_digits (l : list ascii) (prev : option ascii) :
  Forall (λ c, is_digit c = true) l →
  match prev with Some p => is_digit p = true | None => True end →
  drop_underscores prev l = Some l.
Proof.
  intros Hl. revert prev. induction Hl as [|c l Hc _ IH]; intros prev Hprev.
  - simpl. destruct prev as [p|]; [|done].
    by destruct (digit_plain p Hprev) as (_ & -> & _).
  - simpl. destruct (digit_plain c Hc) as (_ & -> & _).
    rewrite Hc. cbn [negb]. rewrite (IH (Some c) Hc).
    destruct prev; by rewrite ?andb_false_r.
Qed.

(** [int] reads a string of digits as the number the digits denote. *)
Lemma parse_int_digits (s : string) (n : Z) :
  String.list_ascii_of_string s ≠ [] →
  Forall (λ c, is_digit c = true) (String.list_ascii_of_string s) →
  (∃ k, read_digits 0 0 (String.list_ascii_of_string s) = (n, S k, [])) →
  parse_int s = Ok n ∨ parse_int s = Raise NotModelled.
Proof.
  intros Hne Hl (k & Hread). unfold parse_int.
  destruct (negb _); [by right|]. destruct (bool_decide _); [by right|].
  rewrite (strip_digits _ Hl), (drop_underscores_digits _ None Hl I).
  destruct (String.list_ascii_of_string s) as [|c l] eqn:E; [done|].
  unfold read_sign. inversion Hl as [|? ? Hc _]; subst.
  destruct (digit_plain c Hc) as (_ & _ & -> & ->).
  rewrite Hread. by left.
Qed.

Lemma list_ascii_app (a b : string) :
  String.list_ascii_of_string (a +:+ b)
  = String.list_ascii_of_string a ++ String.list_ascii_of_string b.
Proof. induction a as [|c a IH]; [done|]. simpl. by rewrite <- IH. Qed.

Lemma list_ascii_zeros (n : nat) :
  String.list_ascii_of_string (String.concat "" (replicate n "0"%string))
  = replicate n "0"%char.
Proof.
  induction n as [|n IH]; [done|].
  cbn [replicate String.concat]. destruct n as [|n]; [done|].
  change (String.list_ascii_of_string
            ("0" +:+ "" +:+ String.concat "" (replicate (S n) "0"%string))
          = "0"%char :: replicate (S n) "0"%char).
  by rewrite !list_ascii_app, IH.
Qed.

Lemma read_digits_zeros (n k : nat) (l : list ascii) :
  read_digits 0 k (replicate n "0"%char ++ l) = read_digits 0 (k + n) l.
Proof.
  revert k. induction n as [|n IH]; intros k; [simpl; f_equal; lia|].
  cbn [replicate app read_digits].
  change (digit_of "0") with (Some 0). cbv iota. change (10 * 0 + 0) with 0.
  rewrite IH. f_equal; lia.
Qed.

(** The digits [format_0d] prints for a number that is not negative read
    back as that number. *)
Lemma parse_int_format (width : nat) (z : Z) :
  0 ≤ z →
  parse_int (format_0d width z) = Ok z ∨
  parse_int (format_0d width z) = Raise NotModelled.
Proof.
  intros Hz. unfold format_0d. cbv zeta.
  destruct (Z.ltb_spec z 0) as [|_]; [lia|].
  set (pad := (width - String.length (pretty (Z.abs_N z)))%nat).
  assert (Hdigits : ∃ l, String.list_ascii_of_string (pretty (Z.abs_N z)) = l ∧
                         l ≠ [] ∧ Forall (λ c, is_digit c = true) l ∧
                         ∀ k, ∃ k', read_digits 0 k l = (z, S k', [])).
  { unfold pretty, pretty_N. destruct (decide (Z.abs_N z = 0%N)) as [E|E].
    - exists ["0"%char]. split; [done|]. split; [done|].
      split; [by repeat constructor|]. intros k. exists k.
      assert (z = 0) as -> by lia. reflexivity.
    - destruct (read_digits_pretty_go (Z.abs_N z) "")
        as (p & d & Hd & Hall & Hrest & Hread).
      set (l := String.list_ascii_of_string (pretty_N_go (Z.abs_N z) "")) in *.
      assert (El : l = take d l).
      { rewrite <- (take_drop d l) at 1. rewrite Hrest. apply app_nil_r. }
      exists l. split; [done|].
      assert (Hpos : (0 < d)%nat) by (apply Hd; lia).
      split.
      { intros E0. rewrite E0 in Hrest, Hread.
        specialize (Hread 0 0%nat). simpl in Hread. inversion Hread. lia. }
      split; [by rewrite El|].
      intros k. exists (k + d - 1)%nat. rewrite Hread. simpl.
      do 2 f_equal; lia. }
  destruct Hdigits as (l & El & Hne & Hall & Hread).
  apply parse_int_digits.
  - rewrite list_ascii_app, El. by intros (_ & ?)%app_eq_nil.
  - rewrite list_ascii_app, list_ascii_zeros, El. apply Forall_app.
    split; [|done]. by apply Forall_replicate.
  - rewrite list_ascii_app, list_ascii_zeros, El, read_digits_zeros.
    destruct (Hread (0 + pad)%nat) as (k' & ->). by exists k'.
Qed.

Lemma prefix_app (a b : string) : String.prefix a (a +:+ b) = true.
Proof.
  induction a as [|c a IH]; [by destruct b|].
  simpl. destruct (ascii_dec c c); [exact IH | done].
Qed.

Lemma string_drop_app (a b : string) : string_drop (String.length a) (a +:+ b) = b.
Proof. induction a as [|c a IH]; [by destruct b|]. done. Qed.

Lemma user_id_loop_spec (ts : string) (values : list dict) (seq seq' : Z) :
  user_id_loop ts values seq = Ok seq' →
  seq ≤ seq' ∧
  ((∀ u uid, u ∈ values → py_str (get_default u "user_id" (VStr "")) = Ok uid →
             String.prefix ts uid = false) → seq' = seq) ∧
  ∀ u uid, u ∈ values → py_str (get_default u "user_id" (VStr "")) = Ok uid →
           String.prefix ts uid = true →
           match parse_int (string_drop (String.length ts) uid) with
           | Ok num => num < seq'
           | Raise e => e ≠ NotModelled
           end.
Proof.
  revert seq. induction values as [|u0 values IH]; intros seq H.
  { inversion H. split; [lia|]. split; [done|]. by intros u uid ?%elem_of_nil. }
  cbn [user_id_loop] in H. apply bind_Ok_inv in H as (uid0 & Huid0 & H).
  assert (Hstep : ∃ seq1, user_id_loop ts values seq1 = Ok seq' ∧ seq ≤ seq1 ∧
            (String.prefix ts uid0 = false → seq1 = seq) ∧
            (String.prefix ts uid0 = true →
             match parse_int (string_drop (String.length ts) uid0) with
             | Ok num => num < seq1
             | Raise e => e ≠ NotModelled
             end)).
  { destruct (String.prefix ts uid0); [|by exists seq].
    destruct (parse_int (string_drop (String.length ts) uid0)) as [num|e].
    - eexists. split; [exact H|].
      destruct (Z.leb_spec seq num); split; [lia| |lia|]; (split; [done|]);
        intros _; lia.
    - destruct e; try discriminate H; by exists seq. }
  destruct Hstep as (seq1 & Hloop & Hle & Hsame & Hhead).
  apply IH in Hloop as (Hle' & Hsame' & Htail).
  split; [lia|]. split.
  - intros Hnone. rewrite Hsame'.
    + apply Hsame. apply (Hnone u0); [by left | done].
    + intros u uid Hin. apply Hnone. by right.
  - intros u uid [->|Hin]%elem_of_cons Huid Hpre; [|by eapply Htail].
    rewrite Huid in Huid0. inversion Huid0; subst uid0.
    specialize (Hhead Hpre).
    destruct (parse_int (string_drop (String.length ts) uid)); [lia | done].
Qed.

(** X24: the identifier [generate_user_id] returns is the time stamp
    followed by a sequence number of at least three digits, it is the
    identifier of no user of the store, and the sequence number is [001]
    when no user's identifier starts with the time stamp. *)
Theorem generate_user_id_fresh (ts : string) (users : gmap string dict)
    (new_id : string) :
  generate_user_id ts users = Ok new_id →
  (∃ seq, 1 ≤ seq ∧ new_id = ts +:+ format_0d 3 seq) ∧
  (∀ username u uid,
     users !! username = Some u →
     py_str (get_default u "user_id" (VStr "")) = Ok uid → uid ≠ new_id) ∧
  ((∀ username u uid,
      users !! username = Some u →
      py_str (get_default u "user_id" (VStr "")) = Ok uid →
      String.prefix ts uid = false) →
   new_id = ts +:+ "001").
Proof.
  unfold generate_user_id. intros H.
  destruct (negb _); [discriminate|].
  apply bind_Ok_inv in H as (seq & Hloop & H).
  destruct (Z.abs seq <? 10 ^ Z.of_nat max_str_digits); [|discriminate].
  inversion H; subst new_id. clear H.
  apply user_id_loop_spec in Hloop as (Hle & Hsame & Hall).
  assert (Hin : ∀ username u, users !! username = Some u →
                              u ∈ (map_to_list users).*2).
  { intros username u Hu. apply list_elem_of_fmap. exists (username, u).
    split; [done|]. by apply elem_of_map_to_list. }
  split; [by exists seq|]. split.
  - intros username u uid Hu Huid ->.
    specialize (Hall u _ (Hin _ _ Hu) Huid (prefix_app _ _)).
    rewrite string_drop_app in Hall.
    destruct (parse_int_format 3 seq ltac:(lia)) as [E|E]; rewrite E in Hall;
      [lia | done].
  - intros Hnone. rewrite Hsame; [done|].
    intros u uid Hu Huid. apply list_elem_of_fmap in Hu as ([username u'] & -> & Hu).
    apply elem_of_map_to_list in Hu. by eapply Hnone.
Qed.

Lemma generate_user_id_fresh_witness :
  ∃ new_id,
    generate_user_id "20240102030405"
      {[ "acct1"%string := {[ "user_id"%string := VStr "20240102030405007" ]} ]}
    = Ok new_id ∧
    new_id ≠ "20240102030405007"%string.
Proof.
  assert (Hok : is_Ok (generate_user_id "20240102030405"
                         {[ "acct1"%string :=
                              {[ "user_id"%string := VStr "20240102030405007" ]} ]})
                = true) by (vm_compute; reflexivity).
  destruct (generate_user_id "20240102030405"
              {[ "acct1"%string :=
                   {[ "user_id"%string := VStr "20240102030405007" ]} ]})
    as [new_id|] eqn:E; [|discriminate Hok].
  exists new_id. split; [reflexivity|].
  destruct (generate_user_id_fresh _ _ _ E) as (_ & Hfresh & _).
  intros Heq.
  apply (Hfresh "acct1"%string {[ "user_id"%string := VStr "20240102030405007" ]}
           "20240102030405007"%string);
    [apply lookup_singleton_eq | reflexivity | symmetry; exact Heq].
Defined.

(** ** Approving a distributor's purchase request *)

(** A record of the distribution requests file, with the fields the approval
    reads and writes. *)
Record distribution_request := {
  req_id : string;
  req_agent : string;
  req_distributor : string;
  req_quantity : Z;
  req_product : string;
  req_status : string;
  req_approved_at : option string;
  req_assigned_accounts : option (list string);
}.

(** The comprehension [available_accounts]: the usernames whose accounting
    names the agent as owner with status [agent_stock], in the order of the
    store. *)
Fixpoint available_accounts (current_agent : string) (items : list (string * dict))
  : result (list string) :=
  match items with
  | [] => Ok []
  | (username, user) :: items =>
      state ← accounting_of user;
      rest ← available_accounts current_agent items;
      if py_eq (get state "owner") (VStr current_agent)
         && py_eq (get state "status") (VStr ACCOUNT_STATUS_AGENT_STOCK)
      then Ok (username :: rest) else Ok rest
  end.

(** The loop over the selected accounts. *)
Fixpoint transfer_accounts (distributor sale_time : string)
    (selected_accounts : list string) (users : gmap string dict)
  : result (gmap string dict) :=
  match selected_accounts with
  | [] => Ok users
  | username :: selected_accounts =>
      match users !! username with
      | Some record =>
          r ← update_account_state record (Some distributor) (Some distributor)
                (Some ACCOUNT_STATUS_DISTRIBUTOR_STOCK) None None;
          transfer_accounts distributor sale_time selected_accounts
            (<[username := <["transferred_at" := VStr sale_time]> (fst r)]> users)
      | None => Raise NotModelled
      end
  end.

(** The request marked approved, in place in the list of requests. *)
Fixpoint mark_approved (request_id approved_at : string)
    (selected_accounts : list string) (requests : list distribution_request)
  : list distribution_request :=
  match requests with
  | [] => []
  | req :: requests =>
      if String.eqb (req_id req) request_id
      then {| req_id := req_id req; req_agent := req_agent req;
              req_distributor := req_distributor req;
              req_quantity := req_quantity req; req_product := req_product req;
              req_status := "approved";
              req_approved_at := Some approved_at;
              req_assigned_accounts := Some selected_accounts |} :: requests
      else req :: mark_approved request_id approved_at selected_accounts requests
  end.

(** [approve_distribution_request(request_id)] for the logged-in agent
    [current_agent]: [None] when the request is refused, else the users,
    the requests and the ledger that are saved.  [sample] is
    [random.sample], [price] is what the products file holds as the price of
    the product, [sale_time] and [approved_at] are two readings of the
    clock. *)
Definition approve_distribution_request (current_agent request_id : string)
    (sample : list string → nat → list string)
    (sale_time approved_at : string) (s1 s2 : stamp) (price : value)
    (requests : list distribution_request)
    (users : gmap string dict) (records : list dict)
  : result (option (gmap string dict * list distribution_request * list dict)) :=
  match find (λ req, String.eqb (req_id req) request_id) requests with
  | None => Ok None
  | Some request_record =>
      if negb (String.eqb (req_agent request_record) current_agent) then Ok None
      else if negb (String.eqb (req_status request_record) "pending") then Ok None
      else
        available ← available_accounts current_agent (map_to_list users);
        let requested_quantity := req_quantity request_record in
        if Z.of_nat (length available) <? requested_quantity then Ok None
        else if requested_quantity <? 0 then Raise ValueError
        else
          let selected_accounts := sample available (Z.to_nat requested_quantity) in
          let distributor := req_distributor request_record in
          users ← transfer_accounts distributor sale_time selected_accounts users;
          let requests :=
            mark_approved request_id approved_at selected_accounts requests in
          let product_name := req_product request_record in
          product_price ← LedgerEntry.float_or_0 price;
          total_amount ← float_mul_int product_price requested_quantity;
          r ← record_transaction (stamp_uuid s1) (stamp_now s1) records
                (with_counterparty distributor
                   (with_product (VStr product_name)
                      (ledger_kw TRANSACTION_AGENT_TO_DISTRIBUTOR current_agent
                         ROLE_AGENT total_amount requested_quantity)));
          r ← record_transaction (stamp_uuid s2) (stamp_now s2) (fst r)
                (with_direction "out"
                   (with_counterparty current_agent
                      (with_product (VStr product_name)
                         (ledger_kw TRANSACTION_AGENT_TO_DISTRIBUTOR distributor
                            ROLE_DISTRIBUTOR total_amount requested_quantity))));
          Ok (Some (users, requests, fst r))
  end.

Lemma available_accounts_spec (current_agent : string) (items : list (string * dict))
    (l : list string) :
  available_accounts current_agent items = Ok l →
  sublist l items.*1 ∧
  ∀ u, u ∈ l → ∃ user state, (u, user) ∈ items ∧ accounting_of user = Ok state ∧
                 py_eq (get state "owner") (VStr current_agent)
                 && py_eq (get state "status") (VStr ACCOUNT_STATUS_AGENT_STOCK)
                 = true.
Proof.
  revert l. induction items as [|[username user] items IH]; intros l H.
  { inversion H. split; [constructor|]. by intros u ?%elem_of_nil. }
  cbn [available_accounts] in H.
  apply bind_Ok_inv in H as (state & Hstate & H).
  apply bind_Ok_inv in H as (rest & Hrest & H).
  apply IH in Hrest as (Hsub & Hall).
  assert (Htail : ∀ u, u ∈ rest →
            ∃ user' state', (u, user') ∈ (username, user) :: items ∧
              accounting_of user' = Ok state' ∧
              py_eq (get state' "owner") (VStr current_agent)
              && py_eq (get state' "status") (VStr ACCOUNT_STATUS_AGENT_STOCK) = true).
  { intros u (user' & state' & Hin & Hrec)%Hall. exists user', state'.
    split; [by right | done]. }
  destruct (py_eq (get state "owner") (VStr current_agent)
            && py_eq (get state "status") (VStr ACCOUNT_STATUS_AGENT_STOCK)) eqn:G;
    inversion H; subst l; simpl.
  - split; [by constructor|].
    intros u [->|Hin]%elem_of_cons; [|by apply Htail].
    exists user, state. split; [by left | done].
  - split; [by constructor | done].
Qed.

Lemma listed_stamped (key who status k : string) (v : value) (record : dict) :
  k ≠ "accounting"%string →
  listed_as key who status record → listed_as key who status (<[k := v]> record).
Proof.
  intros Hk (state & Hacc & Hrest). exists state. split; [|done].
  unfold get. by rewrite lookup_insert_ne.
Qed.

Lemma transfer_accounts_spec (distributor sale_time : string)
    (selected : list string) (users users' : gmap string dict) :
  NoDup selected →
  (∀ u, u ∈ selected →
        ∃ record, users !! u = Some record ∧ _is_inventory_record record = Ok true) →
  transfer_accounts distributor sale_time selected users = Ok users' →
  (∀ u, u ∈ selected →
        ∃ record', users' !! u = Some record' ∧
                   record' !! "transferred_at" = Some (VStr sale_time) ∧
                   listed_as "owner" distributor ACCOUNT_STATUS_DISTRIBUTOR_STOCK
                     record') ∧
  (∀ u, u ∉ selected → users' !! u = users !! u).
Proof.
  intros Hnodup. revert users.
  induction Hnodup as [|username rest Hnotin Hnodup IH]; intros users Hrecords H.
  { inversion H. split; [by intros u ?%elem_of_nil | done]. }
  cbn [transfer_accounts] in H.
  destruct (Hrecords username ltac:(by left)) as (record & Hu & Hinv).
  rewrite Hu in H. apply bind_Ok_inv in H as ([dF sF] & Hupd & H). cbn [fst] in H.
  apply IH in H as (Hmoved & Hkept).
  - split.
    + intros u [->|Hin]%elem_of_cons; [|by apply Hmoved].
      rewrite (Hkept _ Hnotin), lookup_insert_eq. eexists. split; [done|].
      split; [by rewrite lookup_insert_eq|].
      apply listed_stamped; [done|]. by eapply update_listed.
    + intros u Hu'. rewrite Hkept by (intros ?; apply Hu'; by right).
      apply lookup_insert_ne. intros ->. apply Hu'. by left.
  - intros u Hin. destruct (Hrecords u ltac:(by right)) as (record0 & Hu0 & Hinv0).
    exists record0. split; [|done]. rewrite lookup_insert_ne; [done|].
    by intros ->.
Qed.

Lemma find_mark_approved (request_id approved_at : string) (selected : list string)
    (requests : list distribution_request) (req : distribution_request) :
  find (λ req, String.eqb (req_id req) request_id) requests = Some req →
  ∃ req', find (λ req, String.eqb (req_id req) request_id)
            (mark_approved request_id approved_at selected requests) = Some req' ∧
          req_status req' = "approved"%string ∧
          req_assigned_accounts req' = Some selected.
Proof.
  induction requests as [|r requests IH]; [done|]. simpl.
  destruct (String.eqb (req_id r) request_id) eqn:E.
  - intros _. simpl. rewrite E. by eexists.
  - intros H. simpl. rewrite E. by apply IH.
Qed.

(** What a [random.sample] guarantees: [k] distinct members of the
    population. *)
Definition samples (sample : list string → nat → list string) : Prop :=
  ∀ l k, NoDup l → (k ≤ length l)%nat →
         NoDup (sample l k) ∧ length (sample l k) = k ∧
         ∀ u, u ∈ sample l k → u ∈ l.

(** X25: provided [random.sample] returns distinct members of the population
    and every account of the agent's stock is an inventory record (one
    [_is_inventory_record] accepts), when [approve_distribution_request]
    approves a request, the request was a pending one of the current agent;
    as many accounts as requested,
    all different and all from the agent's stock, are now in the
    distributor's stock, where the distributor sees them as unsold, and
    carry the transfer time; no other account changes; the ledger gains an
    incoming entry of the agent and an outgoing entry of the distributor for
    the same amount and quantity; and the request, now marked approved with
    the accounts it was given, cannot be approved again. *)
Theorem approve_distribution_transfers (current_agent request_id : string)
    (sample : list string → nat → list string)
    (sale_time approved_at : string) (s1 s2 : stamp) (price : value)
    (requests requests' : list distribution_request)
    (users users' : gmap string dict) (records records' : list dict) :
  samples sample →
  stock_is_inventory current_agent users →
  approve_distribution_request current_agent request_id sample sale_time
    approved_at s1 s2 price requests users records
  = Ok (Some (users', requests', records')) →
  ∃ req selected,
    find (λ req, String.eqb (req_id req) request_id) requests = Some req ∧
    req_agent req = current_agent ∧ req_status req = "pending"%string ∧
    0 ≤ req_quantity req ∧
    length selected = Z.to_nat (req_quantity req) ∧ NoDup selected ∧
    (∀ u, u ∈ selected →
          in_stock current_agent users u ∧
          ∃ record', users' !! u = Some record' ∧
                     record' !! "transferred_at" = Some (VStr sale_time) ∧
                     get_distributor_user_type record' (req_distributor req)
                     = Ok "unsold"%string) ∧
    (∀ u, u ∉ selected → users' !! u = users !! u) ∧
    (∃ d1 d2, records' = records ++ [d1; d2] ∧
              d1 !! "actor" = Some (VStr current_agent) ∧
              d1 !! "direction" = Some (VStr "in") ∧
              d2 !! "actor" = Some (VStr (req_distributor req)) ∧
              d2 !! "direction" = Some (VStr "out") ∧
              d1 !! "amount" = d2 !! "amount" ∧
              d1 !! "quantity" = Some (VInt (req_quantity req)) ∧
              d2 !! "quantity" = Some (VInt (req_quantity req))) ∧
    (∃ req', find (λ req, String.eqb (req_id req) request_id) requests' = Some req' ∧
             req_assigned_accounts req' = Some selected) ∧
    ∀ sample' t1 t2 s1' s2' price' users2 records2,
      approve_distribution_request current_agent request_id sample' t1 t2 s1' s2'
        price' requests' users2 records2 = Ok None.
Proof.
  intros Hsample Hinv H. unfold approve_distribution_request in H.
  destruct (find _ requests) as [req|] eqn:Hfind; [|discriminate].
  destruct (String.eqb_spec (req_agent req) current_agent) as [Hagent|];
    [|discriminate].
  destruct (String.eqb_spec (req_status req) "pending") as [Hstatus|];
    [|discriminate].
  cbn [negb] in H. apply bind_Ok_inv in H as (available & Havail & H).
  cbv zeta in H.
  destruct (Z.ltb_spec (Z.of_nat (length available)) (req_quantity req)) as [|Hlen];
    [discriminate|].
  destruct (Z.ltb_spec (req_quantity req) 0) as [|Hpos]; [discriminate|].
  set (selected := sample available (Z.to_nat (req_quantity req))) in *.
  apply bind_Ok_inv in H as (users1 & Htransfer & H).
  apply bind_Ok_inv in H as (product_price & _ & H).
  apply bind_Ok_inv in H as (total & _ & H).
  apply bind_Ok_inv in H as (r1 & Hr1 & H).
  apply bind_Ok_inv in H as (r2 & Hr2 & H).
  apply record_transaction_Ok_inv in Hr1 as (d1 & Hd1 & ->). cbn [fst] in Hr2.
  apply record_transaction_Ok_inv in Hr2 as (d2 & Hd2 & ->). cbn [fst] in H.
  inversion H; subst users' requests' records'. clear H.
  apply available_accounts_spec in Havail as (Hsub & Hstock).
  assert (Hnodup : NoDup available).
  { exact (sublist_NoDup _ _ (NoDup_fst_map_to_list users) Hsub). }
  assert (Hk : (Z.to_nat (req_quantity req) ≤ length available)%nat) by lia.
  destruct (Hsample available (Z.to_nat (req_quantity req)) Hnodup Hk)
    as (Hsel & Hcount & Hmem).
  fold selected in Hsel, Hcount, Hmem.
  assert (Hin_stock : ∀ u, u ∈ selected → in_stock current_agent users u).
  { intros u (user & state & Hu & Hstate & G)%Hmem%Hstock.
    apply elem_of_map_to_list in Hu. by exists user, state. }
  apply transfer_accounts_spec in Htransfer as (Hmoved & Hkept); [|done|].
  2:{ intros u Hu. destruct (Hin_stock u Hu) as (record & state & Hrec & Hrest).
      exists record. split; [done|]. apply (Hinv u record Hrec).
      by exists record, state. }
  exists req, selected.
  split; [done|]. split; [done|]. split; [done|]. split; [done|].
  split; [done|]. split; [done|]. split.
  { intros u Hu. split; [by apply Hin_stock|].
    destruct (Hmoved u Hu) as (record' & Hrec' & Hstamp & state & Hacc & Hne & Ho & Hst).
    exists record'. split; [done|]. split; [done|].
    by apply (user_type_of_state _ _ _ Hacc Hne Ho). }
  split; [done|]. split.
  { exists d1, d2. rewrite <- app_assoc. split; [done|].
    unfold build_ledger_entry in Hd1, Hd2.
    apply to_dict_Ok_inv in Hd1 as (price1 & _ & ->).
    apply to_dict_Ok_inv in Hd2 as (price2 & _ & ->).
    rewrite !agent_field_lookup by done. done. }
  destruct (find_mark_approved request_id approved_at selected requests req Hfind)
    as (req' & Hfind' & Hstatus' & Hassigned).
  split; [by exists req'|].
  intros sample' t1 t2 s1' s2' price' users2 records2.
  unfold approve_distribution_request. rewrite Hfind', Hstatus'.
  by destruct (negb (String.eqb (req_agent req') current_agent)).
Qed.

Lemma samples_take : samples (λ l k, take k l).
Proof.
  intros l k Hl Hk. split; [|split].
  - exact (sublist_NoDup _ _ Hl (sublist_take l k)).
  - rewrite length_take. lia.
  - intros u Hu. by apply (subseteq_take k l).
Qed.

(** A pending request of [distB] for one account of [agentA]. *)
Definition pending_request : distribution_request :=
  {| req_id := "req-1"; req_agent := "agentA"; req_distributor := "distB";
     req_quantity := 1; req_product := "basic"; req_status := "pending";
     req_approved_at := None; req_assigned_accounts := None |}.

Lemma approve_distribution_transfers_witness :
  ∃ users' requests' d1 d2,
    approve_distribution_request "agentA" "req-1" (λ l k, take k l)
      "2024-03-01 08:00:00" "2024-03-01 08:00:01" (fixed_stamp 0) (fixed_stamp 1)
      (VFloat 9.9) [pending_request]
      (<[ "acct2"%string := agent_stock_record ]>
         {[ "acct1"%string := agent_stock_record ]}) []
    = Ok (Some (users', requests', [d1; d2])) ∧
    d1 !! "direction" = Some (VStr "in") ∧
    d2 !! "direction" = Some (VStr "out") ∧
    d1 !! "amount" = d2 !! "amount".
Proof.
  set (users := (<[ "acct2"%string := agent_stock_record ]>
                   {[ "acct1"%string := agent_stock_record ]} : gmap string dict)).
  assert (Hok : (approve_distribution_request "agentA" "req-1" (λ l k, take k l)
                   "2024-03-01 08:00:00" "2024-03-01 08:00:01" (fixed_stamp 0)
                   (fixed_stamp 1) (VFloat 9.9) [pending_request] users []
                 ≫= λ r, Ok (match r with Some _ => true | None => false end))
                = Ok true) by (vm_compute; reflexivity).
  destruct (approve_distribution_request "agentA" "req-1" (λ l k, take k l)
              "2024-03-01 08:00:00" "2024-03-01 08:00:01" (fixed_stamp 0)
              (fixed_stamp 1) (VFloat 9.9) [pending_request] users [])
    as [[[[users' requests'] records']|]|] eqn:E;
    [|discriminate Hok|discriminate Hok].
  clear Hok.
  assert (Hinv : stock_is_inventory "agentA" users).
  { intros name record Hu _. unfold users in Hu.
    apply lookup_insert_Some in Hu as [(_ & <-) | (_ & Hu)];
      [vm_compute; reflexivity|].
    apply lookup_singleton_Some in Hu as (_ & <-). vm_compute. reflexivity. }
  destruct (approve_distribution_transfers _ _ _ _ _ _ _ _ _ _ _ _ _ _
              samples_take Hinv E)
    as (req & selected & _ & _ & _ & _ & _ & _ & _ & _ & Hledger & _).
  destruct Hledger as (d1 & d2 & -> & _ & Hin & _ & Hout & Hamount & _).
  exists users', requests', d1, d2.
  split; [reflexivity|]. split; [exact Hin|]. split; [exact Hout | exact Hamount].
Defined.

(** ** Granting and revoking the distributor role *)

(** [assign_distributor()] for the logged-in agent [current_user]; [username]
    is the form field, [None] when it is missing.  The result is the store
    that is saved, [None] when the request is refused. *)
Definition assign_distributor (current_user now : string)
    (users : gmap string dict) (username : option string)
  : option (gmap string dict) :=
  match username with
  | None => None
  | Some username =>
      if negb (py_truthy (VStr username)) then None
      else
        match users !! username with
        | None => None
        | Some user_info =>
            if negb (py_eq (get user_info "owner") (VStr current_user)) then None
            else if py_truthy (get user_info "is_admin")
                    || py_truthy (get user_info "is_agent")
                    || py_truthy (get user_info "is_distributor")
            then None
            else
              let user_info := <["is_distributor" := VBool true]> user_info in
              let user_info := <["distributor_owner" := VStr current_user]> user_info in
              let user_info := <["created_at" := VStr now]> user_info in
              Some (<[username := user_info]> users)
        end
  end.

(** [revoke_distributor()] *)
Definition revoke_distributor (current_user : string)
    (users : gmap string dict) (username : option string)
  : option (gmap string dict) :=
  match username with
  | None => None
  | Some username =>
      if negb (py_truthy (VStr username)) then None
      else
        match users !! username with
        | None => None
        | Some user_info =>
            if negb (py_eq (get user_info "distributor_owner") (VStr current_user))
            then None
            else
              let user_info := <["is_distributor" := VBool false]> user_info in
              let user_info := delete "distributor_owner" user_info in
              Some (<[username := user_info]> users)
        end
  end.

(** X26: the distributor role an agent grants is what [assign_accounts]
    checks.  After [assign_distributor] succeeds for a user, the granting
    agent's [assign_accounts] requests naming that user as distributor are
    no longer refused, while another agent can neither use nor revoke the
    grant; the granting agent can revoke it, after which [assign_accounts]
    refuses the user again for every agent; and neither call touches any
    other user. *)
Theorem distributor_grant_controls_assignment (current_user now username : string)
    (users users1 : gmap string dict) :
  assign_distributor current_user now users (Some username) = Some users1 →
  (∀ times accounts r,
     accounts ≠ [] →
     assign_accounts current_user times accounts username users1 = Ok r →
     is_Some r) ∧
  (∀ other times accounts,
     other ≠ current_user →
     assign_accounts other times accounts username users1 = Ok None ∧
     revoke_distributor other users1 (Some username) = None) ∧
  (∀ u, u ≠ username → users1 !! u = users !! u) ∧
  ∃ users2,
    revoke_distributor current_user users1 (Some username) = Some users2 ∧
    (∀ agent times accounts,
       assign_accounts agent times accounts username users2 = Ok None) ∧
    (∀ u, u ≠ username → users2 !! u = users !! u).
Proof.
  unfold assign_distributor. intros H.
  destruct (py_truthy (VStr username)) eqn:Hname; [|discriminate]. cbn [negb] in H.
  destruct (users !! username) as [info|] eqn:Hu; [|discriminate].
  destruct (py_eq (get info "owner") (VStr current_user)); [|discriminate].
  cbn [negb] in H. destruct (_ || _); [discriminate|].
  inversion H; subst users1. clear H.
  set (info1 := <["created_at" := VStr now]>
                  (<["distributor_owner" := VStr current_user]>
                     (<["is_distributor" := VBool true]> info))).
  assert (Hflag : get info1 "is_distributor" = VBool true)
    by (unfold get, info1; by map_simpl).
  assert (Howner : get info1 "distributor_owner" = VStr current_user)
    by (unfold get, info1; by map_simpl).
  assert (Hne : info1 ≠ ∅).
  { intros E. apply (f_equal (λ m : dict, m !! "created_at")) in E.
    unfold info1 in E. by rewrite lookup_insert_eq in E. }
  split; [|split; [|split]].
  - intros times accounts r Hacc Hr. unfold assign_accounts in Hr.
    destruct accounts as [|a accounts]; [done|].
    rewrite Hname, lookup_insert_eq, Hflag, Howner, py_eq_refl_str in Hr.
    simpl in Hr. rewrite bool_decide_false in Hr by done. simpl in Hr.
    apply bind_Ok_inv in Hr as (res & _ & Hr). inversion Hr. by eexists.
  - intros other times accounts Hother.
    assert (Hcmp : py_eq (VStr current_user) (VStr other) = false).
    { simpl. apply String.eqb_neq. by intros ->. }
    split.
    + unfold assign_accounts. rewrite lookup_insert_eq, Howner, Hcmp.
      destruct (negb _ || negb _); [done|]. by rewrite !orb_true_r.
    + unfold revoke_distributor. by rewrite Hname, lookup_insert_eq, Howner, Hcmp.
  - intros u Hne'. by rewrite lookup_insert_ne.
  - eexists. split.
    { unfold revoke_distributor.
      by rewrite Hname, lookup_insert_eq, Howner, py_eq_refl_str. }
    split.
    + intros agent times accounts. unfold assign_accounts.
      rewrite lookup_insert_eq.
      assert (Hoff : get (delete "distributor_owner"
                            (<["is_distributor" := VBool false]> info1))
                       "is_distributor" = VBool false)
        by (unfold get; by map_simpl).
      rewrite Hoff. destruct (negb _ || negb _); [done|].
      cbn [py_truthy negb]. by rewrite orb_true_r.
    + intros u Hne'. by rewrite !lookup_insert_ne.
Qed.

(** A customer account of [agentA], before and after the grant. *)
Definition customer_of_agent : dict := {[ "owner"%string := VStr "agentA" ]}.

Definition granted_customer : dict :=
  <["created_at" := VStr "2024-03-04 10:00:00"]>
    (<["distributor_owner" := VStr "agentA"]>
       (<["is_distributor" := VBool true]> customer_of_agent)).

Lemma distributor_grant_controls_assignment_witness :
  assign_distributor "agentA" "2024-03-04 10:00:00"
    {[ "u1"%string := customer_of_agent ]} (Some "u1"%string)
  = Some {[ "u1"%string := granted_customer ]} ∧
  ∃ users2,
    revoke_distributor "agentA" {[ "u1"%string := granted_customer ]}
      (Some "u1"%string) = Some users2 ∧
    assign_accounts "agentA" (λ _, ""%string) ["acct1"%string] "u1" users2 = Ok None.
Proof.
  assert (H : assign_distributor "agentA" "2024-03-04 10:00:00"
                {[ "u1"%string := customer_of_agent ]} (Some "u1"%string)
              = Some {[ "u1"%string := granted_customer ]}).
  { unfold assign_distributor. rewrite lookup_singleton_eq.
    cbn -[insert]. by rewrite insert_singleton_eq. }
  split; [exact H|].
  destruct (distributor_grant_controls_assignment _ _ _ _ _ H)
    as (_ & _ & _ & users2 & Hrevoke & Hrefused & _).
  exists users2. split; [exact Hrevoke | apply Hrefused].
Defined.

(** ** Accounts outside the inventory *)

Lemma update_non_inventory (record record' : dict)
    (owner manager status sale_type sold_at : option string) (s : AccountState.t) :
  _is_inventory_record record = Ok false →
  update_account_state record owner manager status sale_type sold_at
  = Ok (record', s) →
  s = AccountState.default ∧ record' !! "accounting" = record !! "accounting".
Proof.
  intros Hinv H. unfold update_account_state in H. rewrite Hinv in H.
  cbn [mbind result_bind negb] in H.
  apply bind_Ok_inv in H as (d1 & Hroles & H). inversion H; subst d1 s.
  split; [done|].
  apply normalise_roles_Ok in Hroles as (roles & _ & ->). by map_simpl.
Qed.

Lemma user_type_ext (record record' : dict) (distributor : string) :
  record' !! "accounting" = record !! "accounting" →
  get_distributor_user_type record' distributor
  = get_distributor_user_type record distributor.
Proof. intros E. unfold get_distributor_user_type, get_default. by rewrite E. Qed.

(** A record whose accounting dict puts it in the stock of [distB], without
    any of the fields that make an inventory record. *)
Definition stray_record : dict :=
  list_to_map
    [("price", VFloat 9.99);
     ("accounting",
      VDict (list_to_map
               [("owner", VStr "distB"); ("manager", VStr "distB");
                ("status", VStr ACCOUNT_STATUS_DISTRIBUTOR_STOCK)]%string))]%string.

(** X27: the sale of an account is recorded whether or not the account takes
    it.  For a record that is not an inventory record, though its accounting
    dict puts it in the distributor's stock, [distributor_mark_sold] reports
    success and adds the sale to the ledger, while [update_account_state]
    leaves the accounting dict as it is: the account is still listed as
    unsold, and can be marked sold again. *)
Theorem distributor_sale_without_inventory (distributor sold_time username : string)
    (s : stamp) (users users' : gmap string dict) (records records' : list dict)
    (record : dict) (flag : bool) :
  users !! username = Some record →
  _is_inventory_record record = Ok false →
  get_distributor_user_type record distributor = Ok "unsold"%string →
  distributor_mark_sold distributor sold_time s users records username
  = Ok (users', records', flag) →
  flag = true ∧
  (∃ d, records' = records ++ [d] ∧
        d !! "transaction_type" = Some (VStr TRANSACTION_DISTRIBUTOR_SALE) ∧
        d !! "account_username" = Some (VStr username)) ∧
  ∃ record', users' !! username = Some record' ∧
             record' !! "accounting" = record !! "accounting" ∧
             get_distributor_user_type record' distributor = Ok "unsold"%string.
Proof.
  intros Hu Hinv Ht H. unfold distributor_mark_sold in H. rewrite Hu in H.
  rewrite (user_type_state _ _ _ Ht) in H by done. cbn [mbind result_bind] in H.
  pose proof Ht as Hguard. apply unsold_guard in Hguard as (G & _). rewrite G in H.
  apply bind_Ok_inv in H as ([record' s'] & Hupd & H). cbn [fst] in H.
  apply bind_Ok_inv in H as (amount & _ & H).
  apply bind_Ok_inv in H as (e & He & H).
  apply record_transaction_Ok_inv in He as (d & Hd & ->). cbn [fst] in H.
  inversion H; subst users' records' flag. clear H.
  destruct (update_non_inventory _ _ _ _ _ _ _ _ Hinv Hupd) as (_ & Hacc).
  split; [done|]. split.
  - exists d. split; [done|].
    unfold build_ledger_entry in Hd. apply to_dict_Ok_inv in Hd as (price & _ & ->).
    rewrite !agent_field_lookup by done. done.
  - exists record'. rewrite lookup_insert_eq. split; [done|]. split; [done|].
    by rewrite (user_type_ext _ _ _ Hacc).
Qed.

Lemma distributor_sale_without_inventory_witness :
  ∃ users' records' record',
    distributor_mark_sold "distB" "2024-02-02 10:00:00" (fixed_stamp 0)
      {[ "acct1"%string := stray_record ]} [] "acct1"
    = Ok (users', records', true) ∧
    length records' = 1%nat ∧
    users' !! "acct1"%string = Some record' ∧
    get_distributor_user_type record' "distB" = Ok "unsold"%string.
Proof.
  assert (Hok : is_Ok (distributor_mark_sold "distB" "2024-02-02 10:00:00"
                         (fixed_stamp 0) {[ "acct1"%string := stray_record ]} []
                         "acct1") = true) by (vm_compute; reflexivity).
  destruct (distributor_mark_sold "distB" "2024-02-02 10:00:00" (fixed_stamp 0)
              {[ "acct1"%string := stray_record ]} [] "acct1")
    as [[[users' records'] flag]|] eqn:E; [|discriminate Hok].
  assert (Hu : ({[ "acct1"%string := stray_record ]} : gmap string dict)
               !! "acct1"%string = Some stray_record) by apply lookup_singleton_eq.
  assert (Hinv : _is_inventory_record stray_record = Ok false)
    by (vm_compute; reflexivity).
  assert (Ht : get_distributor_user_type stray_record "distB" = Ok "unsold"%string)
    by (vm_compute; reflexivity).
  destruct (distributor_sale_without_inventory _ _ _ _ _ _ _ _ _ _ Hu Hinv Ht E)
    as (-> & (d & -> & _) & record' & Hr' & _ & Hunsold).
  exists users', [d], record'. repeat split; assumption || reflexivity.
Defined.

(** ** The stock the approval counts *)

(** X28: the stock [approve_distribution_request] counts is the stock
    [iter_agent_inventory] yields: whenever the comprehension
    [available_accounts] returns, the iterator returns too, and yields
    exactly the accounts of the listed usernames, in the same order. *)
Theorem available_accounts_inventory (current_agent : string)
    (users : gmap string dict) (available : list string) :
  available_accounts current_agent (map_to_list users) = Ok available →
  ∃ l, iter_agent_inventory users current_agent = Ok l ∧ l.*1 = available.
Proof.
  unfold iter_agent_inventory, iter_accounts.
  generalize (map_to_list users). intros items. revert available.
  induction items as [|[username record] items IH]; intros available H.
  { inversion H. by exists []. }
  cbn [available_accounts] in H.
  apply bind_Ok_inv in H as (state & Hstate & H).
  apply bind_Ok_inv in H as (rest & Hrest & H).
  destruct (IH rest Hrest) as (l & Hl & Hfst).
  cbn [foldr]. rewrite Hl.
  unfold accounting_of, get_default in Hstate.
  destruct (record !! "accounting") as [v|] eqn:Hacc; simpl in Hstate.
  - assert (Hget : get record "accounting" = v) by (unfold get; by rewrite Hacc).
    rewrite Hget. destruct v; try discriminate Hstate.
    inversion Hstate; subst state.
    destruct (decide (d = ∅)) as [->|Hne].
    + simpl. assert (rest = available) as <-.
      { unfold get in H. rewrite lookup_empty in H. simpl in H. by inversion H. }
      by exists l.
    + cbn [py_truthy]. rewrite bool_decide_false by done. cbn [negb].
      destruct (py_eq (get d "owner") (VStr current_agent)
                && py_eq (get d "status") (VStr ACCOUNT_STATUS_AGENT_STOCK));
        inversion H; subst available.
      * exists ((username, record) :: l). split; [done|].
        rewrite fmap_cons. by rewrite Hfst.
      * by exists l.
  - assert (Hget : get record "accounting" = VNone) by (unfold get; by rewrite Hacc).
    rewrite Hget. inversion Hstate; subst state.
    unfold get in H. rewrite lookup_empty in H. simpl in H. inversion H; subst.
    by exists l.
Qed.

Lemma available_accounts_inventory_witness :
  ∃ l, iter_agent_inventory {[ "acct1"%string := agent_stock_record ]} "agentA" = Ok l ∧
       l.*1 = ["acct1"%string].
Proof.
  apply (available_accounts_inventory "agentA"
           {[ "acct1"%string := agent_stock_record ]} ["acct1"%string]).
  rewrite map_to_list_singleton. vm_compute. reflexivity.
Defined.
